(** * GraphSAGE distributed training driver (train_dist_drpa_ogbn-papers.py)

    A shallow embedding of the per-rank training script: the [GraphSAGE]
    module, [evaluate], [run], [main] and the [__main__] block.  Calls into
    torch, dgl and the collective backend are kept as named oracles; what
    the script itself does (control flow, dictionary accesses, asserts,
    name lookups, calls, Python arithmetic) is written out. *)

From Stdlib Require Import ZArith QArith Qminmax List Ascii String Lia.
From stdpp Require Import base option list strings gmap pretty.

Set Warnings "-register-all".
Local Open Scope string_scope.
Local Open Scope list_scope.
Local Open Scope Z_scope.

(** ** Python values and exceptions *)

Inductive exn :=
  | TypeError (msg : string)
  | NameError (name : string)
  | KeyError (key : string)
  | AttributeError (attr : string)
  | ValueError (msg : string)
  | IndexError (msg : string)
  | ZeroDivisionError
  | AssertionError (msg : string)
  | OSError (path : string)
  | JSONDecodeError
  | DGLError (msg : string).

(** What [json.load] can return. *)
Inductive pyval :=
  | PNone
  | PBool (b : bool)
  | PInt (z : Z)
  | PFloat (q : Q)
  | PStr (s : string)
  | PList (l : list pyval)
  | PDict (d : gmap string pyval).

(** [range(n)] for an int [n]: empty when [n <= 0]. *)
Definition py_range (n : Z) : list Z := Z.of_nat <$> seq 0 (Z.to_nat n).

(** [enumerate(l)]. *)
Definition enumerate {A} (l : list A) : list (Z * A) :=
  imap (fun i x => (Z.of_nat i, x)) l.

(** [len(l)] as a Python int. *)
Definition len {A} (l : list A) : Z := Z.of_nat (length l).

(** ** The GraphSAGE module (lines 37-67) *)

(** A [SAGEConv(in_feats, out_feats, aggregator_type)] layer, identified by
    the arguments it was constructed with. *)
Record SAGEConv := mkSAGEConv {
  conv_in_feats : Z;
  conv_out_feats : Z;
  conv_aggregator_type : string
}.

Inductive activation_fn := F_relu.

Record GraphSAGE := mkGraphSAGE {
  layers : list SAGEConv;
  dropout : Q;
  activation : activation_fn
}.

(** [GraphSAGE.__init__]: the input layer, one hidden layer per element of
    [range(n_layers - 1)], the output layer, appended in this order. *)
Definition GraphSAGE_init (in_feats n_hidden n_classes n_layers : Z)
    (act : activation_fn) (p : Q) (aggregator_type : string) : GraphSAGE :=
  let ls := [] in
  let ls := ls ++ [mkSAGEConv in_feats n_hidden aggregator_type] in
  let ls := foldl (fun ls _ => ls ++ [mkSAGEConv n_hidden n_hidden aggregator_type])
                  ls (py_range (n_layers - 1)) in
  let ls := ls ++ [mkSAGEConv n_hidden n_classes aggregator_type] in
  {| layers := ls; dropout := p; activation := act |}.

(** The value computed by [forward], as the expression torch builds: which
    module was applied to which intermediate result. *)
Inductive hexpr :=
  | HInput
  | HLayer (layer : SAGEConv) (h : hexpr)
  | HActivation (f : activation_fn) (h : hexpr)
  | HDropout (p : Q) (h : hexpr).

(** The body of the [for l, layer in enumerate(self.layers)] loop. *)
Definition forward_step (m : GraphSAGE) (h : hexpr) (it : Z * SAGEConv) : hexpr :=
  let '(l, layer) := it in
  let h := HLayer layer h in
  if bool_decide (l <> len (layers m) - 1)
  then HDropout (dropout m) (HActivation (activation m) h)
  else h.

Definition forward (m : GraphSAGE) (inputs : hexpr) : hexpr :=
  foldl (forward_step m) inputs (enumerate (layers m)).

(** One non-final layer of the forward pass: layer, activation, dropout. *)
Definition hidden_block (m : GraphSAGE) (h : hexpr) (layer : SAGEConv) : hexpr :=
  HDropout (dropout m) (HActivation (activation m) (HLayer layer h)).

(** ** Tensors, graphs and events *)

Inductive dtype := Float32 | Int64 | Int32 | BoolT.

(** A tensor: element type, shape, and the elements in row-major order.
    Elements are exact rationals; rounding is not modelled. *)
Record tensor := mkTensor {
  t_dtype : dtype;
  t_shape : list Z;
  t_values : list Q
}.

(** Truncation toward zero, as in a float to integer conversion. *)
Definition Qtrunc (q : Q) : Z := Z.quot (Qnum q) (Z.pos (Qden q)).

(** [t.long()] *)
Definition tensor_long (t : tensor) : tensor :=
  {| t_dtype := Int64;
     t_shape := t_shape t;
     t_values := (fun q => inject_Z (Qtrunc q)) <$> t_values t |}.

(** [th.tensor(x, dtype=th.float32)] for a Python float [x]. *)
Definition scalar_tensor (x : Q) : tensor :=
  {| t_dtype := Float32; t_shape := []; t_values := [x] |}.

(** [float(t)] for a one-element tensor. *)
Definition tensor_item (t : tensor) : Q := default 0%Q (head (t_values t)).

(** [mask.nonzero()] for a one-dimensional mask: one row for each position
    holding a nonzero element, in increasing order. *)
Definition nonzero (mask : tensor) : list Z :=
  omap (fun '(i, q) => if Qeq_bool q 0 then None else Some i)
       (enumerate (t_values mask)).

(** The index tensor [mask.nonzero().squeeze()] of lines 117-119.  The
    result of [nonzero()] has shape (k, 1) for k rows, and [squeeze()]
    removes every dimension of size 1: a single row leaves a
    zero-dimensional tensor, any other number of rows a one-dimensional
    tensor of k entries. *)
Inductive index_tensor :=
  | Index0d (i : Z)
  | Index1d (rows : list Z).

Definition squeeze (rows : list Z) : index_tensor :=
  match rows with
  | [i] => Index0d i
  | _ => Index1d rows
  end.

(** A partition graph as loaded by [load_graphs], with its node data. *)
Record graph := mkGraph {
  ndata : gmap string tensor;
  number_of_nodes : Z;
  number_of_edges : Z
}.

(** The module object [torch.distributed], passed to [drpa] as a value. *)
Inductive module_ref := torch_distributed.

(** Modelled from the spec: the replicated-partition object of
    [dgl.distgnn.drpa_sym], whose implementation is not part of the script.
    It is kept as the record of the arguments it was constructed from; the
    node data and sizes the script reads through it are those of the
    partition graph it wraps. *)
Record drpa_obj := mkDrpa {
  d_graph : graph;
  d_rank : Z;
  d_num_parts : pyval;
  d_node_map : pyval;
  d_nr : Z;
  d_dist : module_ref;
  d_nlayers : Z
}.

(** The tuple [data = n_classes, node_map, num_parts, args.rank,
    args.world_size] of line 286. *)
Definition data_tuple : Type := Z * pyval * pyval * Z * Z.

(** Calls into torch that act on the model, the optimizer or the device. *)
Inductive lib_op :=
  | CudaSetDevice (gpu : Z)
  | GraphToDevice (gpu : Z)
  | CreateModel (m : GraphSAGE)
  | ModelCuda
  | CreateOptimizer (lr weight_decay : Q)
  | ModelTrain
  | ModelEval
  | Forward (inf : bool)
  | CrossEntropy
  | ZeroGrad
  | Backward
  | OptimizerStep.

Inductive reduce_op := SUM | PRODUCT | MIN | MAX.

(** What a call of [th.distributed.all_reduce] is applied to. *)
Inductive reduced :=
  | GradOf (param_index : nat)
  | Accuracy.

Inductive event :=
  | EvPrint (what : string)
  | EvInitProcessGroup (backend init_method : string) (world_size rank : Z)
  | EvOpen (path : string)
  | EvLoadTensors (path : pyval)
  | EvLoadGraphs (path : pyval)
  | EvDrpa (gobj : drpa_obj)
  | EvDrpaFinalize (gobj : drpa_obj)
  | EvGcSetThreshold
  | EvEnter (fn : string)
  | EvReturn (fn : string)
  | EvEvaluate (nid : index_tensor)
  | EvLib (op : lib_op)
  | EvAllReduce (what : reduced) (op : reduce_op)
  | EvBarrier.

(** ** Outcomes, traces and the script monad *)

Inductive outcome (A : Type) :=
  | Ok (a : A)
  | Raise (e : exn).
Arguments Ok {A} a.
Arguments Raise {A} e.

(** A computation: the events it performed, in order, and how it ended. *)
Definition M (A : Type) : Type := list event * outcome A.

Definition ret {A} (a : A) : M A := ([], Ok a).
Definition raise {A} (e : exn) : M A := ([], Raise e).
Definition emit (e : event) : M unit := ([e], Ok tt).

Definition bindM {A B} (m : M A) (k : A -> M B) : M B :=
  match m with
  | (t1, Ok a) => let '(t2, r) := k a in (t1 ++ t2, r)
  | (t1, Raise e) => (t1, Raise e)
  end.

Notation "'let*' x ':=' m 'in' k" := (bindM m (fun x => k))
  (at level 10, x pattern, m at level 100, k at level 200).
Notation "'do*' m 'in' k" := (bindM m (fun _ => k))
  (at level 10, m at level 100, k at level 200).

Definition trace {A} (m : M A) : list event := fst m.
Definition result {A} (m : M A) : outcome A := snd m.

(** [for x in l: st = body(st, x)] *)
Fixpoint for_each {A St} (body : St -> A -> M St) (l : list A) (st : St) : M St :=
  match l with
  | [] => ret st
  | x :: l' => let* st' := body st x in for_each body l' st'
  end.

(** [d[key]] on a Python dict. *)
Definition dict_get {V} (d : gmap string V) (key : string) : M V :=
  match d !! key with
  | Some v => ret v
  | None => raise (KeyError key)
  end.

(** [x / d] for a Python float [x] and a value [d]. *)
Definition py_truediv (x : Q) (d : pyval) : M Q :=
  match d with
  | PInt z => if bool_decide (z = 0) then raise ZeroDivisionError
              else ret (x / inject_Z z)%Q
  | PBool b => if b then ret x else raise ZeroDivisionError
  | PFloat q => if Qeq_bool q 0 then raise ZeroDivisionError else ret (x / q)%Q
  | _ => raise (TypeError "unsupported operand type(s) for /")
  end.

(** ** Parameters and the training state *)

Record param := mkParam {
  requires_grad : bool;
  grad : option tensor;
  p_data : tensor
}.

Definition set_grad (p : param) (g : tensor) : param :=
  {| requires_grad := requires_grad p; grad := Some g; p_data := p_data p |}.

(** The parameters of the model together with the rest of the library's
    state (optimizer moments, random generator, communicator). *)
Record train_state (S : Type) := mkState {
  ts_params : list param;
  ts_lib : S
}.
Arguments mkState {S} _ _.
Arguments ts_params {S} _.
Arguments ts_lib {S} _.

(** The namespace [args]: the command line as parsed by [argparse], and
    the attribute [distributed], which the namespace does not have until
    line 240 sets it. *)
Record Args := mkArgs {
  a_dataset : option string;
  a_dropout : Q;
  a_gpu : Z;
  a_nr : Z;
  a_val : bool;
  a_lr : Q;
  a_n_epochs : Z;
  a_n_hidden : Z;
  a_n_layers : Z;
  a_weight_decay : Q;
  a_aggregator_type : string;
  a_world_size : Z;
  a_rank : Z;
  a_dist_url : string;
  a_dist_backend : string;
  a_distributed : option bool
}.

(** ** [evaluate] and [run] (lines 71-186) *)

Section Run.

(** The library's own state and its oracles: what a library call does to
    the training state, what the collective returns for a contribution, and
    the number of correct predictions among the selected nodes. *)
Context {S : Type}.
Variable lib_step : lib_op -> train_state S -> train_state S.
Variable all_reduce : S -> tensor -> reduce_op -> S * tensor.
Variable count_correct : train_state S -> list Z -> Z.

(** The module-level [args]. *)
Variable args : Args.

Definition lib_call (op : lib_op) (st : train_state S) : M (train_state S) :=
  do* emit (EvLib op) in
  ret (lib_step op st).

(** Lines 156-159: [for param in model.parameters(): if param.requires_grad
    and param.grad is not None: all_reduce(param.grad.data, op=SUM)].  The
    collective overwrites the gradient in place with its result.  [i] is the
    position of the head of [ps] in [model.parameters()]. *)
Fixpoint sync_gradients (i : nat) (ps : list param) (s : S) : M (list param * S) :=
  match ps with
  | [] => ret ([], s)
  | p :: rest =>
      match requires_grad p, grad p with
      | true, Some g =>
          do* emit (EvAllReduce (GradOf i) SUM) in
          let '(s', g') := all_reduce s g SUM in
          let* (rest', s'') := sync_gradients (Datatypes.S i) rest s' in
          ret (set_grad p g' :: rest', s'')
      | _, _ =>
          let* (rest', s') := sync_gradients (Datatypes.S i) rest s in
          ret (p :: rest', s')
      end
  end.

Definition sync_state (st : train_state S) : M (train_state S) :=
  let* (ps, s) := sync_gradients 0 (ts_params st) (ts_lib st) in
  ret (mkState ps s).

(** [all_reduce(t, op=SUM)] on an accuracy tensor. *)
Definition all_reduce_accuracy (st : train_state S) (t : tensor)
    : M (tensor * train_state S) :=
  do* emit (EvAllReduce Accuracy SUM) in
  let '(s', t') := all_reduce (ts_lib st) t SUM in
  ret (t', mkState (ts_params st) s').

(** The exception of [th.max(t, dim=1)] on a one-dimensional [t]. *)
Definition dim_out_of_range : exn :=
  IndexError "Dimension out of range (expected to be in range of [-1, 0], but got 1)".

(** [evaluate(model, graph, features, labels, nid)] (lines 71-79).  The
    logits have one row per node.  Indexed by a zero-dimensional [nid] they
    are a single row, which has no dimension 1 for [th.max(logits, dim=1)]
    (line 77); indexed by a one-dimensional [nid] they are a batch of
    [len(nid)] rows, [labels[nid]] has this length, and line 79 divides by
    it. *)
Definition evaluate (st : train_state S) (nid : index_tensor) : M (Q * train_state S) :=
  do* emit (EvEvaluate nid) in
  let* st := lib_call ModelEval st in
  let* st := lib_call (Forward true) st in
  match nid with
  | Index0d _ =>
      raise dim_out_of_range
  | Index1d rows =>
      let correct := count_correct st rows in
      let* acc := py_truediv (inject_Z correct * 1) (PInt (len rows)) in
      ret (acc, st)
  end.

Section Epochs.

Variables (num_parts : pyval) (rank : Z) (val_nid : index_tensor).

(** The body of [for epoch in range(args.n_epochs)] (lines 144-175). *)
Definition epoch_body (st : train_state S) (epoch : Z) : M (train_state S) :=
  let* st := lib_call ModelTrain st in
  let* st := lib_call (Forward false) st in
  let* st := lib_call CrossEntropy st in
  let* st := lib_call ZeroGrad st in
  let* st := lib_call Backward st in
  let* st := sync_state st in
  let* st := lib_call OptimizerStep st in
  let* st :=
    if a_val args then
      let* (acc, st) := evaluate st val_nid in
      let vacc := scalar_tensor acc in
      let* (vacc, st) := all_reduce_accuracy st vacc in
      do* (if bool_decide (rank = 0) then
             let* _ := py_truediv (tensor_item vacc) num_parts in
             emit (EvPrint "Epoch | Time(s) | Loss | Accuracy")
           else ret tt) in
      ret st
    else ret st in
  do* (if bool_decide (a_rank args = 0) then
         do* emit (EvPrint "Epoch: time: sec") in
         emit (EvPrint "")
       else ret tt) in
  ret st.

End Epochs.

(** [features.shape[1]] *)
Definition shape_at (t : tensor) (i : nat) : M Z :=
  match t_shape t !! i with
  | Some n => ret n
  | None => raise (IndexError "tuple index out of range")
  end.

Definition run (g : drpa_obj) (data : data_tuple) (s0 : S) : M unit :=
  let '(n_classes, node_map, num_parts, rank, world_size) := data in
  let* features := dict_get (ndata (d_graph g)) "feat" in
  let* labels := dict_get (ndata (d_graph g)) "label" in
  let* train_mask := dict_get (ndata (d_graph g)) "train_mask" in
  let* val_mask := dict_get (ndata (d_graph g)) "val_mask" in
  let* test_mask := dict_get (ndata (d_graph g)) "test_mask" in
  let* in_feats := shape_at features 1 in
  do* emit (EvPrint "----Data statistics------") in
  let st := mkState [] s0 in
  let* (cuda, st) :=
    if bool_decide (a_gpu args < 0) then ret (false, st)
    else
      let* st := lib_call (CudaSetDevice (a_gpu args)) st in
      do* emit (EvPrint "use cuda:") in
      ret (true, st) in
  let train_nid := squeeze (nonzero train_mask) in
  let val_nid := squeeze (nonzero val_mask) in
  let test_nid := squeeze (nonzero test_mask) in
  let* st := if cuda then lib_call (GraphToDevice (a_gpu args)) st else ret st in
  let model := GraphSAGE_init in_feats (a_n_hidden args) n_classes (a_n_layers args)
                              F_relu (a_dropout args) (a_aggregator_type args) in
  let* st := lib_call (CreateModel model) st in
  let* st := if cuda then lib_call ModelCuda st else ret st in
  let* st := lib_call (CreateOptimizer (a_lr args) (a_weight_decay args)) st in
  let* st := for_each (epoch_body num_parts rank val_nid) (py_range (a_n_epochs args)) st in
  do* emit (EvPrint "") in
  let* (acc, st) := evaluate st test_nid in
  let cum_acc := scalar_tensor acc in
  let* (cum_acc, st) := all_reduce_accuracy st cum_acc in
  do* (if bool_decide (a_rank args = 0) then
         do* emit (EvPrint "----------") in
         let* q := py_truediv (tensor_item cum_acc) num_parts in
         do* emit (EvPrint "Accuracy, avg: %") in
         emit (EvPrint "----------")
       else ret tt) in
  ret tt.

End Run.

(** ** The module namespace (lines 10-35) *)

Inductive import_stmt :=
  | Import (module : string) (as_name : option string)
  | FromImport (module : string) (names : list string).

(** The names an import statement binds.  Every dotted module imported by
    the script is imported under an alias. *)
Definition bound_names (i : import_stmt) : list string :=
  match i with
  | Import m None => [m]
  | Import _ (Some a) => [a]
  | FromImport _ names => names
  end.

Definition imports : list import_stmt :=
  [ Import "os" None; Import "sys" None; Import "gc" None; Import "json" None;
    Import "argparse" None; Import "time" None;
    Import "numpy" (Some "np"); Import "torch" (Some "th");
    Import "torch.nn" (Some "nn"); Import "torch.nn.functional" (Some "F");
    Import "dgl" None;
    FromImport "dgl" ["DGLGraph"];
    FromImport "dgl.data.utils" ["load_tensors"; "load_graphs"];
    FromImport "dgl.data" ["register_data_args"; "load_data"];
    FromImport "dgl.nn.pytorch.conv" ["SAGEConv"];
    Import "torch.optim" (Some "optim");
    Import "torch.multiprocessing" (Some "mp");
    Import "torch.distributed" (Some "dist");
    FromImport "load_graph" ["load_reddit"; "load_ogb"];
    FromImport "dgl.distgnn.drpa_sym" ["drpa"] ].

(** The names bound by [from module import ...] statements. *)
Definition names_from (module : string) : list string :=
  concat (omap (fun i => match i with
                         | FromImport m names =>
                             if bool_decide (m = module) then Some names else None
                         | Import _ _ => None
                         end) imports).

(** Names defined by [class] and [def] statements of the module. *)
Definition module_defs : list string := ["GraphSAGE"; "evaluate"; "run"; "main"].

(** Names assigned in the [__main__] block before the dataset dispatch. *)
Definition main_block_names : list string := ["parser"; "args"; "nc"; "part_config"].

(** The module's global names when line 255 is reached; [torch_ccl] is bound
    only when its guarded import succeeded. *)
Definition module_names (torch_ccl_imported : bool) : list string :=
  concat (bound_names <$> imports)
  ++ (if torch_ccl_imported then ["torch_ccl"] else [])
  ++ module_defs ++ main_block_names.

(** The names of Python's [builtins] module. *)
Definition builtins : list string :=
  [ "abs"; "aiter"; "all"; "anext"; "any"; "ascii"; "bin"; "bool"; "breakpoint";
    "bytearray"; "bytes"; "callable"; "chr"; "classmethod"; "compile"; "complex";
    "delattr"; "dict"; "dir"; "divmod"; "enumerate"; "eval"; "exec"; "filter";
    "float"; "format"; "frozenset"; "getattr"; "globals"; "hasattr"; "hash";
    "help"; "hex"; "id"; "input"; "int"; "isinstance"; "issubclass"; "iter";
    "len"; "list"; "locals"; "map"; "max"; "memoryview"; "min"; "next"; "object";
    "oct"; "open"; "ord"; "pow"; "print"; "property"; "range"; "repr";
    "reversed"; "round"; "set"; "setattr"; "slice"; "sorted"; "staticmethod";
    "str"; "sum"; "super"; "tuple"; "type"; "vars"; "zip"; "__import__";
    "None"; "True"; "False"; "Ellipsis"; "NotImplemented"; "__debug__";
    "__name__"; "__doc__"; "__file__"; "__builtins__";
    "BaseException"; "Exception"; "ArithmeticError"; "AssertionError";
    "AttributeError"; "BlockingIOError"; "BrokenPipeError"; "BufferError";
    "BytesWarning"; "ChildProcessError"; "ConnectionAbortedError";
    "ConnectionError"; "ConnectionRefusedError"; "ConnectionResetError";
    "DeprecationWarning"; "EOFError"; "EnvironmentError"; "FileExistsError";
    "FileNotFoundError"; "FloatingPointError"; "FutureWarning"; "GeneratorExit";
    "IOError"; "ImportError"; "ImportWarning"; "IndentationError"; "IndexError";
    "InterruptedError"; "IsADirectoryError"; "KeyError"; "KeyboardInterrupt";
    "LookupError"; "MemoryError"; "ModuleNotFoundError"; "NameError";
    "NotADirectoryError"; "NotImplementedError"; "OSError"; "OverflowError";
    "PendingDeprecationWarning"; "PermissionError"; "ProcessLookupError";
    "RecursionError"; "ReferenceError"; "ResourceWarning"; "RuntimeError";
    "RuntimeWarning"; "StopAsyncIteration"; "StopIteration"; "SyntaxError";
    "SyntaxWarning"; "SystemError"; "SystemExit"; "TabError"; "TimeoutError";
    "TypeError"; "UnboundLocalError"; "UnicodeDecodeError"; "UnicodeEncodeError";
    "UnicodeError"; "UnicodeTranslateError"; "UnicodeWarning"; "UserWarning";
    "ValueError"; "Warning"; "ZeroDivisionError" ].

(** Evaluating a global name: the module's globals, then the builtins. *)
Definition lookup_name (torch_ccl_imported : bool) (name : string) : M unit :=
  if bool_decide (name ∈ (module_names torch_ccl_imported ++ builtins))
  then ret tt
  else raise (NameError name).

(** [raise DGLError(msg)]: the name is evaluated, then called, then the
    resulting exception is raised. *)
Definition raise_DGLError {A} (torch_ccl_imported : bool) (msg : string) : M A :=
  do* lookup_name torch_ccl_imported "DGLError" in
  raise (DGLError msg).

(** ** Dictionaries, paths and calls *)

Definition lift {A} (o : outcome A) : M A := ([], o).

(** [v[key]] for a string key. *)
Definition py_getitem (v : pyval) (key : string) : M pyval :=
  match v with
  | PDict d => dict_get d key
  | PList _ => raise (TypeError "list indices must be integers or slices, not str")
  | PStr _ => raise (TypeError "string indices must be integers")
  | _ => raise (TypeError "object is not subscriptable")
  end.

Definition is_substring (key s : string) : bool :=
  match String.index 0 key s with Some _ => true | None => false end.

(** [key in v] for a string key. *)
Definition py_contains (key : string) (v : pyval) : M bool :=
  match v with
  | PDict d => ret (bool_decide (is_Some (d !! key)))
  | PList l => ret (existsb (fun x => match x with
                                      | PStr s => bool_decide (s = key)
                                      | _ => false
                                      end) l)
  | PStr s => ret (is_substring key s)
  | _ => raise (TypeError "argument is not iterable")
  end.

(** [assert cond, msg] *)
Definition py_assert (cond : bool) (msg : string) : M unit :=
  if cond then ret tt else raise (AssertionError msg).

Fixpoint last_char (s : string) : option ascii :=
  match s with
  | EmptyString => None
  | String c EmptyString => Some c
  | String _ s' => last_char s'
  end.

Definition starts_with_sep (s : string) : bool :=
  match s with
  | String "/"%char _ => true
  | _ => false
  end.

Definition ends_with_sep (s : string) : bool :=
  match last_char s with
  | Some "/"%char => true
  | _ => false
  end.

(** One component of [os.path.join] on a POSIX system: an absolute
    component replaces the path, otherwise it is appended, after a separator
    unless the path is empty or ends in one. *)
Definition path_join_step (path b : string) : string :=
  if starts_with_sep b then b
  else if bool_decide (path = "") || ends_with_sep path then path +:+ b
  else path +:+ "/" +:+ b.

(** [os.path.join(a, *p)] *)
Definition os_path_join (a : string) (p : list string) : string :=
  foldl path_join_step a p.

(** Values passed as arguments between the script's functions. *)
Inductive pyarg :=
  | ArgDrpa (g : drpa_obj)
  | ArgTuple (d : data_tuple)
  | ArgStr (s : string)
  | ArgNone.

(** A function defined with [def name(p1, ..., pn)]: positional parameters
    without defaults. *)
Record pyfunc := mkFunc {
  fn_name : string;
  fn_params : list string;
  fn_body : list (string * pyarg) -> M unit
}.

(** Binding the arguments of a call to the parameters. *)
Definition bind_args (f : pyfunc) (actuals : list pyarg) : M (list (string * pyarg)) :=
  let n := length (fn_params f) in
  let m := length actuals in
  if bool_decide (m = n) then ret (zip (fn_params f) actuals)
  else if bool_decide (n < m)%nat then
    raise (TypeError (fn_name f +:+ "() takes " +:+ pretty n
                      +:+ " positional arguments but " +:+ pretty m
                      +:+ " were given"))
  else
    raise (TypeError (fn_name f +:+ "() missing " +:+ pretty (n - m)%nat
                      +:+ " required positional arguments")).

(** [f(a1, ..., am)] *)
Definition call (f : pyfunc) (actuals : list pyarg) : M unit :=
  let* locals := bind_args f actuals in
  do* emit (EvEnter (fn_name f)) in
  do* fn_body f locals in
  emit (EvReturn (fn_name f)).

Definition local_get (locals : list (string * pyarg)) (name : string) : M pyarg :=
  match list_find (fun x => fst x = name) locals with
  | Some (_, (_, v)) => ret v
  | None => raise (NameError name)
  end.

(** ** The [__main__] block (lines 198-301) *)

(** What the script finds around it. *)
Record Env (S : Type) := mkEnv {
  environ : gmap string string;
  builtin_int : string -> outcome Z;
  torch_ccl_imported : bool;
  read_json : string -> outcome pyval;
  load_tensors : pyval -> outcome (gmap string tensor);
  load_graphs : pyval -> outcome graph;
  lib_step : lib_op -> train_state S -> train_state S;
  all_reduce : S -> tensor -> reduce_op -> S * tensor;
  count_correct : train_state S -> list Z -> Z;
  lib_state : S
}.
Arguments environ {S} _.
Arguments builtin_int {S} _ _.
Arguments torch_ccl_imported {S} _.
Arguments read_json {S} _ _.
Arguments load_tensors {S} _ _.
Arguments load_graphs {S} _ _.
Arguments lib_step {S} _ _ _.
Arguments all_reduce {S} _ _ _ _.
Arguments count_correct {S} _ _ _.
Arguments lib_state {S} _.

Definition set_world_size (args : Args) (ws : Z) : Args :=
  mkArgs (a_dataset args) (a_dropout args) (a_gpu args) (a_nr args) (a_val args)
         (a_lr args) (a_n_epochs args) (a_n_hidden args) (a_n_layers args)
         (a_weight_decay args) (a_aggregator_type args) ws (a_rank args)
         (a_dist_url args) (a_dist_backend args) (a_distributed args).

Definition set_rank (args : Args) (r : Z) : Args :=
  mkArgs (a_dataset args) (a_dropout args) (a_gpu args) (a_nr args) (a_val args)
         (a_lr args) (a_n_epochs args) (a_n_hidden args) (a_n_layers args)
         (a_weight_decay args) (a_aggregator_type args) (a_world_size args) r
         (a_dist_url args) (a_dist_backend args) (a_distributed args).

Definition set_distributed (args : Args) (d : bool) : Args :=
  mkArgs (a_dataset args) (a_dropout args) (a_gpu args) (a_nr args) (a_val args)
         (a_lr args) (a_n_epochs args) (a_n_hidden args) (a_n_layers args)
         (a_weight_decay args) (a_aggregator_type args) (a_world_size args)
         (a_rank args) (a_dist_url args) (a_dist_backend args) (Some d).

(** [args.distributed] *)
Definition get_distributed (args : Args) : M bool :=
  match a_distributed args with
  | Some d => ret d
  | None => raise (AttributeError "distributed")
  end.

Definition set_n_epochs (args : Args) (n : Z) : Args :=
  mkArgs (a_dataset args) (a_dropout args) (a_gpu args) (a_nr args) (a_val args)
         (a_lr args) n (a_n_hidden args) (a_n_layers args)
         (a_weight_decay args) (a_aggregator_type args) (a_world_size args)
         (a_rank args) (a_dist_url args) (a_dist_backend args) (a_distributed args).

Definition set_dataset (args : Args) (d : option string) : Args :=
  mkArgs d (a_dropout args) (a_gpu args) (a_nr args) (a_val args)
         (a_lr args) (a_n_epochs args) (a_n_hidden args) (a_n_layers args)
         (a_weight_decay args) (a_aggregator_type args) (a_world_size args)
         (a_rank args) (a_dist_url args) (a_dist_backend args) (a_distributed args).

Definition set_ndata (g : graph) (key : string) (t : tensor) : graph :=
  mkGraph (<[key := t]> (ndata g)) (number_of_nodes g) (number_of_edges g).

Section Script.

Context {S : Type}.
Variable env : Env S.

(** [int(os.environ.get(name, -1))] *)
Definition environ_int_or_minus_one (name : string) : M Z :=
  match environ env !! name with
  | Some s => lift (builtin_int env s)
  | None => ret (-1)
  end.

(** [int(os.environ[name])] *)
Definition environ_int (name : string) : M Z :=
  let* s := dict_get (environ env) name in
  lift (builtin_int env s).

(** Lines 234-247: the parsed arguments are printed, then the world size and
    the rank are taken from the environment where the command line leaves
    them open; line 240 records on the namespace whether the job is
    distributed. *)
Definition resolve_world (args : Args) : M Args :=
  do* emit (EvPrint "Namespace") in
  let* args :=
    if bool_decide (a_dist_url args = "env://") && bool_decide (a_world_size args = -1)
    then
      let* ws := environ_int_or_minus_one "PMI_SIZE" in
      let args := set_world_size args ws in
      if bool_decide (a_world_size args = -1) then
        let* ws := environ_int "WORLD_SIZE" in
        ret (set_world_size args ws)
      else ret args
    else ret args in
  let args := set_distributed args (bool_decide (a_world_size args > 1)) in
  let* distributed := get_distributed args in
  let* args :=
    if distributed then
      let* r := environ_int_or_minus_one "PMI_RANK" in
      let args := set_rank args r in
      let* args :=
        if bool_decide (a_rank args = -1) then
          let* r := environ_int "RANK" in
          ret (set_rank args r)
        else ret args in
      do* emit (EvInitProcessGroup (a_dist_backend args) (a_dist_url args)
                                   (a_world_size args) (a_rank args)) in
      ret args
    else ret args in
  do* emit (EvPrint "Rank:  World_size: ") in
  ret args.

(** Lines 249-255: the dataset dispatch. *)
Definition partition_config (args : Args) : M string :=
  let nc := a_world_size args in
  let part_config := "" in
  if bool_decide (a_dataset args = Some "ogbn-papers100M") then
    ret (os_path_join part_config
           ["Libra_result_ogbn-papers100M"; pretty nc +:+ "Communities";
            "ogbn-papers100M.json"])
  else
    raise_DGLError (torch_ccl_imported env) "Error: Dataset not found.".

(** Lines 257-280: the partition metadata, the tensors and the graph of this
    rank, and the node data of the graph. *)
Definition load_partition (args : Args) (part_config : string)
    : M (graph * pyval * pyval) :=
  do* (if bool_decide (a_rank args = 0)
       then emit (EvPrint "Dataset/partition location: ") else ret tt) in
  do* emit (EvOpen part_config) in
  let* part_metadata := lift (read_json env part_config) in
  let* part_files := py_getitem part_metadata ("part-" +:+ pretty (a_rank args)) in
  let* has_node_feats := py_contains "node_feats" part_files in
  do* py_assert has_node_feats "the partition does not contain node features." in
  let* has_edge_feats := py_contains "edge_feats" part_files in
  do* py_assert has_edge_feats "the partition does not contain edge feature." in
  let* has_part_graph := py_contains "part_graph" part_files in
  do* py_assert has_part_graph "the partition does not contain graph structure." in
  let* node_feats_file := py_getitem part_files "node_feats" in
  do* emit (EvLoadTensors node_feats_file) in
  let* node_feats := lift (load_tensors env node_feats_file) in
  let* part_graph_file := py_getitem part_files "part_graph" in
  do* emit (EvLoadGraphs part_graph_file) in
  let* graph := lift (load_graphs env part_graph_file) in
  let* num_parts := py_getitem part_metadata "num_parts" in
  let* node_map := py_getitem part_metadata "node_map" in
  let* feat := dict_get node_feats "feat" in
  let graph := set_ndata graph "feat" feat in
  let* label := dict_get node_feats "label" in
  let graph := set_ndata graph "label" label in
  let* train_mask := dict_get node_feats "train_mask" in
  let graph := set_ndata graph "train_mask" train_mask in
  let* test_mask := dict_get node_feats "test_mask" in
  let graph := set_ndata graph "test_mask" test_mask in
  let* val_mask := dict_get node_feats "val_mask" in
  let graph := set_ndata graph "val_mask" val_mask in
  let* label := dict_get (ndata graph) "label" in
  let graph := set_ndata graph "label" (tensor_long label) in
  ret (graph, num_parts, node_map).

(** [run(g, data)] as a callable: the tuple is unpacked and the node data is
    read through the drpa object; any other kind of argument fails there. *)
Definition run_def (args : Args) : pyfunc :=
  {| fn_name := "run";
     fn_params := ["g"; "data"];
     fn_body := fun locals =>
       let* g := local_get locals "g" in
       let* data := local_get locals "data" in
       match data, g with
       | ArgTuple d, ArgDrpa gobj =>
           run (lib_step env) (all_reduce env) (count_correct env) args
               gobj d (lib_state env)
       | ArgTuple _, _ => raise (AttributeError "ndata")
       | _, _ => raise (TypeError "cannot unpack")
       end |}.

(** [def main(graph, data)] (lines 189-195) *)
Definition main (args : Args) : pyfunc :=
  {| fn_name := "main";
     fn_params := ["graph"; "data"];
     fn_body := fun locals =>
       do* emit EvGcSetThreshold in
       do* (if bool_decide (a_rank args = 0)
            then emit (EvPrint "Starting a run: ") else ret tt) in
       let* graph := local_get locals "graph" in
       let* data := local_get locals "data" in
       do* call (run_def args) [graph; data] in
       if bool_decide (a_rank args = 0)
       then emit (EvPrint "Run completed !!!") else ret tt |}.

Definition dataset_arg (args : Args) : pyarg :=
  match a_dataset args with
  | Some s => ArgStr s
  | None => ArgNone
  end.

(** Lines 282-301: the drpa object, the call of [main], the finalisation. *)
Definition train (args : Args) (graph : graph) (num_parts node_map : pyval) : M unit :=
  let n_classes := 172 in
  do* (if bool_decide (a_rank args = 0)
       then emit (EvPrint "n_classes: ") else ret tt) in
  let data : data_tuple :=
    (n_classes, node_map, num_parts, a_rank args, a_world_size args) in
  let gobj := mkDrpa graph (a_rank args) num_parts node_map (a_nr args)
                     torch_distributed (a_n_layers args) in
  do* emit (EvDrpa gobj) in
  do* call (main args) [ArgDrpa gobj; ArgTuple data; dataset_arg args] in
  do* emit (EvDrpaFinalize gobj) in
  do* (if bool_decide (a_rank args = 0) then
         do* emit (EvPrint "run details:") in
         do* emit (EvPrint "#ranks: ") in
         do* emit (EvPrint "Dataset:") in
         do* emit (EvPrint "Delay: ") in
         do* emit (EvPrint "lr: ") in
         do* emit (EvPrint "Aggregator: ") in
         do* emit (EvPrint "") in
         emit (EvPrint "")
       else ret tt) in
  emit EvBarrier.

(** The [__main__] block, from the parsed command line on. *)
Definition main_block (args : Args) : M unit :=
  let* args := resolve_world args in
  let* part_config := partition_config args in
  let* (graph, num_parts, node_map) := load_partition args part_config in
  train args graph num_parts node_map.

End Script.

(** ** Classification of events and a sample installation *)

(** Events of the phases that precede the construction of the drpa object. *)
Definition is_loading_event (e : event) : bool :=
  match e with
  | EvPrint _ | EvInitProcessGroup _ _ _ _ | EvOpen _
  | EvLoadTensors _ | EvLoadGraphs _ => true
  | _ => false
  end.

(** Events of the resolution of the world size and the rank. *)
Definition is_world_event (e : event) : bool :=
  match e with
  | EvPrint _ | EvInitProcessGroup _ _ _ _ => true
  | _ => false
  end.

(** Events that only occur inside [main] and [run]. *)
Definition is_run_event (e : event) : bool :=
  match e with
  | EvEnter _ | EvReturn _ | EvGcSetThreshold | EvEvaluate _
  | EvLib _ | EvAllReduce _ _ => true
  | _ => false
  end.

Definition is_drpa_finalize (e : event) : bool :=
  match e with EvDrpaFinalize _ => true | _ => false end.

Definition opened_files (tr : list event) : list string :=
  omap (fun e => match e with EvOpen p => Some p | _ => None end) tr.

Definition loaded_tensor_files (tr : list event) : list pyval :=
  omap (fun e => match e with EvLoadTensors p => Some p | _ => None end) tr.

Definition loaded_graph_files (tr : list event) : list pyval :=
  omap (fun e => match e with EvLoadGraphs p => Some p | _ => None end) tr.

Definition constructed_drpa (tr : list event) : list drpa_obj :=
  omap (fun e => match e with EvDrpa g => Some g | _ => None end) tr.

(** [int(s)] for an optional minus sign followed by decimal digits. *)
Fixpoint decimal_digits (s : string) (acc : Z) : option Z :=
  match s with
  | EmptyString => Some acc
  | String c s' =>
      let n := Z.of_nat (nat_of_ascii c) in
      if bool_decide (48 <= n <= 57) then decimal_digits s' (10 * acc + (n - 48))
      else None
  end.

Definition decimal_int (s : string) : outcome Z :=
  let invalid := Raise (ValueError "invalid literal for int() with base 10") in
  match s with
  | EmptyString => invalid
  | String "-"%char EmptyString => invalid
  | String "-"%char s' =>
      match decimal_digits s' 0 with Some z => Ok (- z) | None => invalid end
  | _ => match decimal_digits s 0 with Some z => Ok z | None => invalid end
  end.

(** The command line [--dataset ogbn-papers100M] with the defaults of the
    parser for everything else. *)
Definition sample_args : Args :=
  {| a_dataset := Some "ogbn-papers100M"; a_dropout := 1 # 2; a_gpu := -1;
     a_nr := 1; a_val := false; a_lr := 1 # 100; a_n_epochs := 200;
     a_n_hidden := 64; a_n_layers := 3; a_weight_decay := 5 # 10000;
     a_aggregator_type := "gcn"; a_world_size := -1; a_rank := -1;
     a_dist_url := "env://"; a_dist_backend := "ccl"; a_distributed := None |}.

Definition tensor1 (d : dtype) (vs : list Q) : tensor :=
  {| t_dtype := d; t_shape := [len vs]; t_values := vs |}.

(** Two nodes with one feature each; node 0 is a training node and node 1 a
    test node when [test] is not zero. *)
Definition sample_node_feats (test : Q) : gmap string tensor :=
  {[ "feat" := {| t_dtype := Float32; t_shape := [2; 1]; t_values := [1; 2]%Q |};
     "label" := tensor1 Float32 [0; 1]%Q;
     "train_mask" := tensor1 BoolT [1; 0]%Q;
     "val_mask" := tensor1 BoolT [0; 0]%Q;
     "test_mask" := tensor1 BoolT [0; test]%Q ]}.

Definition sample_part (dir : string) : pyval :=
  PDict {[ "node_feats" := PStr (dir +:+ "/node_feat.dgl");
           "edge_feats" := PStr (dir +:+ "/edge_feat.dgl");
           "part_graph" := PStr (dir +:+ "/graph.dgl") ]}.

Definition sample_metadata : pyval :=
  PDict {[ "num_parts" := PInt 2;
           "node_map" := PStr "node_map.npy";
           "part-0" := sample_part "part0";
           "part-1" := sample_part "part1" ]}.

Definition sample_graph : graph :=
  {| ndata := ∅; number_of_nodes := 2; number_of_edges := 1 |}.

(** A job of two ranks, this process being rank 1, with the partition files
    in place; the library calls leave the training state alone and the
    collective returns the contribution itself. *)
Definition sample_env (test : Q) : Env unit :=
  {| environ := {[ "PMI_SIZE" := "2"; "PMI_RANK" := "1" ]};
     builtin_int := decimal_int;
     torch_ccl_imported := true;
     read_json := fun path =>
       if bool_decide
            (path = "Libra_result_ogbn-papers100M/2Communities/ogbn-papers100M.json")
       then Ok sample_metadata else Raise (OSError path);
     load_tensors := fun p =>
       match p with
       | PStr "part1/node_feat.dgl" => Ok (sample_node_feats test)
       | _ => Raise (OSError "node_feats")
       end;
     load_graphs := fun p =>
       match p with
       | PStr "part1/graph.dgl" => Ok sample_graph
       | _ => Raise (OSError "part_graph")
       end;
     lib_step := fun _ st => st;
     all_reduce := fun s t _ => (s, t);
     count_correct := fun _ _ => 0;
     lib_state := tt |}.

(** The partition configuration of a job of [world_size] ranks. *)
Definition config_path (world_size : Z) : string :=
  "Libra_result_ogbn-papers100M/" +:+ pretty world_size
  +:+ "Communities/ogbn-papers100M.json".

(** The exception of a call of [main] with three arguments. *)
Definition arity_error : exn :=
  TypeError "main() takes 2 positional arguments but 3 were given".

(** What rank 0 prints before the configuration is opened. *)
Definition location_print (args : Args) : list event :=
  if bool_decide (a_rank args = 0) then [EvPrint "Dataset/partition location: "]
  else [].

(** The node data of the partition graph after lines 274-280. *)
Definition with_node_data (gr : graph) (feat label train_mask test_mask val_mask : tensor)
    : graph :=
  let gr := set_ndata gr "feat" feat in
  let gr := set_ndata gr "label" label in
  let gr := set_ndata gr "train_mask" train_mask in
  let gr := set_ndata gr "test_mask" test_mask in
  let gr := set_ndata gr "val_mask" val_mask in
  set_ndata gr "label" (tensor_long label).

(** The sample job with a partition entry for rank 1 that lacks the edge
    features. *)
Definition sample_env_without_edge_feats : Env unit :=
  mkEnv unit (environ (sample_env 1)) decimal_int true
    (fun path =>
       if bool_decide (path = config_path 2)
       then Ok (PDict {[ "num_parts" := PInt 2;
                         "node_map" := PStr "node_map.npy";
                         "part-1" := PDict {[ "node_feats" := PStr "part1/node_feat.dgl";
                                              "part_graph" := PStr "part1/graph.dgl" ]} ]})
       else Raise (OSError path))
    (load_tensors (sample_env 1)) (load_graphs (sample_env 1))
    (fun _ st => st) (fun s t _ => (s, t)) (fun _ _ => 0) tt.

(** The node data of a partition of four nodes as [run] receives it, the
    labels converted by [.long()] (line 280): nodes 0 and 1 are the training
    nodes, the validation and the test nodes are given by their masks. *)
Definition sample_features : tensor :=
  {| t_dtype := Float32; t_shape := [4; 1]; t_values := [1; 2; 3; 4]%Q |}.

Definition sample_labels : tensor := tensor_long (tensor1 Float32 [0; 1; 1; 0]%Q).

Definition run_node_data (val_mask test_mask : list Q) : gmap string tensor :=
  {[ "feat" := sample_features;
     "label" := sample_labels;
     "train_mask" := tensor1 BoolT [1; 1; 0; 0]%Q;
     "val_mask" := tensor1 BoolT val_mask;
     "test_mask" := tensor1 BoolT test_mask ]}.

(** The drpa object of rank 1 of a job of two ranks, as [run] would receive
    it. *)
Definition sample_drpa (val_mask test_mask : list Q) : drpa_obj :=
  mkDrpa (mkGraph (run_node_data val_mask test_mask) 4 3) 1 (PInt 2)
         (PStr "node_map.npy") 1 torch_distributed 3.

(** The arguments of the sample job once the world size and the rank are
    resolved. *)
Definition sample_resolved : Args :=
  set_rank (set_distributed (set_world_size sample_args 2) true) 1.

Definition sample_data : data_tuple := (172, PStr "node_map.npy", PInt 2, 1, 2).

Definition is_accuracy_all_reduce (e : event) : bool :=
  match e with EvAllReduce Accuracy _ => true | _ => false end.

(** ** The collective across ranks

    Every rank runs the same loop of lines 156-159 on its own parameters.
    The backend pairs the k-th [all_reduce] call of every rank, combines the
    contributed tensors element by element and hands the same result back to
    every rank.  A job whose ranks issue different numbers of calls, or
    tensors that do not fit together, never completes its collectives. *)

Global Instance dtype_eq_dec : EqDecision dtype.
Proof. solve_decision. Defined.
Global Instance reduce_op_eq_dec : EqDecision reduce_op.
Proof. solve_decision. Defined.

Definition reduce_fn (op : reduce_op) : Q -> Q -> Q :=
  match op with
  | SUM => Qplus
  | PRODUCT => Qmult
  | MIN => Qmin
  | MAX => Qmax
  end.

Definition same_layout (a b : tensor) : Prop :=
  t_dtype a = t_dtype b /\ t_shape a = t_shape b
  /\ length (t_values a) = length (t_values b).

Global Instance same_layout_dec a b : Decision (same_layout a b).
Proof. unfold same_layout. apply _. Defined.

Definition tensor_combine (op : reduce_op) (a b : tensor) : option tensor :=
  if decide (same_layout a b)
  then Some {| t_dtype := t_dtype a; t_shape := t_shape a;
               t_values := zip_with (reduce_fn op) (t_values a) (t_values b) |}
  else None.

(** Combining the contributions of ranks 0, 1, ... to one call. *)
Fixpoint reduce_from (op : reduce_op) (acc : tensor)
    (rest : list (tensor * reduce_op)) : option tensor :=
  match rest with
  | [] => Some acc
  | (u, op') :: rest' =>
      if decide (op' = op) then
        match tensor_combine op acc u with
        | Some acc' => reduce_from op acc' rest'
        | None => None
        end
      else None
  end.

Definition reduce_column (col : list (tensor * reduce_op)) : option tensor :=
  match col with
  | [] => None
  | (t, op) :: rest => reduce_from op t rest
  end.

(** The results of the collectives of a job, from the calls of each rank. *)
Definition world_collectives (calls : list (list (tensor * reduce_op)))
    : option (list tensor) :=
  match calls with
  | [] => Some []
  | c0 :: _ =>
      if forallb (fun c => Nat.eqb (length c) (length c0)) calls then
        mapM (fun k => mapM (fun c => c !! k) calls ≫= reduce_column)
             (seq 0 (length c0))
      else None
  end.

(** A rank's view of the backend while its calls are being collected: the
    call is logged and the tensor is left as it is. *)
Definition recording_all_reduce (log : list (tensor * reduce_op))
    (t : tensor) (op : reduce_op) : list (tensor * reduce_op) * tensor :=
  (log ++ [(t, op)], t).

(** A rank's view of the backend once the results are known: the k-th call
    returns the k-th result. *)
Definition table_all_reduce (results : list tensor) (k : nat)
    (t : tensor) (op : reduce_op) : nat * tensor :=
  (Datatypes.S k, default t (results !! k)).

Definition final_state {A St} (m : M (A * St)) (a0 : A) (s0 : St) : A * St :=
  match result m with
  | Ok x => x
  | Raise _ => (a0, s0)
  end.

Definition rank_calls (ps : list param) : list (tensor * reduce_op) :=
  snd (final_state (sync_gradients recording_all_reduce 0 ps []) ps []).

Definition rank_synced (results : list tensor) (ps : list param) : list param :=
  fst (final_state (sync_gradients (table_all_reduce results) 0 ps 0%nat) ps 0%nat).

(** The gradient synchronisation of one step, for all ranks of the job:
    [w] holds the parameters of rank 0, 1, ... after [loss.backward()]. *)
Definition sync_world (w : list (list param)) : option (list (list param)) :=
  results ← world_collectives (rank_calls <$> w);
  Some (rank_synced results <$> w).

(** The local gradients of parameter [i], rank by rank. *)
Definition local_grads (w : list (list param)) (i : nat) : option (list tensor) :=
  mapM (fun ps => ps !! i ≫= grad) w.

Definition sum_Q (qs : list Q) : Q := foldr Qplus 0%Q qs.

Definition entry (t : tensor) (j : nat) : Q := nth j (t_values t) 0%Q.

(** [t] holds, entry by entry, the sum over the ranks of [col]. *)
Definition is_cross_rank_sum (col : list tensor) (t : tensor) : Prop :=
  Forall (same_layout t) col
  /\ forall j, (j < length (t_values t))%nat ->
       (entry t j == sum_Q ((fun u => entry u j) <$> col))%Q.

(** [t] holds, entry by entry, the sum over the ranks of [col] divided by
    the number of ranks. *)
Definition is_cross_rank_average (col : list tensor) (t : tensor) : Prop :=
  Forall (same_layout t) col
  /\ forall j, (j < length (t_values t))%nat ->
       (entry t j == sum_Q ((fun u => entry u j) <$> col) / inject_Z (len col))%Q.

(** The ranks hold the same model: parameter by parameter they agree on
    whether the gradient is reduced, and the gradients fit together. *)
Definition contribution (p : param) : option tensor :=
  if requires_grad p then grad p else None.

Definition compatible (p p' : param) : Prop :=
  match contribution p, contribution p' with
  | Some g, Some g' => same_layout g g'
  | None, None => True
  | _, _ => False
  end.

Definition uniform (w : list (list param)) : Prop :=
  forall r r' ps ps', w !! r = Some ps -> w !! r' = Some ps' -> Forall2 compatible ps ps'.

(** The reading of the synchronisation as an average: every reduced gradient
    ends as the cross-rank sum divided by the number of ranks. *)
Definition gradients_averaged (w w' : list (list param)) : Prop :=
  forall r ps i p, w !! r = Some ps -> ps !! i = Some p -> contribution p <> None ->
    exists ps' p' col t,
      w' !! r = Some ps' /\ ps' !! i = Some p' /\ local_grads w i = Some col
      /\ grad p' = Some t /\ is_cross_rank_average col t.

(** Two ranks, one parameter each, with local gradients 1 and 3. *)
Definition grad1 (q : Q) : param :=
  {| requires_grad := true;
     grad := Some {| t_dtype := Float32; t_shape := [1]; t_values := [q] |};
     p_data := {| t_dtype := Float32; t_shape := [1]; t_values := [0%Q] |} |}.

Definition two_ranks : list (list param) := [[grad1 1]; [grad1 3]].

(** ** Auxiliary descriptions of the synchronisation *)

Definition sum_call (g : tensor) : tensor * reduce_op := (g, SUM).

(** The parameters as the loop leaves them when the k-th call answers with
    the k-th entry of [results]. *)
Fixpoint write_back (results : list tensor) (k : nat) (ps : list param) : list param :=
  match ps with
  | [] => []
  | p :: rest =>
      match contribution p with
      | Some g => set_grad p (default g (results !! k))
                  :: write_back results (Datatypes.S k) rest
      | None => p :: write_back results k rest
      end
  end.

Definition calls_before (ps : list param) (i : nat) : nat :=
  length (omap contribution (take i ps)).

(** The positions, counted from [i], of the parameters whose gradient the
    loop reduces. *)
Fixpoint reduced_from (i : nat) (ps : list param) : list nat :=
  match ps with
  | [] => []
  | p :: rest =>
      match contribution p with
      | Some _ => i :: reduced_from (Datatypes.S i) rest
      | None => reduced_from (Datatypes.S i) rest
      end
  end.

(** Events of the gradient update of a step: zeroing, backward, a gradient
    all-reduce, the optimizer step. *)
Definition is_update_event (e : event) : bool :=
  match e with
  | EvLib ZeroGrad | EvLib Backward | EvLib OptimizerStep => true
  | EvAllReduce (GradOf _) _ => true
  | _ => false
  end.

(** Events that can follow [optimizer.step()] within an iteration, and the
    run's final evaluation: evaluation calls, the accuracy all-reduce,
    printing. *)
Definition is_report_event (e : event) : bool :=
  match e with
  | EvEvaluate _ | EvLib ModelEval | EvLib (Forward true) => true
  | EvAllReduce Accuracy _ => true
  | EvPrint _ => true
  | _ => false
  end.

Definition is_print (e : event) : bool :=
  match e with EvPrint _ => true | _ => false end.

(** Events of the set-up of [run], before the epoch loop. *)
Definition is_setup_event (e : event) : bool :=
  match e with
  | EvPrint _ => true
  | EvLib (CudaSetDevice _) | EvLib (GraphToDevice _) | EvLib (CreateModel _)
  | EvLib ModelCuda | EvLib (CreateOptimizer _ _) => true
  | _ => false
  end.

Definition is_model_train (e : event) : bool :=
  match e with EvLib ModelTrain => true | _ => false end.

Definition is_optimizer_step (e : event) : bool :=
  match e with EvLib OptimizerStep => true | _ => false end.

Fixpoint count_events (f : event -> bool) (tr : list event) : nat :=
  match tr with
  | [] => 0
  | e :: tr' => (if f e then 1 else 0) + count_events f tr'
  end.


(** A selection on which [evaluate] returns: a batch of at least one row. *)
Definition is_batch (nid : index_tensor) : bool :=
  match nid with
  | Index1d (_ :: _) => true
  | _ => false
  end.






(** The k-th call of every rank. *)
Definition column (w : list (list param)) (k : nat) : option (list tensor) :=
  mapM (fun ps => omap contribution ps !! k) w.



(** ** Parts of [run] on their own *)

Section Run_parts.

Context {S : Type}.
Variable lib_step : lib_op -> train_state S -> train_state S.
Variable all_reduce : S -> tensor -> reduce_op -> S * tensor.
Variable count_correct : train_state S -> list Z -> Z.
Variable args : Args.

(** Lines 162-175: what an iteration does after [optimizer.step()]. *)
Definition epoch_report (num_parts : pyval) (rank : Z) (val_nid : index_tensor)
    (st : train_state S) : M (train_state S) :=
  let* st :=
    if a_val args then
      let* (acc, st) := evaluate lib_step count_correct st val_nid in
      let vacc := scalar_tensor acc in
      let* (vacc, st) := all_reduce_accuracy all_reduce st vacc in
      do* (if bool_decide (rank = 0) then
             let* _ := py_truediv (tensor_item vacc) num_parts in
             emit (EvPrint "Epoch | Time(s) | Loss | Accuracy")
           else ret tt) in
      ret st
    else ret st in
  do* (if bool_decide (a_rank args = 0) then
         do* emit (EvPrint "Epoch: time: sec") in
         emit (EvPrint "")
       else ret tt) in
  ret st.

(** Lines 178-186: what [run] does after the epoch loop. *)
Definition run_final (num_parts : pyval) (test_nid : index_tensor)
    (st : train_state S) : M unit :=
  do* emit (EvPrint "") in
  let* (acc, st) := evaluate lib_step count_correct st test_nid in
  let cum_acc := scalar_tensor acc in
  let* (cum_acc, st) := all_reduce_accuracy all_reduce st cum_acc in
  do* (if bool_decide (a_rank args = 0) then
         do* emit (EvPrint "----------") in
         let* q := py_truediv (tensor_item cum_acc) num_parts in
         do* emit (EvPrint "Accuracy, avg: %") in
         emit (EvPrint "----------")
       else ret tt) in
  ret tt.

(** The events of lines 93-139 once the node data has been read, and the
    training state they leave. *)
Definition run_setup_events (model : GraphSAGE) : list event :=
  if bool_decide (a_gpu args < 0) then
    [EvPrint "----Data statistics------"; EvLib (CreateModel model);
     EvLib (CreateOptimizer (a_lr args) (a_weight_decay args))]
  else
    [EvPrint "----Data statistics------"; EvLib (CudaSetDevice (a_gpu args));
     EvPrint "use cuda:"; EvLib (GraphToDevice (a_gpu args));
     EvLib (CreateModel model); EvLib ModelCuda;
     EvLib (CreateOptimizer (a_lr args) (a_weight_decay args))].

Definition run_setup_state (model : GraphSAGE) (s0 : S) : train_state S :=
  if bool_decide (a_gpu args < 0) then
    lib_step (CreateOptimizer (a_lr args) (a_weight_decay args))
      (lib_step (CreateModel model) (mkState [] s0))
  else
    lib_step (CreateOptimizer (a_lr args) (a_weight_decay args))
      (lib_step ModelCuda (lib_step (CreateModel model)
         (lib_step (GraphToDevice (a_gpu args))
            (lib_step (CudaSetDevice (a_gpu args)) (mkState [] s0))))).

End Run_parts.

Definition is_cuda_event (e : event) : bool :=
  match e with
  | EvLib (CudaSetDevice _) | EvLib (GraphToDevice _) | EvLib ModelCuda => true
  | _ => false
  end.

Definition set_val (args : Args) (v : bool) : Args :=
  mkArgs (a_dataset args) (a_dropout args) (a_gpu args) (a_nr args) v
         (a_lr args) (a_n_epochs args) (a_n_hidden args) (a_n_layers args)
         (a_weight_decay args) (a_aggregator_type args) (a_world_size args)
         (a_rank args) (a_dist_url args) (a_dist_backend args) (a_distributed args).

(** The keys of the node data that [run] reads, in the order it reads them. *)
Definition node_data_keys : list string :=
  ["feat"; "label"; "train_mask"; "val_mask"; "test_mask"].
(** ** GraphSAGE: structure of the layer list and of the forward pass *)

Section GraphSAGE_facts.

Lemma foldl_append_const {A B} (x : A) (l : list B) (acc : list A) :
  foldl (fun ls _ => ls ++ [x]) acc l = acc ++ replicate (length l) x.
Proof.
  revert acc. induction l as [|b l IH]; intros acc; simpl.
  - by rewrite app_nil_r.
  - rewrite IH, <- app_assoc. done.
Qed.

Lemma length_py_range n : length (py_range n) = Z.to_nat n.
Proof. unfold py_range. by rewrite length_fmap, length_seq. Qed.

Lemma GraphSAGE_init_layers in_feats n_hidden n_classes n_layers act p agg :
  layers (GraphSAGE_init in_feats n_hidden n_classes n_layers act p agg)
  = [mkSAGEConv in_feats n_hidden agg]
    ++ replicate (Z.to_nat (n_layers - 1)) (mkSAGEConv n_hidden n_hidden agg)
    ++ [mkSAGEConv n_hidden n_classes agg].
Proof.
  unfold GraphSAGE_init; simpl.
  rewrite foldl_append_const, length_py_range.
  by rewrite <- app_assoc.
Qed.

(** Folding [forward_step] over an enumerated segment that does not reach the
    last index applies a hidden block per layer. *)
Lemma forward_steps_hidden m (pre : list SAGEConv) :
  forall (k : nat) (h : hexpr),
    (Z.of_nat k + len pre <= len (layers m) - 1) ->
    foldl (forward_step m) h (imap (fun i x => (Z.of_nat (k + i), x)) pre)
    = foldl (hidden_block m) h pre.
Proof.
  induction pre as [|c pre IH]; intros k h Hk; [done|].
  assert (Hlen : len (c :: pre) = 1 + len pre).
  { unfold len. rewrite length_cons. lia. }
  assert (0 <= len pre) by (unfold len; lia).
  cbn [imap foldl]. unfold forward_step at 2.
  rewrite Nat.add_0_r.
  rewrite bool_decide_eq_true_2 by lia.
  fold (hidden_block m h c).
  rewrite <- (IH (S k)) by lia.
  f_equal. apply imap_ext. intros i x _. unfold compose. do 2 f_equal. lia.
Qed.

Lemma forward_split m pre last h :
  layers m = pre ++ [last] ->
  forward m h = HLayer last (foldl (hidden_block m) h pre).
Proof.
  intros Hl. unfold forward, enumerate.
  assert (Hlen : len (layers m) = len pre + 1).
  { rewrite Hl. unfold len. rewrite length_app. simpl. lia. }
  rewrite Hl, imap_app, foldl_app.
  pose proof (forward_steps_hidden m pre 0 h) as Hpre.
  cbn [Nat.add] in Hpre. rewrite Hpre by lia.
  cbn [imap foldl]. unfold forward_step.
  rewrite bool_decide_eq_false_2; [done|].
  rewrite Nat.add_0_r. unfold len in *. lia.
Qed.

End GraphSAGE_facts.

(** C10. For every [n_layers >= 1] the constructed model holds exactly
    [n_layers + 1] SAGEConv layers: the input layer [in_feats -> n_hidden],
    [n_layers - 1] hidden layers [n_hidden -> n_hidden] and the output layer
    [n_hidden -> n_classes]; its forward pass applies activation and then
    dropout after every layer but the last, whose result is returned as it
    is. *)
Theorem GraphSAGE_layers_and_forward
    (in_feats n_hidden n_classes n_layers : Z) act p agg (x : hexpr) :
  1 <= n_layers ->
  let m := GraphSAGE_init in_feats n_hidden n_classes n_layers act p agg in
  let first := mkSAGEConv in_feats n_hidden agg in
  let hidden := replicate (Z.to_nat (n_layers - 1)) (mkSAGEConv n_hidden n_hidden agg) in
  let last := mkSAGEConv n_hidden n_classes agg in
  layers m = first :: hidden ++ [last]
  /\ len (layers m) = n_layers + 1
  /\ len hidden = n_layers - 1
  /\ forward m x
     = HLayer last
         (foldl (fun h layer => HDropout p (HActivation act (HLayer layer h)))
                x (first :: hidden)).
Proof.
  intros Hn m first hidden last.
  assert (Hl : layers m = first :: hidden ++ [last]).
  { subst m. by rewrite GraphSAGE_init_layers. }
  split; [exact Hl|].
  split.
  { rewrite Hl. unfold len. simpl. rewrite length_app. subst hidden.
    rewrite length_replicate. simpl. lia. }
  split.
  { unfold len. subst hidden. rewrite length_replicate. lia. }
  rewrite (forward_split m (first :: hidden) last x Hl).
  done.
Qed.

Lemma GraphSAGE_layers_and_forward_witness :
  let m := GraphSAGE_init 128 64 172 3 F_relu (1 # 2) "gcn" in
  layers m = [mkSAGEConv 128 64 "gcn"; mkSAGEConv 64 64 "gcn";
              mkSAGEConv 64 64 "gcn"; mkSAGEConv 64 172 "gcn"]
  /\ len (layers m) = 4.
Proof.
  pose proof (GraphSAGE_layers_and_forward 128 64 172 3 F_relu (1 # 2) "gcn" HInput
                ltac:(lia)) as (H1 & H2 & _).
  split; [exact H1 | exact H2].
Defined.

(** ** Gradient synchronisation: what the loop leaves in the gradients *)

(** The four cases of [param.requires_grad and param.grad is not None]. *)
Ltac contribution_cases p :=
  change (contribution p) with (if requires_grad p then grad p else None);
  destruct (requires_grad p), (grad p).

Section Sync_facts.

Lemma omap_contribution_cons p ps :
  omap contribution (p :: ps)
  = match contribution p with
    | Some g => g :: omap contribution ps
    | None => omap contribution ps
    end.
Proof. reflexivity. Qed.

Lemma sync_gradients_recording ps :
  forall i log, exists evs ps',
    sync_gradients recording_all_reduce i ps log
    = (evs, Ok (ps', log ++ (sum_call <$> omap contribution ps))).
Proof.
  induction ps as [|p ps IH]; intros i log.
  - exists [], []. simpl. unfold ret. by rewrite app_nil_r.
  - rewrite omap_contribution_cons. cbn [sync_gradients].
    contribution_cases p.
    + unfold recording_all_reduce at 1.
      destruct (IH (Datatypes.S i) (log ++ [(t, SUM)])) as (evs & ps' & ->).
      eexists _, _. simpl. rewrite <- app_assoc. reflexivity.
    + destruct (IH (Datatypes.S i) log) as (evs & ps' & ->).
      eexists _, _. simpl. reflexivity.
    + destruct (IH (Datatypes.S i) log) as (evs & ps' & ->).
      eexists _, _. simpl. reflexivity.
    + destruct (IH (Datatypes.S i) log) as (evs & ps' & ->).
      eexists _, _. simpl. reflexivity.
Qed.

Lemma rank_calls_spec ps : rank_calls ps = sum_call <$> omap contribution ps.
Proof.
  unfold rank_calls, final_state, result.
  destruct (sync_gradients_recording ps 0 []) as (evs & ps' & ->). done.
Qed.

Lemma sync_gradients_table results ps :
  forall i k, exists evs k',
    sync_gradients (table_all_reduce results) i ps k
    = (evs, Ok (write_back results k ps, k')).
Proof.
  induction ps as [|p ps IH]; intros i k; cbn [sync_gradients write_back].
  - by exists [], k.
  - contribution_cases p.
    + unfold table_all_reduce at 1.
      destruct (IH (Datatypes.S i) (Datatypes.S k)) as (evs & k' & ->).
      eexists _, _. simpl. reflexivity.
    + destruct (IH (Datatypes.S i) k) as (evs & k' & ->). eexists _, _. simpl. reflexivity.
    + destruct (IH (Datatypes.S i) k) as (evs & k' & ->). eexists _, _. simpl. reflexivity.
    + destruct (IH (Datatypes.S i) k) as (evs & k' & ->). eexists _, _. simpl. reflexivity.
Qed.

Lemma rank_synced_spec results ps : rank_synced results ps = write_back results 0 ps.
Proof.
  unfold rank_synced, final_state, result.
  destruct (sync_gradients_table results ps 0 0%nat) as (evs & k' & ->). done.
Qed.

Lemma write_back_lookup results ps :
  forall k i p, ps !! i = Some p ->
    write_back results k ps !! i
    = Some match contribution p with
           | Some g => set_grad p (default g (results !! (k + calls_before ps i)%nat))
           | None => p
           end.
Proof.
  unfold calls_before.
  induction ps as [|q ps IH]; intros k i p Hi; [done|].
  destruct i as [|i]; simpl in Hi.
  - inversion Hi; subst q. simpl. rewrite Nat.add_0_r.
    by destruct (contribution p).
  - cbn [write_back take omap list_omap]. fold (omap contribution (take i ps)).
    destruct (contribution q) as [g|]; simpl.
    + rewrite (IH _ _ _ Hi). do 2 f_equal.
      destruct (contribution p); [|done]. do 3 f_equal. lia.
    + by rewrite (IH _ _ _ Hi).
Qed.

Lemma calls_lookup ps i p g :
  ps !! i = Some p -> contribution p = Some g ->
  omap contribution ps !! calls_before ps i = Some g.
Proof.
  intros Hi Hg. unfold calls_before.
  pose proof (take_drop_middle ps i p Hi) as Hsplit.
  rewrite <- Hsplit at 2.
  rewrite omap_app, lookup_app_r by lia.
  rewrite Nat.sub_diag, omap_contribution_cons, Hg. done.
Qed.

Lemma compatible_calls ps ps' :
  Forall2 compatible ps ps' ->
  Forall2 same_layout (omap contribution ps) (omap contribution ps').
Proof.
  induction 1 as [|p p' ps ps' Hc _ IH]; simpl; [constructor|].
  unfold compatible in Hc.
  destruct (contribution p), (contribution p'); try done.
  by constructor.
Qed.

Lemma compatible_calls_before ps ps' i :
  Forall2 compatible ps ps' -> calls_before ps i = calls_before ps' i.
Proof.
  intros H. unfold calls_before.
  apply (Forall2_length same_layout), compatible_calls.
  by apply Forall2_take.
Qed.

Lemma same_layout_refl a : same_layout a a.
Proof. by unfold same_layout. Qed.

Lemma same_layout_sym a b : same_layout a b -> same_layout b a.
Proof. intros (Hd & Hs & Hl). repeat split; congruence. Qed.

Lemma same_layout_trans a b c : same_layout a b -> same_layout b c -> same_layout a c.
Proof. intros (Hd & Hs & Hl) (Hd' & Hs' & Hl'). repeat split; congruence. Qed.

Lemma entry_zip_with f a b j :
  length a = length b -> (j < length a)%nat ->
  nth j (zip_with f a b) 0%Q = f (nth j a 0%Q) (nth j b 0%Q).
Proof.
  intros Hlen Hj. rewrite !nth_lookup, lookup_zip_with.
  destruct (lookup_lt_is_Some_2 a j Hj) as [x ->].
  destruct (lookup_lt_is_Some_2 b j ltac:(lia)) as [y ->]. done.
Qed.

Lemma tensor_combine_spec op a b :
  same_layout a b ->
  exists t, tensor_combine op a b = Some t /\ same_layout a t
    /\ forall j, (j < length (t_values a))%nat ->
         entry t j = reduce_fn op (entry a j) (entry b j).
Proof.
  intros Hab. unfold tensor_combine. rewrite decide_True by done.
  destruct Hab as (Hd & Hs & Hl).
  eexists. split; [done|]. split.
  - unfold same_layout. simpl. rewrite length_zip_with. repeat split; lia.
  - intros j Hj. unfold entry. simpl. by apply entry_zip_with.
Qed.

Lemma reduce_from_sum us :
  forall acc, Forall (same_layout acc) us ->
  exists t, reduce_from SUM acc (sum_call <$> us) = Some t /\ same_layout acc t
    /\ forall j, (j < length (t_values acc))%nat ->
         (entry t j == entry acc j + sum_Q ((fun u => entry u j) <$> us))%Q.
Proof.
  induction us as [|u us IH]; intros acc Hall.
  - exists acc. split; [done|]. split; [apply same_layout_refl|].
    intros j _. simpl. ring.
  - apply Forall_cons in Hall as [Hu Hus].
    destruct (tensor_combine_spec SUM acc u Hu) as (acc' & Hc & Hlay & Hval).
    destruct (IH acc') as (t & Ht & Hlt & Hvt).
    { eapply Forall_impl; [exact Hus|]. intros v Hv.
      eapply same_layout_trans; [apply same_layout_sym, Hlay|exact Hv]. }
    exists t. cbn [fmap list_fmap sum_call reduce_from].
    rewrite decide_True by done. rewrite Hc. split; [exact Ht|].
    split; [by eapply same_layout_trans|].
    intros j Hj. rewrite Hvt by (destruct Hlay as (_ & _ & <-); exact Hj).
    rewrite Hval by exact Hj. simpl. ring.
Qed.

Lemma reduce_column_sum (col : list tensor) u0 :
  head col = Some u0 -> Forall (same_layout u0) col ->
  exists t, reduce_column (sum_call <$> col) = Some t /\ is_cross_rank_sum col t.
Proof.
  destruct col as [|u us]; intros Hh Hall; [done|].
  injection Hh as ->. apply Forall_cons in Hall as [_ Hus].
  destruct (reduce_from_sum us u0 Hus) as (t & Ht & Hlay & Hval).
  exists t. split; [exact Ht|]. split.
  - constructor; [by apply same_layout_sym|].
    eapply Forall_impl; [exact Hus|]. intros v Hv.
    eapply same_layout_trans; [apply same_layout_sym, Hlay|exact Hv].
  - intros j Hj. cbn [fmap list_fmap sum_Q foldr]. apply Hval.
    destruct Hlay as (_ & _ & ->). exact Hj.
Qed.

Lemma column_calls w k :
  mapM (fun c => c !! k) (rank_calls <$> w) = fmap sum_call <$> column w k.
Proof.
  unfold column. induction w as [|ps w IH]; [done|].
  cbn [fmap list_fmap mapM]. rewrite IH, rank_calls_spec, list_lookup_fmap.
  destruct (omap contribution ps !! k); [|done]. simpl.
  by destruct (mapM _ w).
Qed.

Lemma uniform_calls_length w ps ps' :
  uniform w -> ps ∈ w -> ps' ∈ w ->
  length (omap contribution ps) = length (omap contribution ps').
Proof.
  intros Hu [r Hr]%list_elem_of_lookup [r' Hr']%list_elem_of_lookup.
  apply (Forall2_length same_layout), compatible_calls. by eapply Hu.
Qed.

Lemma column_is_Some w ps0 w0 k :
  uniform w -> w = ps0 :: w0 -> (k < length (omap contribution ps0))%nat ->
  exists col u0, column w k = Some col /\ head col = Some u0
    /\ Forall (same_layout u0) col.
Proof.
  intros Hu Hw Hk.
  assert (is_Some (column w k)) as [col Hcol].
  { apply mapM_is_Some_2, Forall_forall. intros ps Hps. simpl.
    apply lookup_lt_is_Some_2.
    rewrite (uniform_calls_length w ps ps0 Hu Hps); [exact Hk|].
    subst w. apply list_elem_of_here. }
  pose proof (mapM_Some_1 _ _ _ Hcol) as HF.
  subst w. destruct col as [|u0 col0]; [by apply Forall2_cons_nil_inv in HF|].
  apply Forall2_cons in HF as [Hu0 HF0].
  exists (u0 :: col0), u0. split; [exact Hcol|]. split; [done|].
  apply Forall_lookup. intros r u Hr.
  assert (Forall2 (fun ps u => omap contribution ps !! k = Some u)
                  (ps0 :: w0) (u0 :: col0)) as HF by (by constructor).
  destruct (Forall2_lookup_r _ _ _ _ _ HF Hr) as (ps & Hps & Hpsu).
  pose proof (compatible_calls _ _ (Hu 0%nat r ps0 ps eq_refl Hps)) as Hlay.
  exact (Forall2_lookup_lr _ _ _ _ _ _ Hlay Hu0 Hpsu).
Qed.

Lemma world_collectives_Some w ps0 w0 :
  uniform w -> w = ps0 :: w0 ->
  exists results, world_collectives (rank_calls <$> w) = Some results
    /\ forall k, (k < length (omap contribution ps0))%nat ->
         exists col t, column w k = Some col /\ results !! k = Some t
           /\ is_cross_rank_sum col t.
Proof.
  intros Hu Hw.
  assert (Hcols : forall k, (k < length (omap contribution ps0))%nat ->
            exists col t, column w k = Some col
              /\ (mapM (fun c => c !! k) (rank_calls <$> w) ≫= reduce_column) = Some t
              /\ is_cross_rank_sum col t).
  { intros k Hk.
    destruct (column_is_Some w ps0 w0 k Hu Hw Hk) as (col & u0 & Hcol & Hh & Hall).
    destruct (reduce_column_sum col u0 Hh Hall) as (t & Ht & Hsum).
    exists col, t. rewrite column_calls, Hcol. simpl. by rewrite Ht. }
  unfold world_collectives.
  assert (Hhead : rank_calls <$> w = rank_calls ps0 :: (rank_calls <$> w0)).
  { by subst w. }
  rewrite Hhead. rewrite <- Hhead.
  assert (Hlen : length (rank_calls ps0) = length (omap contribution ps0)).
  { by rewrite rank_calls_spec, length_fmap. }
  assert (Hfb : forallb (fun c => Nat.eqb (length c) (length (rank_calls ps0)))
                        (rank_calls <$> w) = true).
  { apply forallb_forall. intros c Hc. apply list_elem_of_In in Hc.
    apply list_elem_of_fmap in Hc as (ps & -> & Hps). apply Nat.eqb_eq.
    rewrite !rank_calls_spec, !length_fmap.
    apply (uniform_calls_length w); [done|done|]. subst w. apply list_elem_of_here. }
  rewrite Hfb.
  rewrite Hlen.
  match goal with |- context [mapM ?f ?l] =>
    assert (is_Some (mapM f l)) as [results Hres] end.
  { apply mapM_is_Some_2, Forall_forall. intros k [_ Hk]%elem_of_seq. simpl.
    destruct (Hcols k ltac:(lia)) as (col & t & _ & -> & _). done. }
  exists results. split; [exact Hres|].
  intros k Hk. destruct (Hcols k Hk) as (col & t & Hcol & Hred & Hsum).
  exists col, t. split; [exact Hcol|]. split; [|exact Hsum].
  pose proof (mapM_Some_1 _ _ _ Hres) as HF.
  destruct (Forall2_lookup_l _ _ _ k k HF (lookup_seq_lt 0 _ k Hk))
    as (t' & Hlk & Ht').
  simpl in Ht'. rewrite Hred in Ht'. by injection Ht' as <-.
Qed.

(** For a parameter whose gradient is reduced, the column of its call is the
    list of its local gradients. *)
Lemma column_local_grads w r ps i p g col :
  uniform w -> w !! r = Some ps -> ps !! i = Some p -> contribution p = Some g ->
  column w (calls_before ps i) = Some col ->
  local_grads w i = Some col.
Proof.
  intros Hu Hr Hi Hg Hcol. unfold local_grads.
  apply mapM_Some_2. apply mapM_Some_1 in Hcol.
  apply Forall2_same_length_lookup. apply Forall2_same_length_lookup in Hcol.
  destruct Hcol as [Hlen Hcol]. split; [exact Hlen|].
  intros r' ps' u Hr' Hu'. specialize (Hcol r' ps' u Hr' Hu').
  pose proof (Hu r r' ps ps' Hr Hr') as Hc.
  destruct (Forall2_lookup_l _ _ _ _ _ Hc Hi) as (p' & Hi' & Hpp').
  rewrite Hi'. simpl.
  unfold compatible in Hpp'. rewrite Hg in Hpp'.
  destruct (contribution p') as [g'|] eqn:Hg'; [|done].
  rewrite (compatible_calls_before ps ps' i Hc) in Hcol.
  rewrite (calls_lookup ps' i p' g' Hi' Hg') in Hcol. injection Hcol as <-.
  unfold contribution in Hg'. by destruct (requires_grad p').
Qed.

End Sync_facts.

(** C1 (amended). When all ranks of a job run the parameter loop that follows
    [loss.backward()] on the same model, the job's collectives complete, and
    every parameter with [requires_grad] set and a gradient that is not
    [None] ends, on every rank, with the cross-rank sum of that parameter's
    local gradients as its gradient; the sum is not divided by the number of
    ranks.  All other parameters keep their gradient, and no parameter's
    data or [requires_grad] flag changes. *)
Theorem sync_world_leaves_cross_rank_sum (w : list (list param)) :
  w <> [] -> uniform w ->
  exists w', sync_world w = Some w' /\
    forall r ps i p, w !! r = Some ps -> ps !! i = Some p ->
      exists ps' p', w' !! r = Some ps' /\ ps' !! i = Some p'
        /\ requires_grad p' = requires_grad p /\ p_data p' = p_data p
        /\ match contribution p with
           | Some _ => exists col t, local_grads w i = Some col
                         /\ grad p' = Some t /\ is_cross_rank_sum col t
           | None => grad p' = grad p
           end.
Proof.
  intros Hne Hu. destruct w as [|ps0 w0] eqn:Hw; [done|]. rewrite <- Hw in *.
  destruct (world_collectives_Some w ps0 w0 Hu Hw) as (results & Hres & Hcols).
  exists (rank_synced results <$> w). split.
  { unfold sync_world. rewrite Hres. done. }
  intros r ps i p Hr Hi.
  pose proof (write_back_lookup results ps 0 i p Hi) as Hwb. simpl in Hwb.
  eexists _, _. split.
  { rewrite list_lookup_fmap, Hr. simpl. by rewrite rank_synced_spec. }
  split; [exact Hwb|].
  destruct (contribution p) as [g|] eqn:Hg; [|done].
  split; [done|]. split; [done|].
  pose proof (calls_lookup ps i p g Hi Hg) as Hk. apply lookup_lt_Some in Hk.
  assert (Hk0 : (calls_before ps i < length (omap contribution ps0))%nat).
  { rewrite <- (uniform_calls_length w ps ps0 Hu); [exact Hk| |].
    - by eapply list_elem_of_lookup_2.
    - rewrite Hw. apply list_elem_of_here. }
  destruct (Hcols _ Hk0) as (col & t & Hcol & Ht & Hsum).
  exists col, t. split; [by eapply column_local_grads|].
  simpl. rewrite Ht. done.
Qed.

Lemma sync_world_leaves_cross_rank_sum_witness :
  exists w', sync_world two_ranks = Some w' /\
    exists ps' p', w' !! 1%nat = Some ps' /\ ps' !! 0%nat = Some p'
      /\ exists col t, local_grads two_ranks 0 = Some col
           /\ grad p' = Some t /\ is_cross_rank_sum col t.
Proof.
  assert (Hu : uniform two_ranks).
  { intros r r' ps ps' Hr Hr'.
    destruct r as [|[|r]], r' as [|[|r']]; try done;
      injection Hr as <-; injection Hr' as <-;
      repeat constructor. }
  destruct (sync_world_leaves_cross_rank_sum two_ranks ltac:(done) Hu)
    as (w' & Hw' & Hall).
  exists w'. split; [exact Hw'|].
  destruct (Hall 1%nat [grad1 3] 0%nat (grad1 3) eq_refl eq_refl)
    as (ps' & p' & H1 & H2 & _ & _ & Hsum).
  exists ps', p'. split; [exact H1|]. split; [exact H2|]. exact Hsum.
Defined.

(** C1 as stated fails: with two ranks whose local gradients are 1 and 3, both
    ranks end with the gradient 4, which is the sum and not the average 2. *)
Lemma sync_world_not_average :
  exists w', sync_world two_ranks = Some w' /\ ~ gradients_averaged two_ranks w'.
Proof.
  eexists. split; [vm_compute; reflexivity|].
  intros Havg.
  destruct (Havg 0%nat [grad1 1] 0%nat (grad1 1) eq_refl eq_refl ltac:(done))
    as (ps' & p' & col & t & H1 & H2 & H3 & H4 & _ & H5).
  vm_compute in H1. injection H1 as <-.
  vm_compute in H2. injection H2 as <-.
  vm_compute in H3. injection H3 as <-.
  vm_compute in H4. injection H4 as <-.
  specialize (H5 0%nat ltac:(simpl; lia)).
  vm_compute in H5. discriminate H5.
Qed.

(** ** The epoch loop: order of the library calls *)

Section Run_facts.

Context {S : Type}.
Variable lib_step : lib_op -> train_state S -> train_state S.
Variable all_reduce : S -> tensor -> reduce_op -> S * tensor.
Variable count_correct : train_state S -> list Z -> Z.
Variable args : Args.

Lemma trace_bindM {A B} (m : M A) (k : A -> M B) :
  trace (bindM m k)
  = trace m ++ match result m with Ok a => trace (k a) | Raise _ => [] end.
Proof.
  destruct m as [t [a|e]]; unfold bindM, trace, result; simpl.
  - by destruct (k a).
  - by rewrite app_nil_r.
Qed.

Lemma result_bindM {A B} (m : M A) (k : A -> M B) :
  result (bindM m k)
  = match result m with Ok a => result (k a) | Raise e => Raise e end.
Proof.
  destruct m as [t [a|e]]; unfold bindM, result; simpl; [|done].
  by destruct (k a).
Qed.

Lemma bindM_Ok {A B} t (a : A) (k : A -> M B) :
  bindM (t, Ok a) k = (t ++ trace (k a), result (k a)).
Proof. unfold bindM, trace, result. by destruct (k a). Qed.

Lemma sync_gradients_trace ps :
  forall i s, exists ps' s',
    sync_gradients all_reduce i ps s
    = ((fun j => EvAllReduce (GradOf j) SUM) <$> reduced_from i ps, Ok (ps', s')).
Proof.
  induction ps as [|p ps IH]; intros i s; cbn [sync_gradients reduced_from].
  - by exists [], s.
  - contribution_cases p.
    + destruct (all_reduce s t SUM) as [s1 g'].
      destruct (IH (Datatypes.S i) s1) as (ps' & s' & ->).
      eexists _, _. simpl. rewrite ?app_nil_r. reflexivity.
    + destruct (IH (Datatypes.S i) s) as (ps' & s' & ->). eexists _, _. simpl. rewrite ?app_nil_r. reflexivity.
    + destruct (IH (Datatypes.S i) s) as (ps' & s' & ->). eexists _, _. simpl. rewrite ?app_nil_r. reflexivity.
    + destruct (IH (Datatypes.S i) s) as (ps' & s' & ->). eexists _, _. simpl. rewrite ?app_nil_r. reflexivity.
Qed.

Lemma reduced_from_spec ps :
  forall i j, j ∈ reduced_from i ps
    <-> exists p, (i <= j)%nat /\ ps !! (j - i)%nat = Some p
          /\ requires_grad p = true /\ is_Some (grad p).
Proof.
  induction ps as [|p ps IH]; intros i j; cbn [reduced_from].
  - split; [by intros ?%elem_of_nil|]. by intros (p & _ & ? & _).
  - assert (Hc : is_Some (contribution p)
                 <-> requires_grad p = true /\ is_Some (grad p)).
    { unfold contribution. destruct (requires_grad p); [by split; [intros ?|intros [_ ?]]|].
      split; [by intros [? ?]|by intros [? _]]. }
    assert (Hstep : j ∈ reduced_from (Datatypes.S i) ps
              <-> exists q, (i < j)%nat /\ ps !! (j - Datatypes.S i)%nat = Some q
                    /\ requires_grad q = true /\ is_Some (grad q)).
    { rewrite IH. split; intros (q & ? & ?); exists q; (split; [lia|done]). }
    assert (Htail : forall q, (i < j)%nat ->
              (p :: ps) !! (j - i)%nat = Some q <-> ps !! (j - Datatypes.S i)%nat = Some q).
    { intros q Hij. replace (j - i)%nat with (Datatypes.S (j - Datatypes.S i)) by lia. done. }
    destruct (contribution p) as [g|] eqn:Hg.
    + rewrite elem_of_cons, Hstep. split.
      * intros [->|(q & Hij & Hq & Hrq)].
        -- exists p. rewrite Nat.sub_diag. split; [lia|]. split; [done|].
           apply Hc. by eexists.
        -- exists q. split; [lia|]. split; [by apply Htail|done].
      * intros (q & Hij & Hq & Hrq).
        destruct (decide (j = i)) as [->|Hne]; [by left|]. right.
        exists q. split; [lia|]. split; [apply Htail; [lia|done]|done].
    + rewrite Hstep. split.
      * intros (q & Hij & Hq & Hrq). exists q. split; [lia|].
        split; [by apply Htail|done].
      * intros (q & Hij & Hq & Hrq).
        destruct (decide (j = i)) as [->|Hne].
        -- rewrite Nat.sub_diag in Hq. injection Hq as <-.
           apply Hc in Hrq as [? [=]].
        -- exists q. split; [lia|]. split; [apply Htail; [lia|done]|done].
Qed.

Lemma reduced_from_lower ps : forall i j, j ∈ reduced_from i ps -> (i <= j)%nat.
Proof. intros i j (p & ? & _)%reduced_from_spec. done. Qed.

Lemma reduced_from_NoDup ps : forall i, NoDup (reduced_from i ps).
Proof.
  induction ps as [|p ps IH]; intros i; cbn [reduced_from]; [constructor|].
  destruct (contribution p); [|apply IH].
  constructor; [|apply IH].
  intros Hin%reduced_from_lower. lia.
Qed.

Lemma lib_call_eq op (st : train_state S) :
  lib_call lib_step op st = ([EvLib op], Ok (lib_step op st)).
Proof. reflexivity. Qed.

Lemma sync_state_trace (st : train_state S) :
  exists st', sync_state all_reduce st
    = ((fun j => EvAllReduce (GradOf j) SUM) <$> reduced_from 0 (ts_params st), Ok st').
Proof.
  unfold sync_state.
  destruct (sync_gradients_trace (ts_params st) 0 (ts_lib st)) as (ps' & s' & ->).
  exists (mkState ps' s'). simpl. by rewrite app_nil_r.
Qed.

Lemma trace_bindM_Ok {A B} t (a : A) (k : A -> M B) :
  trace (bindM (t, Ok a) k) = t ++ trace (k a).
Proof. by rewrite bindM_Ok. Qed.

Lemma evaluate_eq (st : train_state S) nid :
  let st' := lib_step (Forward true) (lib_step ModelEval st) in
  evaluate lib_step count_correct st nid
  = ([EvEvaluate nid; EvLib ModelEval; EvLib (Forward true)],
     match nid with
     | Index0d _ => Raise dim_out_of_range
     | Index1d rows =>
         if bool_decide (len rows = 0) then Raise ZeroDivisionError
         else Ok ((inject_Z (count_correct st' rows) * 1 / inject_Z (len rows))%Q, st')
     end).
Proof.
  unfold evaluate. rewrite !lib_call_eq. destruct nid as [i|rows]; cbn; [done|].
  by destruct (bool_decide _).
Qed.

(** On a batch the accuracy is computed. *)
Lemma evaluate_batch (st : train_state S) nid :
  is_batch nid = true ->
  let st' := lib_step (Forward true) (lib_step ModelEval st) in
  exists rows,
    nid = Index1d rows
    /\ evaluate lib_step count_correct st nid
       = ([EvEvaluate nid; EvLib ModelEval; EvLib (Forward true)],
          Ok ((inject_Z (count_correct st' rows) * 1 / inject_Z (len rows))%Q, st')).
Proof.
  intros Hb st'. rewrite evaluate_eq. destruct nid as [i|[|r rows]]; try done.
  exists (r :: rows). split; [done|]. fold st'.
  rewrite bool_decide_eq_false_2; [done|]. unfold len. simpl length. lia.
Qed.

(** Off a batch it raises once the forward pass was run. *)
Lemma evaluate_not_batch (st : train_state S) nid :
  is_batch nid = false ->
  exists e,
    evaluate lib_step count_correct st nid
    = ([EvEvaluate nid; EvLib ModelEval; EvLib (Forward true)], Raise e).
Proof.
  intros Hb. rewrite evaluate_eq. destruct nid as [i|[|r rows]]; try done; by eexists.
Qed.

Lemma py_truediv_trace x d : trace (py_truediv x d) = [].
Proof. destruct d; simpl; try done; by case_match. Qed.

(** What follows [optimizer.step()] in an iteration only evaluates, reduces
    the accuracy and prints. *)
Lemma epoch_tail_reports num_parts rank val_nid (st : train_state S) :
  Forall (fun e => is_report_event e = true)
    (trace (let* st :=
              if a_val args then
                let* (acc, st) := evaluate lib_step count_correct st val_nid in
                let vacc := scalar_tensor acc in
                let* (vacc, st) := all_reduce_accuracy all_reduce st vacc in
                do* (if bool_decide (rank = 0) then
                       let* _ := py_truediv (tensor_item vacc) num_parts in
                       emit (EvPrint "Epoch | Time(s) | Loss | Accuracy")
                     else ret tt) in
                ret st
              else ret st in
            do* (if bool_decide (a_rank args = 0) then
                   do* emit (EvPrint "Epoch: time: sec") in
                   emit (EvPrint "")
                 else ret tt) in
            ret st)).
Proof.
  rewrite trace_bindM. apply Forall_app. split.
  - destruct (a_val args); [|constructor].
    destruct (is_batch val_nid) eqn:Hb.
    2:{ destruct (evaluate_not_batch st val_nid Hb) as (e & ->).
        cbn. repeat constructor. }
    destruct (evaluate_batch st val_nid Hb) as (rows & _ & ->).
    rewrite trace_bindM_Ok. cbv beta iota.
    apply Forall_app. split; [repeat constructor|].
    unfold all_reduce_accuracy.
    destruct (all_reduce _ _ SUM) as [s' t']. cbn -[py_truediv].
    pose proof (py_truediv_trace (tensor_item t') num_parts) as Ht.
    destruct (py_truediv (tensor_item t') num_parts) as [tr [q|e]];
      unfold trace in Ht; simpl in Ht; subst tr;
      destruct (bool_decide (rank = 0)); cbn; repeat constructor.
  - destruct (result _); [|constructor].
    destruct (bool_decide (a_rank args = 0)); cbn; repeat constructor.
Qed.

Lemma epoch_body_trace num_parts rank val_nid (st : train_state S) epoch :
  let after_backward :=
    lib_step Backward (lib_step ZeroGrad (lib_step CrossEntropy
      (lib_step (Forward false) (lib_step ModelTrain st)))) in
  exists rest,
    trace (epoch_body lib_step all_reduce count_correct args
                      num_parts rank val_nid st epoch)
    = [EvLib ModelTrain; EvLib (Forward false); EvLib CrossEntropy;
       EvLib ZeroGrad; EvLib Backward]
      ++ ((fun i => EvAllReduce (GradOf i) SUM)
            <$> reduced_from 0 (ts_params after_backward))
      ++ [EvLib OptimizerStep] ++ rest
    /\ Forall (fun e => is_report_event e = true) rest.
Proof.
  intros st1. unfold epoch_body.
  do 5 (rewrite lib_call_eq, trace_bindM_Ok; cbv beta).
  fold st1.
  destruct (sync_state_trace st1) as (st2 & ->).
  rewrite trace_bindM_Ok. cbv beta.
  rewrite lib_call_eq, trace_bindM_Ok. cbv beta.
  eexists. split; [reflexivity|]. apply epoch_tail_reports.
Qed.



Lemma len_nonempty {A} (l : list A) : l <> [] -> bool_decide (len l = 0) = false.
Proof.
  intros Hl. apply bool_decide_eq_false_2. unfold len.
  destruct l; [done|]. simpl. lia.
Qed.


Lemma app_pair_eta {A} (m : M A) : m = (trace m, result m).
Proof. by destruct m. Qed.


Lemma count_events_app f tr1 tr2 :
  count_events f (tr1 ++ tr2) = (count_events f tr1 + count_events f tr2)%nat.
Proof. induction tr1 as [|e tr1 IH]; simpl; [done|]. rewrite IH. lia. Qed.

Lemma count_events_none f tr :
  Forall (fun e => f e = false) tr -> count_events f tr = 0%nat.
Proof. induction 1 as [|e tr He _ IH]; simpl; [done|]. by rewrite He, IH. Qed.


Lemma epoch_body_counts num_parts rank val_nid (st : train_state S) epoch :
  let tr := trace (epoch_body lib_step all_reduce count_correct args
                              num_parts rank val_nid st epoch) in
  count_events is_model_train tr = 1%nat
  /\ count_events is_optimizer_step tr = 1%nat.
Proof.
  destruct (epoch_body_trace num_parts rank val_nid st epoch) as (rest & Htr & Hrest).
  intros tr. subst tr. rewrite Htr. rewrite !count_events_app.
  split.
  - rewrite (count_events_none _ rest), (count_events_none _ (_ <$> _)); [done| |].
    + apply Forall_fmap, Forall_forall. by intros i _.
    + eapply Forall_impl; [exact Hrest|].
      intros e He. destruct e; simpl in *; repeat case_match; done.
  - rewrite (count_events_none _ rest), (count_events_none _ (_ <$> _)); [done| |].
    + apply Forall_fmap, Forall_forall. by intros i _.
    + eapply Forall_impl; [exact Hrest|].
      intros e He. destruct e; simpl in *; repeat case_match; done.
Qed.

End Run_facts.

(** C3. In every iteration of the epoch loop the calls come in one order:
    [model.train()], the forward pass and the loss, [optimizer.zero_grad()],
    [loss.backward()], then one [all_reduce] with [ReduceOp.SUM] for each
    parameter that has [requires_grad] set and a gradient that is not [None]
    after the backward pass, in the order of [model.parameters()] and each
    exactly once, then [optimizer.step()]; nothing that follows in the
    iteration zeroes, computes, reduces or applies gradients again. *)
Theorem epoch_body_order {S : Type}
    (lib_step : lib_op -> train_state S -> train_state S)
    (all_reduce : S -> tensor -> reduce_op -> S * tensor)
    (count_correct : train_state S -> list Z -> Z)
    (args : Args) (num_parts : pyval) (rank : Z) (val_nid : index_tensor)
    (st : train_state S) (epoch : Z) :
  let after_backward :=
    lib_step Backward (lib_step ZeroGrad (lib_step CrossEntropy
      (lib_step (Forward false) (lib_step ModelTrain st)))) in
  exists idxs rest,
    trace (epoch_body lib_step all_reduce count_correct args
                      num_parts rank val_nid st epoch)
    = [EvLib ModelTrain; EvLib (Forward false); EvLib CrossEntropy;
       EvLib ZeroGrad; EvLib Backward]
      ++ ((fun i => EvAllReduce (GradOf i) SUM) <$> idxs)
      ++ [EvLib OptimizerStep] ++ rest
    /\ NoDup idxs
    /\ (forall i, i ∈ idxs <->
          exists p, ts_params after_backward !! i = Some p
                    /\ requires_grad p = true /\ is_Some (grad p))
    /\ Forall (fun e => is_update_event e = false) rest.
Proof.
  intros st1.
  destruct (epoch_body_trace lib_step all_reduce count_correct args
              num_parts rank val_nid st epoch) as (rest & Htr & Hrest).
  exists (reduced_from 0 (ts_params st1)), rest.
  split; [exact Htr|].
  split; [apply reduced_from_NoDup|].
  split.
  - intros i. rewrite reduced_from_spec. rewrite Nat.sub_0_r.
    split; intros (p & H); exists p; [by destruct H|split; [lia|done]].
  - eapply Forall_impl; [exact Hrest|].
    intros e He. destruct e; simpl in *; repeat case_match; done.
Qed.

(** ** [run]: the number of iterations and the final evaluation *)

Section Run_loop.

Context {S : Type}.
Variable lib_step : lib_op -> train_state S -> train_state S.
Variable all_reduce : S -> tensor -> reduce_op -> S * tensor.
Variable count_correct : train_state S -> list Z -> Z.
Variable args : Args.

Lemma bindM_ret {A B} (a : A) (k : A -> M B) : bindM (ret a) k = k a.
Proof. unfold bindM, ret. by destruct (k a). Qed.

Lemma dict_get_Some {V} (d : gmap string V) key v :
  d !! key = Some v -> dict_get d key = ret v.
Proof. intros H. unfold dict_get. by rewrite H. Qed.

Lemma trace_pair {A} t (r : outcome A) : trace (t, r) = t.
Proof. reflexivity. Qed.

Lemma result_pair {A} t (r : outcome A) : result (t, r) = r.
Proof. reflexivity. Qed.

Lemma bindM_intro {A B} (m : M A) (k : A -> M B) t a t' r :
  m = (t, Ok a) -> k a = (t', r) -> bindM m k = (t ++ t', r).
Proof. intros -> Hk. unfold bindM. by rewrite Hk. Qed.





End Run_loop.






(** ** The [__main__] block *)

Section Silent_facts.

Context {S : Type}.
Variable env : Env S.

Lemma Forall_trace_bindM {A B} (P : event -> Prop) (m : M A) (k : A -> M B) :
  Forall P (trace m) -> (forall a, Forall P (trace (k a))) ->
  Forall P (trace (bindM m k)).
Proof.
  intros Hm Hk. rewrite trace_bindM. apply Forall_app. split; [done|].
  destruct (result m); [apply Hk|constructor].
Qed.

Lemma trace_bindM_silent {A B} (m : M A) (k : A -> M B) :
  trace m = [] -> (forall a, trace (k a) = []) -> trace (bindM m k) = [].
Proof.
  intros Hm Hk. rewrite trace_bindM, Hm. destruct (result m); [apply Hk|done].
Qed.

Lemma Forall_silent {A} (P : event -> Prop) (m : M A) :
  trace m = [] -> Forall P (trace m).
Proof. intros ->. constructor. Qed.

Lemma dict_get_silent {V} (d : gmap string V) key : trace (dict_get d key) = [].
Proof. unfold dict_get. by destruct (d !! key). Qed.

Lemma py_getitem_silent v key : trace (py_getitem v key) = [].
Proof. destruct v; simpl; try done. apply dict_get_silent. Qed.

Lemma py_contains_silent key v : trace (py_contains key v) = [].
Proof. by destruct v. Qed.

Lemma py_assert_silent c msg : trace (py_assert c msg) = [].
Proof. by destruct c. Qed.

Lemma environ_int_or_minus_one_silent name :
  trace (environ_int_or_minus_one env name) = [].
Proof. unfold environ_int_or_minus_one. by destruct (environ env !! name). Qed.

Lemma environ_int_silent name : trace (environ_int env name) = [].
Proof.
  unfold environ_int. apply trace_bindM_silent; [apply dict_get_silent|done].
Qed.

Lemma partition_config_silent args : trace (partition_config env args) = [].
Proof.
  unfold partition_config, raise_DGLError, lookup_name.
  repeat case_match; reflexivity.
Qed.

End Silent_facts.

(** The computations of the script that perform no event. *)
Ltac silent :=
  first [ reflexivity | apply dict_get_silent | apply py_getitem_silent
        | apply py_contains_silent | apply py_assert_silent
        | apply environ_int_or_minus_one_silent | apply environ_int_silent
        | apply partition_config_silent ].

(** [Forall P (trace m)] for a computation built from binds, conditionals
    and the statements above. *)
Ltac forall_trace :=
  repeat first
    [ apply Forall_silent; silent
    | apply Forall_trace_bindM; [|intros ?]
    | match goal with |- Forall _ (trace (if ?b then _ else _)) => destruct b end
    | match goal with |- Forall _ (trace (emit _)) => by repeat constructor end
    | match goal with |- Forall _ (trace (let '(_, _) := ?x in _)) => destruct x end ].

Section Script_facts.

Context {S : Type}.
Variable env : Env S.

Lemma resolve_world_events args :
  Forall (fun e => is_world_event e = true) (trace (resolve_world env args)).
Proof. unfold resolve_world. forall_trace. Qed.

Lemma load_partition_events args path :
  Forall (fun e => is_loading_event e = true) (trace (load_partition env args path)).
Proof. unfold load_partition. forall_trace. Qed.

(** A call of [main] with three arguments fails while the arguments are
    bound, before the body of [main] is entered. *)
Lemma call_main_three_args args a b c :
  call (main env args) [a; b; c] = ([], Raise arity_error).
Proof. reflexivity. Qed.

Lemma train_eq args g num_parts node_map :
  train env args g num_parts node_map
  = ((if bool_decide (a_rank args = 0) then [EvPrint "n_classes: "] else [])
     ++ [EvDrpa (mkDrpa g (a_rank args) num_parts node_map (a_nr args)
                        torch_distributed (a_n_layers args))],
     Raise arity_error).
Proof. unfold train. by destruct (bool_decide (a_rank args = 0)). Qed.

Lemma partition_config_trace args pc t :
  partition_config env args = (t, pc) -> t = [].
Proof.
  intros H. pose proof (partition_config_silent env args) as Hs.
  rewrite H in Hs. exact Hs.
Qed.

(** The two ways the block can end: an exception of one of the first three
    phases, or the failing call of [main] right after the drpa object was
    constructed. *)
Lemma main_block_cases args :
  (exists t e, main_block env args = (t, Raise e)
     /\ Forall (fun e => is_loading_event e = true) t)
  \/ (exists t1 args' pc t3 g num_parts node_map,
        resolve_world env args = (t1, Ok args')
        /\ partition_config env args' = ([], Ok pc)
        /\ load_partition env args' pc = (t3, Ok (g, num_parts, node_map))
        /\ main_block env args
           = (t1 ++ t3 ++ trace (train env args' g num_parts node_map),
              Raise arity_error)).
Proof.
  unfold main_block.
  pose proof (resolve_world_events args) as H1.
  destruct (resolve_world env args) as [t1 [args'|e]]; unfold trace in H1; simpl in H1.
  2:{ left. exists t1, e. split; [done|].
      eapply Forall_impl; [exact H1|]. intros ev Hev. by destruct ev. }
  assert (H1' : Forall (fun e => is_loading_event e = true) t1).
  { eapply Forall_impl; [exact H1|]. intros ev Hev. by destruct ev. }
  rewrite bindM_Ok. cbv beta.
  destruct (partition_config env args') as [t2 [pc|e]] eqn:H2;
    pose proof (partition_config_trace _ _ _ H2) as ->.
  2:{ left. exists t1, e. split; [|done]. cbn. by rewrite app_nil_r. }
  rewrite bindM_Ok. cbv beta. rewrite trace_pair, result_pair.
  pose proof (load_partition_events args' pc) as H3.
  destruct (load_partition env args' pc) as [t3 [[[g num_parts] node_map]|e]] eqn:H3e;
    unfold trace in H3; simpl in H3.
  2:{ left. exists (t1 ++ t3), e. split; [by cbn|]. by apply Forall_app. }
  right. exists t1, args', pc, t3, g, num_parts, node_map.
  split; [done|]. split; [done|]. split; [done|].
  rewrite bindM_Ok. cbv beta iota.
  rewrite !trace_pair, !result_pair. rewrite train_eq. reflexivity.
Qed.

Lemma result_bindM_Ok_inv {A B} (m : M A) (k : A -> M B) b :
  result (bindM m k) = Ok b -> exists a, result m = Ok a /\ result (k a) = Ok b.
Proof. rewrite result_bindM. destruct (result m); [eauto|done]. Qed.

(** Resolving the world size and the rank leaves the dataset alone. *)
Lemma resolve_world_dataset args args' :
  result (resolve_world env args) = Ok args' -> a_dataset args' = a_dataset args.
Proof.
  unfold resolve_world. intros H.
  apply result_bindM_Ok_inv in H as (u & _ & H).
  apply result_bindM_Ok_inv in H as (a1 & H1 & H).
  apply result_bindM_Ok_inv in H as (d & Hd & H).
  apply result_bindM_Ok_inv in H as (a2 & H2 & H).
  cbn in H. injection H as <-.
  cbn in Hd. injection Hd as <-.
  assert (E1 : a_dataset a1 = a_dataset args).
  { destruct (_ && _); [|cbn in H1; by injection H1 as <-].
    apply result_bindM_Ok_inv in H1 as (ws & _ & H1).
    destruct (bool_decide (a_world_size _ = -1)); [|cbn in H1; by injection H1 as <-].
    apply result_bindM_Ok_inv in H1 as (ws' & _ & H1). cbn in H1; by injection H1 as <-. }
  rewrite <- E1.
  destruct (bool_decide (a_world_size a1 > 1)); [|cbn in H2; by injection H2 as <-].
  apply result_bindM_Ok_inv in H2 as (r & _ & H2).
  apply result_bindM_Ok_inv in H2 as (a3 & H3 & H2).
  cbn in H2. injection H2 as <-.
  destruct (bool_decide (a_rank _ = -1)); [|cbn in H3; by injection H3 as <-].
  apply result_bindM_Ok_inv in H3 as (r' & _ & H3). cbn in H3; by injection H3 as <-.
Qed.

Lemma DGLError_unbound ccl : "DGLError" ∉ (module_names ccl ++ builtins).
Proof.
  intros Hin. apply list_elem_of_In in Hin.
  destruct ccl; vm_compute in Hin; intuition discriminate.
Qed.

Lemma partition_config_other_dataset args :
  a_dataset args <> Some "ogbn-papers100M" ->
  partition_config env args = ([], Raise (NameError "DGLError")).
Proof.
  intros Hd. unfold partition_config.
  rewrite bool_decide_eq_false_2 by done.
  unfold raise_DGLError, lookup_name.
  rewrite bool_decide_eq_false_2 by apply DGLError_unbound. reflexivity.
Qed.

Lemma omap_events_none {A} (f : event -> option A) (P : event -> Prop) tr :
  Forall P tr -> (forall e, P e -> f e = None) -> omap f tr = [].
Proof.
  intros Htr Hf. induction Htr as [|e tr He _ IH]; [done|].
  change (omap f (e :: tr))
    with (match f e with Some y => y :: omap f tr | None => omap f tr end).
  by rewrite (Hf e He).
Qed.

Lemma main_block_loading args t1 args' pc :
  resolve_world env args = (t1, Ok args') ->
  partition_config env args' = ([], Ok pc) ->
  trace (main_block env args)
  = t1 ++ trace (load_partition env args' pc)
       ++ match result (load_partition env args' pc) with
          | Ok (g, num_parts, node_map) => trace (train env args' g num_parts node_map)
          | Raise _ => []
          end
  /\ result (main_block env args)
     = match result (load_partition env args' pc) with
       | Ok _ => Raise arity_error
       | Raise e => Raise e
       end.
Proof.
  intros H1 H2. unfold main_block.
  rewrite H1, bindM_Ok. cbv beta. rewrite H2, bindM_Ok. cbv beta.
  rewrite !trace_pair, !result_pair, trace_bindM, result_bindM.
  destruct (result (load_partition env args' pc)) as [[[g np] nm]|e]; [|done].
  by rewrite train_eq.
Qed.

End Script_facts.

(** ** Paths *)

Section Path_facts.

Lemma append_assoc (a b c : string) : (a +:+ b) +:+ c = a +:+ (b +:+ c).
Proof.
  induction a as [|x a IH]; [done|].
  change (String x ((a +:+ b) +:+ c) = String x (a +:+ (b +:+ c))).
  by rewrite IH.
Qed.

Lemma last_char_append (a b : string) :
  b <> "" -> last_char (a +:+ b) = last_char b.
Proof.
  intros Hb. induction a as [|x a IH]; [done|].
  change (String x a +:+ b) with (String x (a +:+ b)).
  destruct (a +:+ b) as [|c s] eqn:E.
  - destruct a; [destruct (Hb E)|cbn in E; discriminate E].
  - rewrite <- IH. reflexivity.
Qed.

Lemma pretty_N_go_head (x : N) :
  forall s c r, s = String c r -> c <> "/"%char ->
    exists c' r', pretty_N_go x s = String c' r' /\ c' <> "/"%char.
Proof.
  induction (N.lt_wf_0 x) as [x _ IH]. intros s c r Hs Hc.
  destruct (decide (0 < x)%N) as [Hx|Hx].
  - rewrite pretty_N_go_step by done.
    eapply (IH (x `div` 10)%N); [|reflexivity|].
    + apply N.div_lt; lia.
    + unfold pretty_N_char. by repeat case_match.
  - assert (x = 0%N) as -> by lia. rewrite pretty_N_go_0. by exists c, r.
Qed.

Lemma pretty_N_head (x : N) :
  exists c r, pretty x = String c r /\ c <> "/"%char.
Proof.
  unfold pretty, pretty_N. destruct (decide (x = 0%N)) as [->|Hx].
  - by exists "0"%char, "".
  - rewrite pretty_N_go_step by lia.
    eapply pretty_N_go_head; [reflexivity|].
    unfold pretty_N_char. by repeat case_match.
Qed.

Lemma pretty_Z_head (z : Z) :
  exists c r, pretty z = String c r /\ c <> "/"%char.
Proof.
  unfold pretty, pretty_Z. destruct z as [|p|p].
  - by exists "0"%char, "".
  - apply pretty_N_head.
  - by exists "-"%char, (pretty (N.pos p)).
Qed.

Lemma path_join_step_relative path b c r :
  b = String c r -> c <> "/"%char -> path <> "" -> ends_with_sep path = false ->
  path_join_step path b = path +:+ "/" +:+ b.
Proof.
  intros Hb Hc Hp He. unfold path_join_step.
  assert (starts_with_sep b = false) as ->.
  { subst b. simpl. by destruct c as [[] [] [] [] [] [] [] []]. }
  by rewrite bool_decide_eq_false_2, He.
Qed.

Lemma os_path_join_config (nc : Z) :
  os_path_join "" ["Libra_result_ogbn-papers100M"; pretty nc +:+ "Communities";
                   "ogbn-papers100M.json"]
  = config_path nc.
Proof.
  destruct (pretty_Z_head nc) as (c & r & Hp & Hc).
  unfold os_path_join, config_path. cbn [foldl].
  change (path_join_step "" "Libra_result_ogbn-papers100M")
    with "Libra_result_ogbn-papers100M".
  rewrite (path_join_step_relative _ (pretty nc +:+ "Communities") c
             (r +:+ "Communities")); [|by rewrite Hp|done|done|done].
  rewrite (path_join_step_relative _ "ogbn-papers100M.json" "o" "gbn-papers100M.json");
    [|done|done|done|].
  - rewrite !append_assoc. reflexivity.
  - unfold ends_with_sep.
    rewrite !last_char_append; [done|done|by rewrite Hp|by rewrite Hp].
Qed.

End Path_facts.

(** ** Loading the partition *)

Section Load_facts.

Context {S : Type}.
Variable env : Env S.

Lemma partition_config_papers args :
  a_dataset args = Some "ogbn-papers100M" ->
  partition_config env args = ([], Ok (config_path (a_world_size args))).
Proof.
  intros Hd. unfold partition_config.
  rewrite bool_decide_eq_true_2 by done.
  by rewrite os_path_join_config.
Qed.

Lemma location_print_eq args :
  (if bool_decide (a_rank args = 0)
   then emit (EvPrint "Dataset/partition location: ") else ret tt)
  = (location_print args, Ok tt).
Proof. unfold location_print. by destruct (bool_decide _). Qed.

Lemma dict_get_eq {V} (d : gmap string V) key v :
  d !! key = Some v -> dict_get d key = ([], Ok v).
Proof. intros H. unfold dict_get. by rewrite H. Qed.

Lemma lift_eq {A} (o : outcome A) a : o = Ok a -> lift o = ([], Ok a).
Proof. by intros ->. Qed.


Ltac bind_step tac := eapply bindM_intro; [solve [tac]|cbv beta iota].

Ltac load_step :=
  first [ bind_step ltac:(apply location_print_eq)
        | bind_step ltac:(apply lift_eq; eassumption)
        | bind_step ltac:(cbn [py_getitem]; apply dict_get_eq; eassumption)
        | bind_step ltac:(apply dict_get_eq; eassumption)
        | bind_step ltac:(apply dict_get_eq; unfold set_ndata; cbn [ndata];
                          rewrite !lookup_insert_ne by done;
                          apply lookup_insert_eq)
        | bind_step ltac:(reflexivity) ].

(** With the metadata, the three entries and the five tensors in place the
    partition is loaded and the node data is set. *)
Lemma load_partition_Ok args pc meta files nf_file ef_file pg_file nf gr
    num_parts node_map feat label train_mask test_mask val_mask :
  read_json env pc = Ok (PDict meta) ->
  meta !! ("part-" +:+ pretty (a_rank args)) = Some (PDict files) ->
  files !! "node_feats" = Some nf_file ->
  files !! "edge_feats" = Some ef_file ->
  files !! "part_graph" = Some pg_file ->
  load_tensors env nf_file = Ok nf ->
  load_graphs env pg_file = Ok gr ->
  meta !! "num_parts" = Some num_parts ->
  meta !! "node_map" = Some node_map ->
  nf !! "feat" = Some feat ->
  nf !! "label" = Some label ->
  nf !! "train_mask" = Some train_mask ->
  nf !! "test_mask" = Some test_mask ->
  nf !! "val_mask" = Some val_mask ->
  load_partition env args pc
  = (location_print args ++ [EvOpen pc; EvLoadTensors nf_file; EvLoadGraphs pg_file],
     Ok (with_node_data gr feat label train_mask test_mask val_mask,
         num_parts, node_map)).
Proof.
  intros Hjson Hpart Hnf Hef Hpg Hlt Hlg Hnp Hnm Hfeat Hlabel Htrain Htest Hval.
  unfold load_partition. etransitivity.
  - do 5 load_step. rewrite Hnf. cbn [bool_decide decide_rel].
    do 2 load_step. rewrite Hef. do 2 load_step. rewrite Hpg.
    repeat load_step. reflexivity.
  - cbn [app]. rewrite ?app_nil_r. reflexivity.
Qed.

(** A missing entry stops the script at the first assertion that asks for
    it, right after the configuration was read. *)
Lemma load_partition_assert_fails args pc meta files :
  read_json env pc = Ok (PDict meta) ->
  meta !! ("part-" +:+ pretty (a_rank args)) = Some (PDict files) ->
  files !! "node_feats" = None \/ files !! "edge_feats" = None
    \/ files !! "part_graph" = None ->
  exists msg,
    load_partition env args pc
    = (location_print args ++ [EvOpen pc], Raise (AssertionError msg)).
Proof.
  intros Hjson Hpart Hmiss. unfold load_partition.
  destruct (files !! "node_feats") as [nf_file|] eqn:Hnf.
  - destruct (files !! "edge_feats") as [ef_file|] eqn:Hef.
    + destruct (files !! "part_graph") as [pg_file|] eqn:Hpg.
      { by destruct Hmiss as [?|[?|?]]. }
      eexists. etransitivity.
      * do 5 load_step. rewrite Hnf. do 2 load_step. rewrite Hef.
        do 2 load_step. rewrite Hpg. reflexivity.
      * cbn [app]. rewrite ?app_nil_r. reflexivity.
    + eexists. etransitivity.
      * do 5 load_step. rewrite Hnf. do 2 load_step. rewrite Hef. reflexivity.
      * cbn [app]. rewrite ?app_nil_r. reflexivity.
  - eexists. etransitivity.
    + do 5 load_step. rewrite Hnf. reflexivity.
    + cbn [app]. rewrite ?app_nil_r. reflexivity.
Qed.

(** With the three entries present the assertions pass and the node
    features are the first file handed to [load_tensors]. *)
Lemma load_partition_asserts_pass args pc meta files nf_file :
  read_json env pc = Ok (PDict meta) ->
  meta !! ("part-" +:+ pretty (a_rank args)) = Some (PDict files) ->
  files !! "node_feats" = Some nf_file ->
  is_Some (files !! "edge_feats") ->
  is_Some (files !! "part_graph") ->
  exists rest r,
    load_partition env args pc
    = (location_print args ++ [EvOpen pc; EvLoadTensors nf_file] ++ rest, r)
    /\ Forall (fun e => exists p, e = EvLoadGraphs p) rest.
Proof.
  intros Hjson Hpart Hnf [ef_file Hef] [pg_file Hpg]. unfold load_partition.
  set (rest := let* node_feats := lift (load_tensors env nf_file) in
               let* part_graph_file := py_getitem (PDict files) "part_graph" in
               do* emit (EvLoadGraphs part_graph_file) in
               let* graph := lift (load_graphs env part_graph_file) in
               let* num_parts := py_getitem (PDict meta) "num_parts" in
               let* node_map := py_getitem (PDict meta) "node_map" in
               let* feat := dict_get node_feats "feat" in
               let graph := set_ndata graph "feat" feat in
               let* label := dict_get node_feats "label" in
               let graph := set_ndata graph "label" label in
               let* train_mask := dict_get node_feats "train_mask" in
               let graph := set_ndata graph "train_mask" train_mask in
               let* test_mask := dict_get node_feats "test_mask" in
               let graph := set_ndata graph "test_mask" test_mask in
               let* val_mask := dict_get node_feats "val_mask" in
               let graph := set_ndata graph "val_mask" val_mask in
               let* label := dict_get (ndata graph) "label" in
               let graph := set_ndata graph "label" (tensor_long label) in
               ret (graph, num_parts, node_map)).
  exists (trace rest), (result rest). split.
  - etransitivity.
    + do 5 load_step. rewrite Hnf. do 2 load_step. rewrite Hef.
      do 2 load_step. rewrite Hpg. do 3 load_step.
      fold rest. apply app_pair_eta.
    + cbn [app]. rewrite ?app_nil_r. reflexivity.
  - subst rest. forall_trace.
    all: try (cbn [py_getitem]; apply Forall_silent, dict_get_silent).
    all: try (apply Forall_silent; reflexivity).
    all: try (repeat constructor; by eexists).
Qed.

Lemma resolve_world_omap {A} (f : event -> option A) args t1 args' :
  resolve_world env args = (t1, Ok args') ->
  (forall e, is_world_event e = true -> f e = None) ->
  omap f t1 = [].
Proof.
  intros H1 Hf. pose proof (resolve_world_events env args) as Hev.
  rewrite H1 in Hev. by eapply omap_events_none.
Qed.

End Load_facts.

(** ** What the [__main__] block does *)

Section Main_block_facts.

Context {S : Type}.
Variable env : Env S.

Lemma train_trace_omap {A} (f : event -> option A) args g num_parts node_map :
  (forall s, f (EvPrint s) = None) ->
  omap f (trace (train env args g num_parts node_map))
  = omap f [EvDrpa (mkDrpa g (a_rank args) num_parts node_map (a_nr args)
                           torch_distributed (a_n_layers args))].
Proof.
  intros Hp. rewrite train_eq, trace_pair.
  destruct (bool_decide (a_rank args = 0)); [|done].
  cbn [app]. change (omap f (?e :: ?l))
    with (match f e with Some y => y :: omap f l | None => omap f l end).
  by rewrite Hp.
Qed.

Lemma location_print_omap {A} (f : event -> option A) args :
  (forall s, f (EvPrint s) = None) -> omap f (location_print args) = [].
Proof.
  intros Hp. unfold location_print. destruct (bool_decide _); [|done].
  change (omap f [?e]) with (match f e with Some y => [y] | None => [] end).
  by rewrite Hp.
Qed.

(** Whatever happens after the configuration is opened, it is the only file
    that is opened. *)
Lemma load_partition_opened args pc :
  opened_files (trace (load_partition env args pc)) = [pc].
Proof.
  unfold load_partition. rewrite location_print_eq, bindM_Ok. cbv beta.
  rewrite trace_pair. unfold emit at 1. rewrite bindM_Ok. cbv beta.
  rewrite !trace_pair. unfold opened_files. rewrite !omap_app.
  rewrite location_print_omap by done. cbn [app omap list_omap].
  f_equal. apply (omap_events_none _ (fun e => is_loading_event e = true
                                               /\ forall p, e <> EvOpen p)).
  - forall_trace. all: repeat constructor; done.
  - intros e [_ He]. destruct e; try done. by destruct (He path).
Qed.

End Main_block_facts.

(** C2. [main] is defined with the two parameters [graph] and [data]; a call
    with three positional arguments raises [TypeError] while the arguments
    are bound, and lines 282-301, which call it with the drpa object, the
    data tuple and the dataset name, always end in that [TypeError].  So
    every execution of the block that gets as far as constructing the drpa
    object ends in the [TypeError], and no execution enters [main] or [run]
    or performs any of the training calls. *)
Theorem main_call_raises_TypeError {S : Type} (env : Env S) (args : Args)
    (gobj : drpa_obj) :
  EvDrpa gobj ∈ trace (main_block env args) ->
  fn_params (main env args) = ["graph"; "data"]
  /\ (forall args' a b c,
        call (main env args') [a; b; c]
        = ([], Raise (TypeError "main() takes 2 positional arguments but 3 were given")))
  /\ (forall args' g num_parts node_map,
        result (train env args' g num_parts node_map)
        = Raise (TypeError "main() takes 2 positional arguments but 3 were given"))
  /\ result (main_block env args)
     = Raise (TypeError "main() takes 2 positional arguments but 3 were given")
  /\ Forall (fun e => is_run_event e = false) (trace (main_block env args)).
Proof.
  intros Hin. split; [reflexivity|]. split; [intros; apply call_main_three_args|].
  split; [intros; by rewrite train_eq|].
  destruct (main_block_cases env args)
    as [(t & e & Heq & Hev)|(t1 & args' & pc & t3 & g & np & nm & H1 & H2 & H3 & Heq)].
  - rewrite Heq, trace_pair in Hin.
    rewrite Forall_forall in Hev. by specialize (Hev _ Hin).
  - rewrite Heq, trace_pair, result_pair. split; [reflexivity|].
    pose proof (resolve_world_events env args) as Hw. rewrite H1, trace_pair in Hw.
    pose proof (load_partition_events env args' pc) as Hl. rewrite H3, trace_pair in Hl.
    rewrite !Forall_app. split; [|split].
    + eapply Forall_impl; [exact Hw|]. intros e He. by destruct e.
    + eapply Forall_impl; [exact Hl|]. intros e He. by destruct e.
    + rewrite train_eq, trace_pair.
      destruct (bool_decide (a_rank args' = 0)); repeat constructor.
Qed.

Lemma main_call_raises_TypeError_witness :
  exists gobj,
    EvDrpa gobj ∈ trace (main_block (sample_env 1) sample_args)
    /\ result (main_block (sample_env 1) sample_args)
       = Raise (TypeError "main() takes 2 positional arguments but 3 were given").
Proof.
  eexists (mkDrpa (with_node_data sample_graph _ _ _ _ _) 1 (PInt 2)
                  (PStr "node_map.npy") 1 torch_distributed 3).
  assert (Hin : EvDrpa (mkDrpa (with_node_data sample_graph
                          {| t_dtype := Float32; t_shape := [2; 1]; t_values := [1; 2]%Q |}
                          (tensor1 Float32 [0; 1]%Q) (tensor1 BoolT [1; 0]%Q)
                          (tensor1 BoolT [0; 1]%Q) (tensor1 BoolT [0; 0]%Q))
                        1 (PInt 2) (PStr "node_map.npy") 1 torch_distributed 3)
                ∈ trace (main_block (sample_env 1) sample_args)).
  { apply list_elem_of_In. vm_compute. do 6 right. left. reflexivity. }
  split; [exact Hin|].
  exact (proj1 (proj2 (proj2 (proj2 (main_call_raises_TypeError _ _ _ Hin))))).
Defined.

(** C5 (the code at a well-formed invocation).  For every installation and
    command line the block performs no event of [main] or [run] and never
    calls [drpa_finalize]: the drpa object, once constructed, is handed to a
    call of [main] that fails while binding its arguments.  In the sample job
    the object is constructed, so the object exists and still never reaches
    [run]. *)
Theorem drpa_object_never_reaches_run :
  (forall (S : Type) (env : Env S) (args : Args),
     Forall (fun e => is_run_event e = false /\ is_drpa_finalize e = false)
            (trace (main_block env args)))
  /\ (exists gobj,
        constructed_drpa (trace (main_block (sample_env 1) sample_args)) = [gobj]
        /\ result (main_block (sample_env 1) sample_args) = Raise arity_error).
Proof.
  split.
  - intros S env args.
    destruct (main_block_cases env args)
      as [(t & e & Heq & Hev)|(t1 & args' & pc & t3 & g & np & nm & H1 & H2 & H3 & Heq)].
    + rewrite Heq, trace_pair. eapply Forall_impl; [exact Hev|].
      intros ev Hev'. by destruct ev.
    + rewrite Heq, trace_pair.
      pose proof (resolve_world_events env args) as Hw. rewrite H1, trace_pair in Hw.
      pose proof (load_partition_events env args' pc) as Hl. rewrite H3, trace_pair in Hl.
      rewrite !Forall_app. split; [|split].
      * eapply Forall_impl; [exact Hw|]. intros e He. by destruct e.
      * eapply Forall_impl; [exact Hl|]. intros e He. by destruct e.
      * rewrite train_eq, trace_pair.
        destruct (bool_decide (a_rank args' = 0)); repeat constructor.
  - eexists. split; [vm_compute; reflexivity|]. vm_compute. reflexivity.
Qed.

(** C9. In the branch of the dataset dispatch taken for any other dataset,
    the name [DGLError] is bound neither in the module (the only name bound
    by [from dgl import ...] is [DGLGraph]) nor in the builtins, so the
    [raise] statement ends in [NameError] for that name and no [DGLError] is
    raised; this is how the whole block then ends. *)
Theorem DGLError_is_not_bound {S : Type} (env : Env S) (args : Args) :
  a_dataset args <> Some "ogbn-papers100M" ->
  names_from "dgl" = ["DGLGraph"]
  /\ ("DGLError" ∉ (module_names (torch_ccl_imported env) ++ builtins))
  /\ partition_config env args = ([], Raise (NameError "DGLError"))
  /\ (forall msg, result (partition_config env args) <> Raise (DGLError msg))
  /\ (forall t args0, resolve_world env args0 = (t, Ok args) ->
        main_block env args0 = (t, Raise (NameError "DGLError"))).
Proof.
  intros Hd. split; [reflexivity|]. split; [apply DGLError_unbound|].
  pose proof (partition_config_other_dataset env args Hd) as Hpc.
  split; [exact Hpc|]. split.
  - intros msg. rewrite Hpc. discriminate.
  - intros t args0 H1. unfold main_block.
    rewrite H1, bindM_Ok. cbv beta. rewrite Hpc. cbn. by rewrite app_nil_r.
Qed.

Lemma DGLError_is_not_bound_witness :
  partition_config (sample_env 1) (set_dataset sample_args (Some "reddit"))
  = ([], Raise (NameError "DGLError")).
Proof.
  apply (DGLError_is_not_bound (sample_env 1) (set_dataset sample_args (Some "reddit"))).
  simpl. discriminate.
Defined.

(** C6. With [--dataset ogbn-papers100M] the configuration path is
    [Libra_result_ogbn-papers100M/<world_size>Communities/ogbn-papers100M.json]
    for the resolved world size, and it is the one file the block opens;
    with any other dataset value, or none, the block ends in an exception
    without opening the configuration and without loading tensors or a
    graph. *)
Theorem dataset_dispatch {S : Type} (env : Env S) (args : Args) :
  (a_dataset args = Some "ogbn-papers100M" ->
   forall t args', resolve_world env args = (t, Ok args') ->
     partition_config env args' = ([], Ok (config_path (a_world_size args')))
     /\ opened_files (trace (main_block env args)) = [config_path (a_world_size args')])
  /\ (a_dataset args <> Some "ogbn-papers100M" ->
      (exists e, result (main_block env args) = Raise e)
      /\ opened_files (trace (main_block env args)) = []
      /\ loaded_tensor_files (trace (main_block env args)) = []
      /\ loaded_graph_files (trace (main_block env args)) = []).
Proof.
  split.
  - intros Hd t args' H1.
    assert (Hd' : a_dataset args' = Some "ogbn-papers100M").
    { rewrite <- Hd. apply (resolve_world_dataset env). by rewrite H1. }
    pose proof (partition_config_papers env args' Hd') as H2.
    split; [exact H2|].
    destruct (main_block_loading env args t args' _ H1 H2) as [-> _].
    unfold opened_files. rewrite !omap_app.
    rewrite (resolve_world_omap env _ args t args' H1) by (by intros []).
    fold (opened_files (trace (load_partition env args' (config_path (a_world_size args'))))).
    rewrite load_partition_opened.
    destruct (result _) as [[[g np] nm]|e]; [|done].
    rewrite train_trace_omap by done. reflexivity.
  - intros Hd. unfold main_block.
    pose proof (resolve_world_events env args) as Hw.
    destruct (resolve_world env args) as [t [args'|e]] eqn:H1; rewrite trace_pair in Hw.
    + assert (Hd' : a_dataset args' <> Some "ogbn-papers100M").
      { rewrite (resolve_world_dataset env args args'); [done|]. by rewrite H1. }
      rewrite bindM_Ok. cbv beta.
      rewrite (partition_config_other_dataset env args' Hd').
      cbn [bindM trace result fst snd]. rewrite app_nil_r.
      split; [by eexists|].
      repeat split; eapply omap_events_none; try exact Hw; by intros [].
    + cbn [bindM trace result fst snd]. split; [by eexists|].
      repeat split; eapply omap_events_none; try exact Hw; by intros [].
Qed.

Lemma dataset_dispatch_witness :
  opened_files (trace (main_block (sample_env 1) sample_args))
  = ["Libra_result_ogbn-papers100M/2Communities/ogbn-papers100M.json"]
  /\ opened_files (trace (main_block (sample_env 1)
                            (set_dataset sample_args (Some "reddit")))) = [].
Proof.
  split.
  - refine (proj2 (proj1 (dataset_dispatch (sample_env 1) sample_args) eq_refl
                     [EvPrint "Namespace"; EvInitProcessGroup "ccl" "env://" 2 1;
               EvPrint "Rank:  World_size: "]
                     sample_resolved _)).
    vm_compute. reflexivity.
  - refine (proj1 (proj2 (proj2 (dataset_dispatch (sample_env 1)
                     (set_dataset sample_args (Some "reddit"))) _))).
    simpl. discriminate.
Defined.

(** C7. The entry [part-{rank}] of the metadata being a JSON object: when it
    lacks one of the keys [node_feats], [edge_feats], [part_graph] the block
    ends in an [AssertionError] and no tensor file and no graph file has been
    handed to a loader; when all three keys are there the three assertions
    pass, that is, execution goes on to load the node features. *)
Theorem partition_entry_assertions {S : Type} (env : Env S) (args : Args)
    t args' (meta files : gmap string pyval) :
  resolve_world env args = (t, Ok args') ->
  a_dataset args = Some "ogbn-papers100M" ->
  read_json env (config_path (a_world_size args')) = Ok (PDict meta) ->
  meta !! ("part-" +:+ pretty (a_rank args')) = Some (PDict files) ->
  (files !! "node_feats" = None \/ files !! "edge_feats" = None
     \/ files !! "part_graph" = None ->
   (exists msg, result (main_block env args) = Raise (AssertionError msg))
   /\ loaded_tensor_files (trace (main_block env args)) = []
   /\ loaded_graph_files (trace (main_block env args)) = [])
  /\ (forall nf_file, files !! "node_feats" = Some nf_file ->
        is_Some (files !! "edge_feats") -> is_Some (files !! "part_graph") ->
        (forall msg,
           py_assert (bool_decide (is_Some (files !! "node_feats"))) msg = ret tt
           /\ py_assert (bool_decide (is_Some (files !! "edge_feats"))) msg = ret tt
           /\ py_assert (bool_decide (is_Some (files !! "part_graph"))) msg = ret tt)
        /\ loaded_tensor_files (trace (main_block env args)) = [nf_file]).
Proof.
  intros H1 Hd Hjson Hpart.
  assert (Hd' : a_dataset args' = Some "ogbn-papers100M").
  { rewrite <- Hd. apply (resolve_world_dataset env). by rewrite H1. }
  pose proof (partition_config_papers env args' Hd') as H2.
  destruct (main_block_loading env args t args' _ H1 H2) as [Htr Hres].
  split.
  - intros Hmiss.
    destruct (load_partition_assert_fails env args' _ meta files Hjson Hpart Hmiss)
      as (msg & Heq).
    rewrite Heq, trace_pair, result_pair in Htr. rewrite Heq, result_pair in Hres.
    split; [by exists msg|]. rewrite Htr.
    unfold loaded_tensor_files, loaded_graph_files. rewrite !omap_app.
    rewrite !(resolve_world_omap env _ args t args' H1) by (by intros []).
    rewrite !location_print_omap by done. done.
  - intros nf_file Hnf Hef Hpg. split.
    { intros msg. rewrite Hnf.
      destruct Hef as [ef ->], Hpg as [pg ->]. done. }
    destruct (load_partition_asserts_pass env args' _ meta files nf_file
                Hjson Hpart Hnf Hef Hpg) as (rest & r & Heq & Hrest).
    rewrite Heq, trace_pair, result_pair in Htr. rewrite Htr.
    unfold loaded_tensor_files. rewrite !omap_app.
    rewrite (resolve_world_omap env _ args t args' H1) by (by intros []).
    rewrite location_print_omap by done.
    rewrite (omap_events_none _ _ rest Hrest) by (by intros e [p ->]).
    destruct r as [[[g np] nm]|e]; [|done].
    rewrite train_trace_omap by done. done.
Qed.

Lemma partition_entry_assertions_witness :
  (exists msg, result (main_block sample_env_without_edge_feats sample_args)
               = Raise (AssertionError msg))
  /\ loaded_tensor_files (trace (main_block (sample_env 1) sample_args))
     = [PStr "part1/node_feat.dgl"].
Proof.
  split.
  - refine (proj1 (proj1 (partition_entry_assertions sample_env_without_edge_feats
                     sample_args
                     [EvPrint "Namespace"; EvInitProcessGroup "ccl" "env://" 2 1;
               EvPrint "Rank:  World_size: "]
                     sample_resolved
                     {[ "num_parts" := PInt 2; "node_map" := PStr "node_map.npy";
                        "part-1" := PDict {[ "node_feats" := PStr "part1/node_feat.dgl";
                                             "part_graph" := PStr "part1/graph.dgl" ]} ]}
                     {[ "node_feats" := PStr "part1/node_feat.dgl";
                        "part_graph" := PStr "part1/graph.dgl" ]}
                     _ eq_refl _ _) _)).
    + vm_compute. reflexivity.
    + vm_compute. reflexivity.
    + vm_compute. reflexivity.
    + right. left. vm_compute. reflexivity.
  - refine (proj2 (proj2 (partition_entry_assertions (sample_env 1) sample_args
                     [EvPrint "Namespace"; EvInitProcessGroup "ccl" "env://" 2 1;
               EvPrint "Rank:  World_size: "]
                     sample_resolved
                     {[ "num_parts" := PInt 2; "node_map" := PStr "node_map.npy";
                        "part-0" := sample_part "part0"; "part-1" := sample_part "part1" ]}
                     {[ "node_feats" := PStr "part1/node_feat.dgl";
                        "edge_feats" := PStr "part1/edge_feat.dgl";
                        "part_graph" := PStr "part1/graph.dgl" ]}
                     _ eq_refl _ _) (PStr "part1/node_feat.dgl") _ _ _)).
    + vm_compute. reflexivity.
    + vm_compute. reflexivity.
    + vm_compute. reflexivity.
    + vm_compute. reflexivity.
    + vm_compute. eexists. reflexivity.
    + vm_compute. eexists. reflexivity.
Defined.

(** C4. A rank loads the tensors of its own partition only: the one file
    handed to [load_tensors] is the [node_feats] file of the metadata entry
    [part-{rank}], and the drpa object is built on a graph whose node data
    holds the loaded [feat], [train_mask], [test_mask] and [val_mask] under
    these keys and the loaded [label] converted to the long integer type. *)
Theorem rank_loads_own_partition {S : Type} (env : Env S) (args : Args)
    t args' (meta files : gmap string pyval) (nf_file ef_file pg_file : pyval)
    (nf : gmap string tensor) (gr : graph) (num_parts node_map : pyval)
    (feat label train_mask test_mask val_mask : tensor) :
  resolve_world env args = (t, Ok args') ->
  a_dataset args = Some "ogbn-papers100M" ->
  read_json env (config_path (a_world_size args')) = Ok (PDict meta) ->
  meta !! ("part-" +:+ pretty (a_rank args')) = Some (PDict files) ->
  files !! "node_feats" = Some nf_file ->
  files !! "edge_feats" = Some ef_file ->
  files !! "part_graph" = Some pg_file ->
  load_tensors env nf_file = Ok nf ->
  load_graphs env pg_file = Ok gr ->
  meta !! "num_parts" = Some num_parts ->
  meta !! "node_map" = Some node_map ->
  nf !! "feat" = Some feat ->
  nf !! "label" = Some label ->
  nf !! "train_mask" = Some train_mask ->
  nf !! "test_mask" = Some test_mask ->
  nf !! "val_mask" = Some val_mask ->
  exists gobj,
    constructed_drpa (trace (main_block env args)) = [gobj]
    /\ loaded_tensor_files (trace (main_block env args)) = [nf_file]
    /\ d_rank gobj = a_rank args'
    /\ ndata (d_graph gobj) !! "feat" = Some feat
    /\ ndata (d_graph gobj) !! "label" = Some (tensor_long label)
    /\ t_dtype (tensor_long label) = Int64
    /\ ndata (d_graph gobj) !! "train_mask" = Some train_mask
    /\ ndata (d_graph gobj) !! "test_mask" = Some test_mask
    /\ ndata (d_graph gobj) !! "val_mask" = Some val_mask.
Proof.
  intros H1 Hd Hjson Hpart Hnf Hef Hpg Hlt Hlg Hnp Hnm Hfeat Hlabel Htrain Htest Hval.
  assert (Hd' : a_dataset args' = Some "ogbn-papers100M").
  { rewrite <- Hd. apply (resolve_world_dataset env). by rewrite H1. }
  pose proof (partition_config_papers env args' Hd') as H2.
  destruct (main_block_loading env args t args' _ H1 H2) as [Htr _].
  rewrite (load_partition_Ok env args' _ meta files nf_file ef_file pg_file nf gr
             num_parts node_map feat label train_mask test_mask val_mask)
    in Htr by assumption.
  rewrite trace_pair, result_pair in Htr.
  exists (mkDrpa (with_node_data gr feat label train_mask test_mask val_mask)
                 (a_rank args') num_parts node_map (a_nr args')
                 torch_distributed (a_n_layers args')).
  split; [|split].
  - rewrite Htr. unfold constructed_drpa. rewrite !omap_app.
    rewrite (resolve_world_omap env _ args t args' H1) by (by intros []).
    rewrite location_print_omap by done.
    rewrite train_trace_omap by done. reflexivity.
  - rewrite Htr. unfold loaded_tensor_files. rewrite !omap_app.
    rewrite (resolve_world_omap env _ args t args' H1) by (by intros []).
    rewrite location_print_omap by done.
    rewrite train_trace_omap by done. reflexivity.
  - cbn [d_rank d_graph]. unfold with_node_data, set_ndata. cbn [ndata].
    split; [reflexivity|].
    repeat split; try reflexivity;
      rewrite ?lookup_insert_eq; rewrite ?lookup_insert_ne by done;
      rewrite ?lookup_insert_eq; rewrite ?lookup_insert_ne by done;
      by rewrite ?lookup_insert_eq.
Qed.

Lemma rank_loads_own_partition_witness :
  exists gobj,
    constructed_drpa (trace (main_block (sample_env 1) sample_args)) = [gobj]
    /\ loaded_tensor_files (trace (main_block (sample_env 1) sample_args))
       = [PStr "part1/node_feat.dgl"]
    /\ ndata (d_graph gobj) !! "label" = Some (tensor_long (tensor1 Float32 [0; 1]%Q)).
Proof.
  destruct (rank_loads_own_partition (sample_env 1) sample_args
              [EvPrint "Namespace"; EvInitProcessGroup "ccl" "env://" 2 1;
               EvPrint "Rank:  World_size: "]
              sample_resolved
              {[ "num_parts" := PInt 2; "node_map" := PStr "node_map.npy";
                 "part-0" := sample_part "part0"; "part-1" := sample_part "part1" ]}
              {[ "node_feats" := PStr "part1/node_feat.dgl";
                 "edge_feats" := PStr "part1/edge_feat.dgl";
                 "part_graph" := PStr "part1/graph.dgl" ]}
              (PStr "part1/node_feat.dgl") (PStr "part1/edge_feat.dgl")
              (PStr "part1/graph.dgl") (sample_node_feats 1) sample_graph
              (PInt 2) (PStr "node_map.npy")
              {| t_dtype := Float32; t_shape := [2; 1]; t_values := [1; 2]%Q |}
              (tensor1 Float32 [0; 1]%Q) (tensor1 BoolT [1; 0]%Q)
              (tensor1 BoolT [0; 1]%Q) (tensor1 BoolT [0; 0]%Q))
    as (gobj & Hc & Hl & _ & _ & Hlabel & _).
  all: try (vm_compute; reflexivity).
  exists gobj. split; [exact Hc|]. split; [exact Hl|exact Hlabel].
Defined.

(** * Further properties of the script *)

(** ** GraphSAGE for any number of layers *)

(** X1. For every [n_layers], also zero or negative, the model holds
    [2 + max(0, n_layers - 1)] layers; for [n_layers <= 1] it is the
    two-layer network of the input and the output layer, with one
    activation and one dropout between them. *)
Theorem GraphSAGE_layer_count_any
    (in_feats n_hidden n_classes n_layers : Z) act p agg (x : hexpr) :
  let m := GraphSAGE_init in_feats n_hidden n_classes n_layers act p agg in
  let first := mkSAGEConv in_feats n_hidden agg in
  let last := mkSAGEConv n_hidden n_classes agg in
  len (layers m) = 2 + Z.max 0 (n_layers - 1)
  /\ (n_layers <= 1 ->
      layers m = [first; last]
      /\ forward m x = HLayer last (HDropout p (HActivation act (HLayer first x)))).
Proof.
  intros m first last.
  assert (Hl : layers m = [first]
                 ++ replicate (Z.to_nat (n_layers - 1)) (mkSAGEConv n_hidden n_hidden agg)
                 ++ [last]).
  { subst m. apply GraphSAGE_init_layers. }
  split.
  - rewrite Hl. unfold len. rewrite !length_app, length_replicate. simpl. lia.
  - intros Hn. replace (Z.to_nat (n_layers - 1)) with 0%nat in Hl by lia.
    simpl in Hl. split; [exact Hl|].
    by rewrite (forward_split m [first] last x Hl).
Qed.

Lemma GraphSAGE_layer_count_any_witness :
  layers (GraphSAGE_init 128 64 172 (-3) F_relu (1 # 2) "gcn")
  = [mkSAGEConv 128 64 "gcn"; mkSAGEConv 64 172 "gcn"].
Proof.
  exact (proj1 (proj2 (GraphSAGE_layer_count_any 128 64 172 (-3) F_relu (1 # 2) "gcn"
                         HInput) ltac:(lia))).
Defined.

(** X2. The layers fit together for every [n_layers]: the first layer takes
    [in_feats], the last one produces [n_classes], the output width of each
    layer is the input width of the next, and all layers use the given
    aggregator. *)
Theorem GraphSAGE_layers_chain
    (in_feats n_hidden n_classes n_layers : Z) act p agg :
  let ls := layers (GraphSAGE_init in_feats n_hidden n_classes n_layers act p agg) in
  conv_in_feats <$> head ls = Some in_feats
  /\ conv_out_feats <$> last ls = Some n_classes
  /\ (forall i a b, ls !! i = Some a -> ls !! Datatypes.S i = Some b ->
        conv_out_feats a = conv_in_feats b)
  /\ Forall (fun l => conv_aggregator_type l = agg) ls.
Proof.
  intros ls.
  set (hid := mkSAGEConv n_hidden n_hidden agg).
  set (hidden := replicate (Z.to_nat (n_layers - 1)) hid).
  assert (Hl : ls = (mkSAGEConv in_feats n_hidden agg :: hidden)
                    ++ [mkSAGEConv n_hidden n_classes agg]).
  { subst ls. by rewrite GraphSAGE_init_layers. }
  split; [by rewrite Hl|].
  split; [by rewrite Hl, last_snoc|].
  split.
  - intros i a b Ha Hb. rewrite Hl in Ha, Hb.
    assert (Hi : (i < length (mkSAGEConv in_feats n_hidden agg :: hidden))%nat).
    { apply lookup_lt_Some in Hb. rewrite length_app in Hb. simpl in *. lia. }
    rewrite lookup_app_l in Ha by exact Hi.
    assert (Hout : conv_out_feats a = n_hidden).
    { destruct i; simpl in Ha; [by injection Ha as <-|].
      apply lookup_replicate in Ha as [-> _]. done. }
    assert (Hin : conv_in_feats b = n_hidden).
    { change ((hidden ++ [mkSAGEConv n_hidden n_classes agg]) !! i = Some b) in Hb.
      destruct (decide (i < length hidden)%nat) as [Hlt|Hge].
      - rewrite lookup_app_l in Hb by exact Hlt.
        apply lookup_replicate in Hb as [-> _]. done.
      - rewrite lookup_app_r in Hb by lia.
        destruct (i - length hidden)%nat; simpl in Hb; [by injection Hb as <-|done]. }
    congruence.
  - rewrite Hl. apply Forall_app. split; [|by repeat constructor].
    constructor; [done|]. apply Forall_forall.
    intros l Hin. apply elem_of_replicate in Hin as [-> _]. done.
Qed.

Lemma GraphSAGE_layers_chain_witness :
  conv_out_feats (mkSAGEConv 128 64 "gcn") = conv_in_feats (mkSAGEConv 64 64 "gcn").
Proof.
  exact (proj1 (proj2 (proj2 (GraphSAGE_layers_chain 128 64 172 3 F_relu (1 # 2) "gcn")))
           0%nat _ _ eq_refl eq_refl).
Defined.

(** ** The parameter loop under any collective *)

(** X3. Whatever the collective returns, the loop of lines 156-159 ends and
    leaves the list of parameters in place: no parameter is added or
    dropped, no parameter's data or [requires_grad] flag changes, a
    parameter that is frozen or has no gradient is left exactly as it was,
    and a reduced parameter still has a gradient. *)
Theorem sync_gradients_keeps_parameters {S : Type}
    (all_reduce : S -> tensor -> reduce_op -> S * tensor)
    (ps : list param) (i : nat) (s : S) :
  exists evs ps' s',
    sync_gradients all_reduce i ps s = (evs, Ok (ps', s'))
    /\ length ps' = length ps
    /\ Forall2 (fun p p' =>
                  requires_grad p' = requires_grad p /\ p_data p' = p_data p
                  /\ match contribution p with
                     | Some _ => is_Some (grad p')
                     | None => p' = p
                     end) ps ps'.
Proof.
  revert i s. induction ps as [|p ps IH]; intros i s.
  - exists [], [], s. split; [done|]. split; [done|constructor].
  - cbn [sync_gradients].
    assert (Hc : contribution p = if requires_grad p then grad p else None) by done.
    destruct (requires_grad p) eqn:Hr, (grad p) as [g|] eqn:Hg.
    + destruct (all_reduce s g SUM) as [s1 g'].
      destruct (IH (Datatypes.S i) s1) as (evs & ps' & s' & -> & Hlen & HF).
      eexists _, _, _. split; [reflexivity|]. split; [simpl; by rewrite Hlen|].
      constructor; [|exact HF]. rewrite Hc. simpl. by rewrite Hr.
    + destruct (IH (Datatypes.S i) s) as (evs & ps' & s' & -> & Hlen & HF).
      eexists _, _, _. split; [reflexivity|]. split; [simpl; by rewrite Hlen|].
      constructor; [|exact HF]. by rewrite Hc.
    + destruct (IH (Datatypes.S i) s) as (evs & ps' & s' & -> & Hlen & HF).
      eexists _, _, _. split; [reflexivity|]. split; [simpl; by rewrite Hlen|].
      constructor; [|exact HF]. by rewrite Hc.
    + destruct (IH (Datatypes.S i) s) as (evs & ps' & s' & -> & Hlen & HF).
      eexists _, _, _. split; [reflexivity|]. split; [simpl; by rewrite Hlen|].
      constructor; [|exact HF]. by rewrite Hc.
Qed.

(** X4. When the collective hands every contribution back unchanged, as in a
    job of a single process, the loop leaves every parameter, gradients
    included, exactly as it found it. *)
Theorem sync_gradients_identity_collective {S : Type}
    (all_reduce : S -> tensor -> reduce_op -> S * tensor)
    (ps : list param) (i : nat) (s : S) :
  (forall s t op, snd (all_reduce s t op) = t) ->
  exists evs s', sync_gradients all_reduce i ps s = (evs, Ok (ps, s')).
Proof.
  intros Hid. revert i s. induction ps as [|p ps IH]; intros i s.
  - by exists [], s.
  - cbn [sync_gradients].
    destruct (requires_grad p) eqn:Hr, (grad p) as [g|] eqn:Hg.
    + pose proof (Hid s g SUM) as Hsg.
      destruct (all_reduce s g SUM) as [s1 g']. simpl in Hsg. subst g'.
      destruct (IH (Datatypes.S i) s1) as (evs & s' & ->).
      eexists _, _. cbn. do 3 f_equal.
      destruct p as [r gr d]. simpl in *. by subst.
    + destruct (IH (Datatypes.S i) s) as (evs & s' & ->). by eexists _, _.
    + destruct (IH (Datatypes.S i) s) as (evs & s' & ->). by eexists _, _.
    + destruct (IH (Datatypes.S i) s) as (evs & s' & ->). by eexists _, _.
Qed.

Lemma sync_gradients_identity_collective_witness :
  exists evs s',
    sync_gradients (fun (s : unit) t (_ : reduce_op) => (s, t)) 0 [grad1 1; grad1 3] tt
    = (evs, Ok ([grad1 1; grad1 3], s')).
Proof.
  apply (sync_gradients_identity_collective
           (fun (s : unit) t (_ : reduce_op) => (s, t)) [grad1 1; grad1 3] 0 tt).
  intros s t op. reflexivity.
Defined.

(** ** [evaluate], the epoch loop and [run] at their edges *)

Section Run_edges.

Context {S : Type}.
Variable lib_step : lib_op -> train_state S -> train_state S.
Variable all_reduce : S -> tensor -> reduce_op -> S * tensor.
Variable count_correct : train_state S -> list Z -> Z.
Variable args : Args.

Lemma epoch_body_split num_parts rank val_nid (st : train_state S) epoch :
  let after_backward :=
    lib_step Backward (lib_step ZeroGrad (lib_step CrossEntropy
      (lib_step (Forward false) (lib_step ModelTrain st)))) in
  exists st2,
    epoch_body lib_step all_reduce count_correct args num_parts rank val_nid st epoch
    = ([EvLib ModelTrain; EvLib (Forward false); EvLib CrossEntropy;
        EvLib ZeroGrad; EvLib Backward]
       ++ ((fun i => EvAllReduce (GradOf i) SUM)
             <$> reduced_from 0 (ts_params after_backward))
       ++ [EvLib OptimizerStep]
       ++ trace (epoch_report lib_step all_reduce count_correct args
                              num_parts rank val_nid st2),
       result (epoch_report lib_step all_reduce count_correct args
                            num_parts rank val_nid st2)).
Proof.
  intros st1.
  destruct (sync_state_trace all_reduce st1) as (st3 & Hsync).
  exists (lib_step OptimizerStep st3).
  unfold epoch_body. etransitivity.
  - do 5 (eapply bindM_intro; [apply lib_call_eq|cbv beta]).
    fold st1. eapply bindM_intro; [exact Hsync|cbv beta].
    eapply bindM_intro; [apply lib_call_eq|cbv beta].
    apply app_pair_eta.
  - unfold epoch_report. cbn [app]. reflexivity.
Qed.

Lemma py_range_nonpositive n : n <= 0 -> py_range n = [].
Proof. intros Hn. unfold py_range. by replace (Z.to_nat n) with 0%nat by lia. Qed.


Lemma shape_at_silent t i : trace (shape_at t i) = [].
Proof. unfold shape_at. by destruct (t_shape t !! i). Qed.

(** Once the node data has been read, [run] is its set-up, the loop and the
    final evaluation. *)
Lemma run_decompose (g : drpa_obj) n_classes node_map num_parts rank world_size s0
    features labels train_mask val_mask test_mask in_feats :
  ndata (d_graph g) !! "feat" = Some features ->
  ndata (d_graph g) !! "label" = Some labels ->
  ndata (d_graph g) !! "train_mask" = Some train_mask ->
  ndata (d_graph g) !! "val_mask" = Some val_mask ->
  ndata (d_graph g) !! "test_mask" = Some test_mask ->
  t_shape features !! 1%nat = Some in_feats ->
  let model := GraphSAGE_init in_feats (a_n_hidden args) n_classes (a_n_layers args)
                              F_relu (a_dropout args) (a_aggregator_type args) in
  let rest :=
    let* st := for_each (epoch_body lib_step all_reduce count_correct args
                           num_parts rank (squeeze (nonzero val_mask)))
                        (py_range (a_n_epochs args))
                        (run_setup_state lib_step args model s0) in
    run_final lib_step all_reduce count_correct args num_parts
              (squeeze (nonzero test_mask)) st in
  run lib_step all_reduce count_correct args g
      (n_classes, node_map, num_parts, rank, world_size) s0
  = (run_setup_events args model ++ trace rest, result rest).
Proof.
  intros Hfeat Hlabel Htrain Hval Htest Hshape model rest.
  unfold run.
  rewrite (dict_get_Some _ _ _ Hfeat), bindM_ret.
  rewrite (dict_get_Some _ _ _ Hlabel), bindM_ret.
  rewrite (dict_get_Some _ _ _ Htrain), bindM_ret.
  rewrite (dict_get_Some _ _ _ Hval), bindM_ret.
  rewrite (dict_get_Some _ _ _ Htest), bindM_ret.
  unfold shape_at. rewrite Hshape, bindM_ret.
  fold model. unfold run_setup_events, run_setup_state in *.
  destruct (bool_decide (a_gpu args < 0)).
  - etransitivity.
    + apply (bindM_intro _ _ [EvPrint "----Data statistics------"] tt); [reflexivity|].
      rewrite !bindM_ret.
      eapply bindM_intro; [apply lib_call_eq|cbv beta].
      rewrite bindM_ret.
      eapply bindM_intro; [apply lib_call_eq|cbv beta].
      apply app_pair_eta.
    + reflexivity.
  - etransitivity.
    + apply (bindM_intro _ _ [EvPrint "----Data statistics------"] tt); [reflexivity|].
      apply (bindM_intro _ _ [EvLib (CudaSetDevice (a_gpu args)); EvPrint "use cuda:"]
               (true, lib_step (CudaSetDevice (a_gpu args)) (mkState [] s0)));
        [reflexivity|]. cbv beta iota.
      do 4 (eapply bindM_intro; [apply lib_call_eq|cbv beta]).
      apply app_pair_eta.
    + reflexivity.
Qed.

(** The two ways the reading of the node data can go. *)
Lemma run_prelude_cases (g : drpa_obj) (data : data_tuple) s0 :
  (exists e, run lib_step all_reduce count_correct args g data s0 = ([], Raise e))
  \/ (exists features labels train_mask val_mask test_mask in_feats,
        ndata (d_graph g) !! "feat" = Some features
        /\ ndata (d_graph g) !! "label" = Some labels
        /\ ndata (d_graph g) !! "train_mask" = Some train_mask
        /\ ndata (d_graph g) !! "val_mask" = Some val_mask
        /\ ndata (d_graph g) !! "test_mask" = Some test_mask
        /\ t_shape features !! 1%nat = Some in_feats).
Proof.
  destruct data as [[[[n_classes node_map] num_parts] rank] world_size].
  unfold run, dict_get.
  destruct (ndata (d_graph g) !! "feat") as [features|]; [|left; by eexists].
  rewrite bindM_ret.
  destruct (ndata (d_graph g) !! "label") as [labels|]; [|left; by eexists].
  rewrite bindM_ret.
  destruct (ndata (d_graph g) !! "train_mask") as [train_mask|]; [|left; by eexists].
  rewrite bindM_ret.
  destruct (ndata (d_graph g) !! "val_mask") as [val_mask|]; [|left; by eexists].
  rewrite bindM_ret.
  destruct (ndata (d_graph g) !! "test_mask") as [test_mask|]; [|left; by eexists].
  rewrite bindM_ret. unfold shape_at.
  destruct (t_shape features !! 1%nat) as [in_feats|] eqn:Hs; [|left; by eexists].
  right. by exists features, labels, train_mask, val_mask, test_mask, in_feats.
Qed.

Lemma Forall_trace_for_each {A St} (P : event -> Prop)
    (body : St -> A -> M St) (l : list A) :
  (forall st x, Forall P (trace (body st x))) ->
  forall st, Forall P (trace (for_each body l st)).
Proof.
  intros Hbody. induction l as [|x l IH]; intros st; cbn [for_each].
  - constructor.
  - apply Forall_trace_bindM; [apply Hbody|apply IH].
Qed.

End Run_edges.

Section Report_facts.

Context {S : Type}.
Variable lib_step : lib_op -> train_state S -> train_state S.
Variable all_reduce : S -> tensor -> reduce_op -> S * tensor.
Variable count_correct : train_state S -> list Z -> Z.
Variable args : Args.

Lemma py_truediv_pair x d : py_truediv x d = ([], result (py_truediv x d)).
Proof.
  pose proof (py_truediv_trace x d) as Ht.
  destruct (py_truediv x d) as [t r]. by rewrite trace_pair in Ht; subst t.
Qed.

(** The report of an iteration, case by case. *)
Lemma epoch_report_eq num_parts rank val_nid (st : train_state S) :
  epoch_report lib_step all_reduce count_correct args num_parts rank val_nid st
  = let rank_prints :=
      if bool_decide (a_rank args = 0)
      then [EvPrint "Epoch: time: sec"; EvPrint ""] else [] in
    if a_val args then
      let st1 := lib_step (Forward true) (lib_step ModelEval st) in
      let ev := [EvEvaluate val_nid; EvLib ModelEval; EvLib (Forward true)] in
      match val_nid with
      | Index0d _ => (ev, Raise dim_out_of_range)
      | Index1d rows =>
          if bool_decide (len rows = 0) then (ev, Raise ZeroDivisionError)
          else
            let acc := (inject_Z (count_correct st1 rows) * 1
                        / inject_Z (len rows))%Q in
            let st2 := mkState (ts_params st1)
                               (fst (all_reduce (ts_lib st1) (scalar_tensor acc) SUM)) in
            let t' := snd (all_reduce (ts_lib st1) (scalar_tensor acc) SUM) in
            if bool_decide (rank = 0) then
              match result (py_truediv (tensor_item t') num_parts) with
              | Ok _ => (ev ++ [EvAllReduce Accuracy SUM;
                                EvPrint "Epoch | Time(s) | Loss | Accuracy"]
                            ++ rank_prints, Ok st2)
              | Raise e => (ev ++ [EvAllReduce Accuracy SUM], Raise e)
              end
            else (ev ++ [EvAllReduce Accuracy SUM] ++ rank_prints, Ok st2)
      end
    else (rank_prints, Ok st).
Proof.
  unfold epoch_report. cbv zeta.
  destruct (a_val args).
  - rewrite evaluate_eq. destruct val_nid as [i|rows]; [reflexivity|].
    destruct (bool_decide (len rows = 0)); [reflexivity|].
    unfold all_reduce_accuracy. cbn -[py_truediv].
    destruct (all_reduce _ _ SUM) as [s' t']. cbn -[py_truediv].
    rewrite (py_truediv_pair (tensor_item t') num_parts).
    destruct (result (py_truediv (tensor_item t') num_parts)) as [q|e];
      destruct (bool_decide (rank = 0));
      destruct (bool_decide (a_rank args = 0)); reflexivity.
  - destruct (bool_decide (a_rank args = 0)); reflexivity.
Qed.

Lemma run_final_reports num_parts test_nid (st : train_state S) :
  Forall (fun e => is_report_event e = true)
         (trace (run_final lib_step all_reduce count_correct args
                           num_parts test_nid st)).
Proof.
  unfold run_final. rewrite evaluate_eq.
  destruct test_nid as [i|rows]; [cbn; repeat constructor|].
  destruct (bool_decide (len rows = 0)); [cbn; repeat constructor|].
  unfold all_reduce_accuracy. cbn -[py_truediv].
  destruct (all_reduce _ _ SUM) as [s' t']. cbn -[py_truediv].
  rewrite (py_truediv_pair (tensor_item t') num_parts).
  destruct (result (py_truediv (tensor_item t') num_parts)) as [q|e];
    destruct (bool_decide (a_rank args = 0)); cbn; repeat constructor.
Qed.

Lemma epoch_report_accuracy_count num_parts rank val_nid (st : train_state S) :
  count_events is_accuracy_all_reduce
    (trace (epoch_report lib_step all_reduce count_correct args
                         num_parts rank val_nid st))
  = if a_val args && is_batch val_nid then 1%nat else 0%nat.
Proof.
  rewrite epoch_report_eq. cbv zeta.
  destruct (a_val args); cbn [andb].
  - destruct val_nid as [i|[|v rows]].
    + reflexivity.
    + reflexivity.
    + rewrite (len_nonempty (v :: rows)) by done. cbn [is_batch].
      destruct (bool_decide (rank = 0));
        [destruct (result (py_truediv _ _))|];
        destruct (bool_decide (a_rank args = 0)); reflexivity.
  - destruct (bool_decide (a_rank args = 0)); reflexivity.
Qed.

Lemma epoch_body_accuracy_count num_parts rank val_nid (st : train_state S) epoch :
  count_events is_accuracy_all_reduce
    (trace (epoch_body lib_step all_reduce count_correct args
                       num_parts rank val_nid st epoch))
  = if a_val args && is_batch val_nid then 1%nat else 0%nat.
Proof.
  destruct (epoch_body_split lib_step all_reduce count_correct args
              num_parts rank val_nid st epoch) as (st2 & ->).
  rewrite trace_pair, !count_events_app, epoch_report_accuracy_count.
  rewrite (count_events_none _ (_ <$> _)); [done|].
  apply Forall_fmap, Forall_forall. by intros i _.
Qed.

Lemma epoch_body_events num_parts rank val_nid (st : train_state S) epoch :
  Forall (fun e => is_cuda_event e = false /\ is_setup_event e = false
                   \/ is_print e = true)
         (trace (epoch_body lib_step all_reduce count_correct args
                            num_parts rank val_nid st epoch)).
Proof.
  destruct (epoch_body_trace lib_step all_reduce count_correct args
              num_parts rank val_nid st epoch) as (rest & -> & Hrest).
  rewrite !Forall_app. split; [repeat constructor; by left|].
  split; [apply Forall_fmap, Forall_forall; intros i _; by left|].
  split; [repeat constructor; by left|].
  eapply Forall_impl; [exact Hrest|].
  intros e He. destruct e; simpl in *; try done; try (by left); try (by right).
  - destruct op; try done; by left.
Qed.

End Report_facts.

(** X5. [evaluate] always puts the model in evaluation mode and runs the
    forward pass first.  On a zero-dimensional index it then raises
    [IndexError] at [th.max(logits, dim=1)]; on an empty one-dimensional
    index it raises [ZeroDivisionError]; on any other one-dimensional index
    it returns the number of correct predictions divided by the size of the
    selection.  For the index [mask.nonzero().squeeze()] that [run] passes,
    it returns exactly when the mask selects at least two nodes. *)
Theorem evaluate_selection {S : Type}
    (lib_step : lib_op -> train_state S -> train_state S)
    (count_correct : train_state S -> list Z -> Z)
    (st : train_state S) (nid : index_tensor) :
  let st' := lib_step (Forward true) (lib_step ModelEval st) in
  trace (evaluate lib_step count_correct st nid)
  = [EvEvaluate nid; EvLib ModelEval; EvLib (Forward true)]
  /\ (forall i, nid = Index0d i ->
      result (evaluate lib_step count_correct st nid)
      = Raise dim_out_of_range)
  /\ (nid = Index1d [] ->
      result (evaluate lib_step count_correct st nid) = Raise ZeroDivisionError)
  /\ (forall rows, nid = Index1d rows -> rows <> [] ->
      result (evaluate lib_step count_correct st nid)
      = Ok ((inject_Z (count_correct st' rows) * 1 / inject_Z (len rows))%Q, st'))
  /\ (forall rows, nid = squeeze rows ->
      ((2 <= length rows)%nat
       <-> exists acc, result (evaluate lib_step count_correct st nid) = Ok acc)).
Proof.
  intros st'. rewrite evaluate_eq. split; [reflexivity|].
  split; [by intros i ->|]. split; [by intros ->|]. split.
  - intros rows -> Hne. rewrite result_pair. by rewrite (len_nonempty rows Hne).
  - intros rows ->. rewrite result_pair.
    destruct rows as [|a [|b rows]]; cbn [squeeze length].
    + split; [lia|]. by intros [acc Hacc].
    + split; [lia|]. by intros [acc Hacc].
    + split; [|lia]. intros _. rewrite len_nonempty by done. by eexists.
Qed.

Lemma evaluate_selection_witness :
  result (evaluate (fun _ (st : train_state unit) => st) (fun _ _ => 1)
                   (mkState [] tt) (squeeze [3]))
  = Raise dim_out_of_range
  /\ result (evaluate (fun _ (st : train_state unit) => st) (fun _ _ => 1)
                      (mkState [] tt) (squeeze []))
     = Raise ZeroDivisionError
  /\ result (evaluate (fun _ (st : train_state unit) => st) (fun _ _ => 1)
                      (mkState [] tt) (squeeze [0; 5]))
     = Ok ((inject_Z 1 * 1 / inject_Z 2)%Q, mkState [] tt).
Proof.
  split; [|split].
  - exact (proj1 (proj2 (evaluate_selection
                           (fun _ (st : train_state unit) => st) (fun _ _ => 1)
                           (mkState [] tt) (squeeze [3]))) 3 eq_refl).
  - exact (proj1 (proj2 (proj2 (evaluate_selection
                                  (fun _ (st : train_state unit) => st)
                                  (fun _ _ => 1) (mkState [] tt) (squeeze []))))
             eq_refl).
  - refine (proj1 (proj2 (proj2 (proj2 (evaluate_selection
                                          (fun _ (st : train_state unit) => st)
                                          (fun _ _ => 1) (mkState [] tt)
                                          (squeeze [0; 5])))))
              [0; 5] eq_refl _).
    discriminate.
Defined.

(** X6. An iteration issues exactly one accuracy all-reduce when [--val] is
    given and the validation mask of the rank selects at least two nodes,
    and none otherwise (with no or one validation node [evaluate] raises
    before the all-reduce); so ranks that differ in this issue different
    numbers of collectives per epoch. *)
Theorem epoch_body_accuracy_all_reduces {S : Type}
    (lib_step : lib_op -> train_state S -> train_state S)
    (all_reduce : S -> tensor -> reduce_op -> S * tensor)
    (count_correct : train_state S -> list Z -> Z)
    (args : Args) (num_parts : pyval) (rank : Z) (val_rows : list Z)
    (st : train_state S) (epoch : Z) :
  count_events is_accuracy_all_reduce
    (trace (epoch_body lib_step all_reduce count_correct args
                       num_parts rank (squeeze val_rows) st epoch))
  = if a_val args && bool_decide (2 <= length val_rows)%nat then 1%nat else 0%nat.
Proof.
  rewrite epoch_body_accuracy_count. do 2 f_equal.
  destruct val_rows as [|a [|b rows]]; cbn [squeeze is_batch length].
  - by rewrite bool_decide_eq_false_2 by lia.
  - by rewrite bool_decide_eq_false_2 by lia.
  - by rewrite bool_decide_eq_true_2 by lia.
Qed.

(** X7. On a rank other than 0 an iteration prints nothing and does not
    depend on [num_parts]: it returns whenever its evaluation can be
    computed (under [--val], the validation index is a batch that is not
    empty), whatever [num_parts] is. *)
Theorem epoch_body_other_ranks {S : Type}
    (lib_step : lib_op -> train_state S -> train_state S)
    (all_reduce : S -> tensor -> reduce_op -> S * tensor)
    (count_correct : train_state S -> list Z -> Z)
    (args : Args) (num_parts : pyval) (rank : Z) (val_nid : index_tensor)
    (st : train_state S) (epoch : Z) :
  rank <> 0 -> a_rank args <> 0 ->
  (a_val args = true -> is_batch val_nid = true) ->
  (exists st', result (epoch_body lib_step all_reduce count_correct args
                                  num_parts rank val_nid st epoch) = Ok st')
  /\ Forall (fun e => is_print e = false)
            (trace (epoch_body lib_step all_reduce count_correct args
                               num_parts rank val_nid st epoch)).
Proof.
  intros Hr Har Hv.
  destruct (epoch_body_split lib_step all_reduce count_correct args
              num_parts rank val_nid st epoch) as (st2 & ->).
  rewrite trace_pair, result_pair, epoch_report_eq. cbv zeta.
  rewrite (bool_decide_eq_false_2 (rank = 0)) by done.
  rewrite (bool_decide_eq_false_2 (a_rank args = 0)) by done.
  destruct (a_val args).
  - specialize (Hv eq_refl). destruct val_nid as [i|[|v rows]]; try done.
    rewrite (len_nonempty (v :: rows)) by done. split; [by eexists|].
    rewrite !Forall_app. split; [repeat constructor|].
    split; [apply Forall_fmap, Forall_forall; by intros i _|].
    repeat constructor.
  - split; [by eexists|].
    rewrite !Forall_app. split; [repeat constructor|].
    split; [apply Forall_fmap, Forall_forall; by intros i _|].
    repeat constructor.
Qed.

Lemma epoch_body_other_ranks_witness :
  exists st', result (epoch_body (fun _ (st : train_state unit) => st)
                        (fun s t _ => (s, t)) (fun _ _ => 0)
                        (set_val (set_rank sample_args 1) true) (PInt 0) 1
                        (squeeze [2; 3]) (mkState [] tt) 0)
              = Ok st'.
Proof.
  refine (proj1 (epoch_body_other_ranks (fun _ (st : train_state unit) => st)
                   (fun s t _ => (s, t)) (fun _ _ => 0)
                   (set_val (set_rank sample_args 1) true) (PInt 0) 1
                   (squeeze [2; 3]) (mkState [] tt) 0 _ _ _)).
  - discriminate.
  - simpl. discriminate.
  - reflexivity.
Defined.

(** X8. On rank 0 under [--val] with a validation index that is a batch
    and not empty, a [num_parts] of zero makes the iteration end in
    [ZeroDivisionError] while the report line is formatted, that is after
    the optimizer step and after the accuracy all-reduce of the iteration
    was issued, which is the last thing the rank does. *)
Theorem epoch_body_zero_num_parts {S : Type}
    (lib_step : lib_op -> train_state S -> train_state S)
    (all_reduce : S -> tensor -> reduce_op -> S * tensor)
    (count_correct : train_state S -> list Z -> Z)
    (args : Args) (val_nid : index_tensor) (st : train_state S) (epoch : Z) :
  a_val args = true -> is_batch val_nid = true ->
  let m := epoch_body lib_step all_reduce count_correct args (PInt 0) 0 val_nid
                      st epoch in
  result m = Raise ZeroDivisionError
  /\ last (trace m) = Some (EvAllReduce Accuracy SUM)
  /\ count_events is_optimizer_step (trace m) = 1%nat.
Proof.
  intros Hv Hb m. subst m.
  pose proof (epoch_body_counts lib_step all_reduce count_correct args
                (PInt 0) 0 val_nid st epoch) as [_ Hstep].
  destruct val_nid as [i|[|v rows]]; try done.
  split; [|split; [|exact Hstep]].
  - destruct (epoch_body_split lib_step all_reduce count_correct args
                (PInt 0) 0 (Index1d (v :: rows)) st epoch) as (st2 & ->).
    rewrite result_pair, epoch_report_eq. cbv zeta.
    rewrite Hv, (len_nonempty (v :: rows)) by done. reflexivity.
  - destruct (epoch_body_split lib_step all_reduce count_correct args
                (PInt 0) 0 (Index1d (v :: rows)) st epoch) as (st2 & ->).
    rewrite trace_pair, epoch_report_eq. cbv zeta.
    rewrite Hv, (len_nonempty (v :: rows)) by done.
    unfold py_truediv. rewrite !(bool_decide_eq_true_2 (0 = 0)) by done.
    unfold raise, trace, result. cbn [fst snd].
    rewrite !app_assoc. apply last_snoc.
Qed.

Lemma epoch_body_zero_num_parts_witness :
  result (epoch_body (fun _ (st : train_state unit) => st) (fun s t _ => (s, t))
                     (fun _ _ => 0) (set_val sample_args true) (PInt 0) 0
                     (squeeze [2; 3]) (mkState [] tt) 0)
  = Raise ZeroDivisionError.
Proof.
  refine (proj1 (epoch_body_zero_num_parts (fun _ (st : train_state unit) => st)
                   (fun s t _ => (s, t)) (fun _ _ => 0) (set_val sample_args true)
                   (squeeze [2; 3]) (mkState [] tt) 0 _ _)).
  - reflexivity.
  - reflexivity.
Defined.

Section Run_more_facts.

Context {S : Type}.
Variable lib_step : lib_op -> train_state S -> train_state S.
Variable all_reduce : S -> tensor -> reduce_op -> S * tensor.
Variable count_correct : train_state S -> list Z -> Z.
Variable args : Args.

Lemma run_setup_events_no_training model :
  Forall (fun e => is_update_event e = false /\ is_model_train e = false
                   /\ is_accuracy_all_reduce e = false
                   /\ is_optimizer_step e = false)
         (run_setup_events args model).
Proof.
  unfold run_setup_events. destruct (bool_decide (a_gpu args < 0));
    repeat constructor.
Qed.

Lemma run_setup_events_no_cuda model :
  a_gpu args < 0 ->
  Forall (fun e => is_cuda_event e = false) (run_setup_events args model).
Proof.
  intros Hg. unfold run_setup_events. rewrite bool_decide_eq_true_2 by done.
  repeat constructor.
Qed.

Lemma is_report_not_cuda e : is_report_event e = true -> is_cuda_event e = false.
Proof. destruct e as [| | | | | | | | | | |op| |]; try done. by destruct op. Qed.

Lemma is_report_not_update e :
  is_report_event e = true -> is_update_event e = false /\ is_model_train e = false.
Proof.
  destruct e as [| | | | | | | | | | |op|w|]; try done.
  - by destruct op.
  - by destruct w.
Qed.


End Run_more_facts.

(** Every key of a list is bound in a concrete dictionary. *)
Ltac keys_present :=
  repeat (apply List.Forall_cons; [eexists; vm_compute; reflexivity|]);
  apply List.Forall_nil.

(** X9. [run] reads the five node-data entries in the order [feat], [label],
    [train_mask], [val_mask], [test_mask]: when one is missing, it raises
    [KeyError] for the first missing one before it prints or calls
    anything. *)
Theorem run_missing_node_data {S : Type}
    (lib_step : lib_op -> train_state S -> train_state S)
    (all_reduce : S -> tensor -> reduce_op -> S * tensor)
    (count_correct : train_state S -> list Z -> Z)
    (args : Args) (g : drpa_obj) (data : data_tuple) (s0 : S)
    (pre post : list string) (k : string) :
  node_data_keys = pre ++ k :: post ->
  Forall (fun k' => is_Some (ndata (d_graph g) !! k')) pre ->
  ndata (d_graph g) !! k = None ->
  run lib_step all_reduce count_correct args g data s0 = ([], Raise (KeyError k)).
Proof.
  intros Hkeys Hpre Hk.
  destruct data as [[[[n_classes node_map] num_parts] rank] world_size].
  unfold run, node_data_keys in *.
  repeat (destruct pre as [|? pre]; cbn [app] in Hkeys;
          [injection Hkeys as <- _; unfold dict_get; rewrite Hk; reflexivity|];
          injection Hkeys as <- Hkeys;
          apply Forall_cons in Hpre as [[? ?] Hpre];
          erewrite dict_get_Some by eassumption; rewrite bindM_ret).
  by destruct pre.
Qed.

Lemma run_missing_node_data_witness :
  run (fun _ (st : train_state unit) => st) (fun s t _ => (s, t)) (fun _ _ => 0)
      sample_args
      (mkDrpa (mkGraph (delete "train_mask"
                          (run_node_data [0; 0; 0; 0]%Q [0; 0; 1; 1]%Q)) 4 3)
              1 (PInt 2) (PStr "node_map.npy") 1 torch_distributed 3)
      sample_data tt
  = ([], Raise (KeyError "train_mask")).
Proof.
  apply (run_missing_node_data _ _ _ _ _ _ _ ["feat"; "label"]
                               ["val_mask"; "test_mask"] "train_mask").
  - reflexivity.
  - keys_present.
  - by vm_compute.
Defined.

(** X10. When all five node-data entries are there but the feature tensor
    has fewer than two dimensions, [run] raises [IndexError] at
    [features.shape[1]], again before its first event. *)
Theorem run_flat_features {S : Type}
    (lib_step : lib_op -> train_state S -> train_state S)
    (all_reduce : S -> tensor -> reduce_op -> S * tensor)
    (count_correct : train_state S -> list Z -> Z)
    (args : Args) (g : drpa_obj) (data : data_tuple) (s0 : S) (features : tensor) :
  Forall (fun k => is_Some (ndata (d_graph g) !! k)) node_data_keys ->
  ndata (d_graph g) !! "feat" = Some features ->
  (length (t_shape features) <= 1)%nat ->
  run lib_step all_reduce count_correct args g data s0
  = ([], Raise (IndexError "tuple index out of range")).
Proof.
  intros Hkeys Hfeat Hshape.
  destruct data as [[[[n_classes node_map] num_parts] rank] world_size].
  unfold run, node_data_keys in *.
  apply Forall_cons in Hkeys as [_ Hkeys].
  rewrite (dict_get_Some _ _ _ Hfeat), bindM_ret.
  do 4 (apply Forall_cons in Hkeys as [[? ?] Hkeys];
        erewrite dict_get_Some by eassumption; rewrite bindM_ret).
  unfold shape_at. rewrite (lookup_ge_None_2 (t_shape features) 1) by lia.
  reflexivity.
Qed.

Lemma run_flat_features_witness :
  run (fun _ (st : train_state unit) => st) (fun s t _ => (s, t)) (fun _ _ => 0)
      sample_args
      (mkDrpa (mkGraph (<["feat" := tensor1 Float32 [1; 2; 3; 4]%Q]>
                          (run_node_data [0; 0; 0; 0]%Q [0; 0; 1; 1]%Q)) 4 3)
              1 (PInt 2) (PStr "node_map.npy") 1 torch_distributed 3)
      sample_data tt
  = ([], Raise (IndexError "tuple index out of range")).
Proof.
  apply (run_flat_features _ _ _ _ _ _ _ (tensor1 Float32 [1; 2; 3; 4]%Q)).
  - keys_present.
  - by vm_compute.
  - simpl. lia.
Defined.

(** X11. With a negative [--gpu] (the default) [run] never touches CUDA: no
    device is selected, neither the graph nor the model is moved, whatever
    the data and however the run ends. *)
Theorem run_cpu_only {S : Type}
    (lib_step : lib_op -> train_state S -> train_state S)
    (all_reduce : S -> tensor -> reduce_op -> S * tensor)
    (count_correct : train_state S -> list Z -> Z)
    (args : Args) (g : drpa_obj) (data : data_tuple) (s0 : S) :
  a_gpu args < 0 ->
  Forall (fun e => is_cuda_event e = false)
         (trace (run lib_step all_reduce count_correct args g data s0)).
Proof.
  intros Hg.
  destruct (run_prelude_cases lib_step all_reduce count_correct args g data s0)
    as [[e ->]|(features & labels & train_mask & val_mask & test_mask & in_feats
                & H1 & H2 & H3 & H4 & H5 & H6)]; [constructor|].
  destruct data as [[[[n_classes node_map] num_parts] rank] world_size].
  rewrite (run_decompose lib_step all_reduce count_correct args g n_classes node_map
             num_parts rank world_size s0 _ _ _ _ _ _ H1 H2 H3 H4 H5 H6).
  rewrite trace_pair. apply Forall_app. split.
  - by apply run_setup_events_no_cuda.
  - apply Forall_trace_bindM.
    + apply Forall_trace_for_each. intros st x.
      eapply Forall_impl; [apply epoch_body_events|].
      intros ev [[Hc _]|Hp]; [done|]. by destruct ev.
    + intros st. eapply Forall_impl; [apply run_final_reports|].
      intros ev. apply is_report_not_cuda.
Qed.

Lemma run_cpu_only_witness :
  Forall (fun e => is_cuda_event e = false)
         (trace (run (fun _ (st : train_state unit) => st) (fun s t _ => (s, t))
                     (fun _ _ => 0) sample_args
                     (sample_drpa [0; 0; 0; 0]%Q [0; 0; 1; 1]%Q) sample_data tt)).
Proof.
  apply run_cpu_only. by vm_compute.
Defined.

(** X12. With [--n-epochs] zero or negative [run] never trains: there is no
    [model.train()], no backward pass, no gradient all-reduce and no
    optimizer step in its trace. *)
Theorem run_without_epochs {S : Type}
    (lib_step : lib_op -> train_state S -> train_state S)
    (all_reduce : S -> tensor -> reduce_op -> S * tensor)
    (count_correct : train_state S -> list Z -> Z)
    (args : Args) (g : drpa_obj) (data : data_tuple) (s0 : S) :
  a_n_epochs args <= 0 ->
  Forall (fun e => is_update_event e = false /\ is_model_train e = false)
         (trace (run lib_step all_reduce count_correct args g data s0)).
Proof.
  intros Hn.
  destruct (run_prelude_cases lib_step all_reduce count_correct args g data s0)
    as [[e ->]|(features & labels & train_mask & val_mask & test_mask & in_feats
                & H1 & H2 & H3 & H4 & H5 & H6)]; [constructor|].
  destruct data as [[[[n_classes node_map] num_parts] rank] world_size].
  rewrite (run_decompose lib_step all_reduce count_correct args g n_classes node_map
             num_parts rank world_size s0 _ _ _ _ _ _ H1 H2 H3 H4 H5 H6).
  rewrite trace_pair, (py_range_nonpositive _ Hn). cbn [for_each].
  rewrite bindM_ret. apply Forall_app. split.
  - eapply Forall_impl; [apply run_setup_events_no_training|]. by intros ev (? & ? & _).
  - eapply Forall_impl; [apply run_final_reports|].
    intros ev. apply is_report_not_update.
Qed.

Lemma run_without_epochs_witness :
  Forall (fun e => is_update_event e = false /\ is_model_train e = false)
         (trace (run (fun _ (st : train_state unit) => st) (fun s t _ => (s, t))
                     (fun _ _ => 0) (set_n_epochs sample_args (-2))
                     (sample_drpa [0; 0; 0; 0]%Q [0; 0; 1; 1]%Q) sample_data tt)).
Proof.
  apply run_without_epochs. by vm_compute.
Defined.



(** X14. Called with the two arguments of its definition, [main] hands the
    graph and the data to [run] and ends the way [run] ends: it returns when
    [run] returns and passes on the exception of [run] otherwise.  Rank 0
    prints a line before the run, and a line after it only when [run]
    returned. *)
Theorem main_two_arguments {S : Type} (env : Env S) (args : Args)
    (g : drpa_obj) (d : data_tuple) :
  let r := run (lib_step env) (all_reduce env) (count_correct env) args g d
               (lib_state env) in
  let m := call (main env args) [ArgDrpa g; ArgTuple d] in
  let on_rank_0 s := if bool_decide (a_rank args = 0) then [EvPrint s] else [] in
  result m = result r
  /\ trace m
     = [EvEnter "main"; EvGcSetThreshold] ++ on_rank_0 "Starting a run: "
       ++ [EvEnter "run"] ++ trace r
       ++ match result r with
          | Ok _ => [EvReturn "run"] ++ on_rank_0 "Run completed !!!"
                    ++ [EvReturn "main"]
          | Raise _ => []
          end.
Proof.
  intros r m on_rank_0. subst r m on_rank_0.
  unfold call, main, run_def.
  generalize (run (lib_step env) (all_reduce env) (count_correct env) args).
  intros R. generalize (lib_state env). intros s0.
  destruct (bool_decide (a_rank args = 0)); cbv;
    destruct (R g d s0) as [t [[]|e]]; fold (@app event);
    rewrite <- ?app_assoc, ?app_nil_r; done.
Qed.

(** X15. The [__main__] block never completes: for every installation and
    command line it ends in an exception, and [dist.barrier()], its last
    statement, is never reached. *)
Theorem main_block_always_raises {S : Type} (env : Env S) (args : Args) :
  (exists e, result (main_block env args) = Raise e)
  /\ Forall (fun e => e <> EvBarrier) (trace (main_block env args)).
Proof.
  destruct (main_block_cases env args)
    as [(t & e & Heq & Hev)|(t1 & args' & pc & t3 & g & np & nm & H1 & H2 & H3 & Heq)].
  - rewrite Heq, trace_pair, result_pair. split; [by eexists|].
    eapply Forall_impl; [exact Hev|]. by intros [] ?.
  - rewrite Heq, trace_pair, result_pair. split; [by eexists|].
    pose proof (resolve_world_events env args) as Hw. rewrite H1, trace_pair in Hw.
    pose proof (load_partition_events env args' pc) as Hl. rewrite H3, trace_pair in Hl.
    rewrite !Forall_app. split; [|split].
    + eapply Forall_impl; [exact Hw|]. by intros [] ?.
    + eapply Forall_impl; [exact Hl|]. by intros [] ?.
    + rewrite train_eq, trace_pair.
      destruct (bool_decide (a_rank args' = 0)); repeat constructor; done.
Qed.

(** Case analysis on the tests of [resolve_world] that occur in [H]. *)
Ltac world_simpl H :=
  cbn [bindM ret raise emit andb app a_dist_url a_world_size a_rank
       a_dist_backend a_distributed set_world_size set_rank set_distributed
       get_distributed] in H.

Ltac world_cases env H :=
  repeat (world_simpl H;
          match type of H with
          | context [bool_decide ?P] => destruct (bool_decide_reflect P)
          | context [environ env !! ?k] => destruct (environ env !! k) eqn:?
          | context [builtin_int env ?s] => destruct (builtin_int env s) eqn:?
          end).

(** The same tests in the goal, decided by what is known. *)
Ltac world_goal env :=
  repeat (cbn [bindM ret raise emit andb app a_dist_url a_world_size a_rank
               a_dist_backend a_distributed set_world_size set_rank
               set_distributed get_distributed];
          match goal with
          | H : environ env !! ?k = _ |- context [environ env !! ?k] => rewrite H
          | H : builtin_int env ?s = _ |- context [builtin_int env ?s] => rewrite H
          | |- context [bool_decide ?P] => destruct (bool_decide_reflect P)
          end).

Section World_facts.

Context {S : Type}.
Variable env : Env S.

Lemma set_world_rank_eta args :
  set_rank (set_world_size args (a_world_size args)) (a_rank args) = args.
Proof. by destruct args. Qed.

(** Taking apart a successful [resolve_world]. *)
Lemma resolve_world_Ok args t args' :
  resolve_world env args = (t, Ok args') ->
  args' = set_rank (set_distributed (set_world_size args (a_world_size args'))
                                    (bool_decide (a_world_size args' > 1)))
                   (a_rank args')
  /\ t = [EvPrint "Namespace"]
         ++ (if bool_decide (a_world_size args' > 1)
             then [EvInitProcessGroup (a_dist_backend args) (a_dist_url args)
                                      (a_world_size args') (a_rank args')]
             else [])
         ++ [EvPrint "Rank:  World_size: "]
  /\ (a_world_size args' <= 1 -> a_rank args' = a_rank args)
  /\ (a_dist_url args <> "env://" \/ a_world_size args <> -1 ->
      a_world_size args' = a_world_size args).
Proof.
  unfold resolve_world, environ_int_or_minus_one, environ_int, dict_get, lift.
  intros H.
  destruct args as [ds dr gp nr vl lr ne nh nl wd ag ws rk url be dd].
  cbn [a_dist_url a_world_size a_rank a_dist_backend a_distributed
       set_world_size set_rank set_distributed] in *.
  world_cases env H;
    cbn in H; try discriminate H; injection H as <- <-;
    cbn [a_dist_url a_world_size a_rank a_dist_backend a_distributed
         set_world_size set_rank set_distributed];
    repeat match goal with
           | |- context [bool_decide ?P] => destruct (bool_decide_reflect P)
           end;
    try lia; (split; [reflexivity|]); (split; [reflexivity|]);
    (split; [intros; try reflexivity; lia|]);
    intros [?|?]; try reflexivity; try lia; try done.
Qed.

End World_facts.

(** X16. When the world size and the rank are resolved, three attributes
    of [args] change and no other: the world size, the rank, and
    [distributed], which line 240 sets to whether the resolved world size is
    greater than 1.  [init_process_group] is called exactly in that case,
    with the resolved world size and rank, between the two prints; a job
    that is not distributed keeps its rank, and a world size given on the
    command line (or any world size under another [--dist-url]) is kept. *)
Theorem resolve_world_result {S : Type} (env : Env S) (args args' : Args) :
  result (resolve_world env args) = Ok args' ->
  args' = set_rank (set_distributed (set_world_size args (a_world_size args'))
                                    (bool_decide (a_world_size args' > 1)))
                   (a_rank args')
  /\ a_distributed args' = Some (bool_decide (a_world_size args' > 1))
  /\ trace (resolve_world env args)
     = [EvPrint "Namespace"]
       ++ (if bool_decide (a_world_size args' > 1)
           then [EvInitProcessGroup (a_dist_backend args) (a_dist_url args)
                                    (a_world_size args') (a_rank args')]
           else [])
       ++ [EvPrint "Rank:  World_size: "]
  /\ (a_world_size args' <= 1 -> a_rank args' = a_rank args)
  /\ (a_dist_url args <> "env://" \/ a_world_size args <> -1 ->
      a_world_size args' = a_world_size args).
Proof.
  intros H.
  destruct (resolve_world_Ok env args (trace (resolve_world env args)) args')
    as (H1 & H2 & H3 & H4).
  { rewrite <- H. apply app_pair_eta. }
  split; [exact H1|]. split; [by rewrite H1|done].
Qed.

Lemma resolve_world_result_witness :
  trace (resolve_world (sample_env 1) sample_args)
  = [EvPrint "Namespace"; EvInitProcessGroup "ccl" "env://" 2 1;
     EvPrint "Rank:  World_size: "].
Proof.
  exact (proj1 (proj2 (proj2 (resolve_world_result (sample_env 1) sample_args
                                sample_resolved eq_refl)))).
Defined.

(** X17. In a distributed job the rank is always taken from the
    environment: whatever [--rank] gives on the command line, the block
    resolves to the same arguments, or fails in the same way. *)
Theorem resolve_world_ignores_rank_option {S : Type} (env : Env S)
    (args args' : Args) (r : Z) :
  result (resolve_world env args) = Ok args' ->
  a_world_size args' > 1 ->
  resolve_world env (set_rank args r) = resolve_world env args.
Proof.
  unfold resolve_world, environ_int_or_minus_one, environ_int, dict_get, lift.
  intros H Hws.
  destruct args as [ds dr gp nr vl lr ne nh nl wd ag ws rk url be dd].
  cbn [a_dist_url a_world_size a_rank a_dist_backend a_distributed
       set_world_size set_rank set_distributed] in *.
  world_cases env H;
    cbn in H; try discriminate H; injection H as <-;
    cbn [a_world_size set_world_size set_rank set_distributed] in Hws; try lia;
    world_goal env; try lia; try done.
Qed.

Lemma resolve_world_ignores_rank_option_witness :
  resolve_world (sample_env 1) (set_rank sample_args 7)
  = resolve_world (sample_env 1) sample_args.
Proof.
  apply (resolve_world_ignores_rank_option (sample_env 1) sample_args
           sample_resolved 7).
  - reflexivity.
  - reflexivity.
Defined.

(** X18. Under [--dist-url env://] with no [--world-size], an environment
    that sets neither [PMI_SIZE] nor [WORLD_SIZE] ends the block in
    [KeyError] for [WORLD_SIZE] right after the arguments were printed; and
    a distributed job whose environment sets neither [PMI_RANK] nor [RANK]
    ends in [KeyError] for [RANK] before [init_process_group] is called. *)
Theorem resolve_world_missing_environment {S : Type} (env : Env S) (args : Args) :
  (a_dist_url args = "env://" -> a_world_size args = -1 ->
   environ env !! "PMI_SIZE" = None -> environ env !! "WORLD_SIZE" = None ->
   resolve_world env args = ([EvPrint "Namespace"], Raise (KeyError "WORLD_SIZE")))
  /\ (a_world_size args > 1 ->
      environ env !! "PMI_RANK" = None -> environ env !! "RANK" = None ->
      resolve_world env args = ([EvPrint "Namespace"], Raise (KeyError "RANK"))).
Proof.
  split.
  - intros Hurl Hws Hpmi Hw.
    unfold resolve_world, environ_int_or_minus_one, environ_int, dict_get.
    rewrite Hurl, Hws, Hpmi. cbn [bool_decide decide_rel andb]. 
    rewrite !bool_decide_eq_true_2 by done. cbn [andb].
    rewrite bindM_ret. cbn [a_world_size set_world_size].
    rewrite bool_decide_eq_true_2 by done. rewrite Hw. reflexivity.
  - intros Hws Hpmi Hr.
    unfold resolve_world, environ_int_or_minus_one, environ_int, dict_get.
    rewrite (bool_decide_eq_false_2 (a_world_size args = -1)) by lia.
    rewrite andb_false_r, Hpmi.
    cbn [emit bindM ret app].
    rewrite (bool_decide_eq_true_2 (a_world_size args > 1)) by done.
    cbn [a_rank set_rank]. rewrite bool_decide_eq_true_2 by done.
    rewrite Hr. reflexivity.
Qed.

Lemma resolve_world_missing_environment_witness :
  resolve_world (mkEnv unit ∅ decimal_int true (read_json (sample_env 1))
                       (load_tensors (sample_env 1)) (load_graphs (sample_env 1))
                       (lib_step (sample_env 1)) (all_reduce (sample_env 1))
                       (count_correct (sample_env 1)) tt)
                sample_args
  = ([EvPrint "Namespace"], Raise (KeyError "WORLD_SIZE")).
Proof.
  apply resolve_world_missing_environment; reflexivity.
Defined.

(** X19. The launcher's [PMI_SIZE] takes precedence over [WORLD_SIZE]: when
    it is set to an integer other than -1, that integer is the world size
    and [WORLD_SIZE] is not consulted; when it is set to -1 the world size
    is read from [WORLD_SIZE]. *)
Theorem resolve_world_launcher_precedence {S : Type} (env : Env S)
    (args args' : Args) (s : string) (n : Z) :
  a_dist_url args = "env://" -> a_world_size args = -1 ->
  environ env !! "PMI_SIZE" = Some s -> builtin_int env s = Ok n ->
  result (resolve_world env args) = Ok args' ->
  (n <> -1 -> a_world_size args' = n)
  /\ (n = -1 -> exists w, environ env !! "WORLD_SIZE" = Some w
                          /\ builtin_int env w = Ok (a_world_size args')).
Proof.
  unfold resolve_world, environ_int_or_minus_one, environ_int, dict_get, lift.
  intros Hurl Hws Hpmi Hint H.
  destruct args as [ds dr gp nr vl lr ne nh nl wd ag ws rk url be dd].
  cbn [a_dist_url a_world_size a_rank a_dist_backend a_distributed
       set_world_size set_rank set_distributed] in *.
  subst url ws. rewrite Hpmi, Hint in H.
  rewrite !bool_decide_eq_true_2 in H by done.
  world_simpl H.
  destruct (bool_decide_reflect (n = -1)) as [->|Hn].
  - split; [done|]. intros _.
    world_cases env H; cbn in H; try discriminate H; injection H as <-;
      (eexists; split; [reflexivity|]); cbn; eassumption.
  - split; [|done]. intros _.
    world_cases env H; cbn in H; try discriminate H; by injection H as <-.
Qed.

Lemma resolve_world_launcher_precedence_witness :
  a_world_size sample_resolved = 2.
Proof.
  refine (proj1 (resolve_world_launcher_precedence (sample_env 1) sample_args
                   sample_resolved "2" 2 _ _ _ _ _) _).
  - reflexivity.
  - reflexivity.
  - reflexivity.
  - reflexivity.
  - reflexivity.
  - discriminate.
Defined.

(** ** The configuration path and the partition entry *)

Lemma append_length (a b : string) :
  String.length (a +:+ b) = (String.length a + String.length b)%nat.
Proof. induction a as [|c a IH]; simpl; [done|]. by rewrite IH. Qed.

Lemma append_inj_r (a b c : string) : a +:+ c = b +:+ c -> a = b.
Proof.
  revert b. induction a as [|x a IH]; intros [|y b] H; simpl in H.
  - done.
  - apply (f_equal String.length) in H. rewrite !append_length in H.
    simpl in H. lia.
  - apply (f_equal String.length) in H. rewrite !append_length in H.
    simpl in H. lia.
  - change (String x (a +:+ c) = String y (b +:+ c)) in H.
    injection H as -> H. f_equal. by apply IH.
Qed.

Lemma config_path_inj ws ws' : config_path ws = config_path ws' -> ws = ws'.
Proof.
  unfold config_path. intros H.
  apply (inj (String.append "Libra_result_ogbn-papers100M/")) in H.
  apply append_inj_r in H. by apply (inj pretty) in H.
Qed.

(** X20. Jobs of different world sizes never share a configuration file:
    when the dataset dispatch gives the same path for two command lines,
    their world sizes are equal. *)
Theorem partition_config_separates_world_sizes {S : Type} (env env' : Env S)
    (args args' : Args) (pc : string) :
  result (partition_config env args) = Ok pc ->
  result (partition_config env' args') = Ok pc ->
  a_world_size args = a_world_size args'.
Proof.
  intros H H'.
  destruct (decide (a_dataset args = Some "ogbn-papers100M")) as [Hd|Hd];
    [|by rewrite (partition_config_other_dataset env args Hd) in H].
  destruct (decide (a_dataset args' = Some "ogbn-papers100M")) as [Hd'|Hd'];
    [|by rewrite (partition_config_other_dataset env' args' Hd') in H'].
  rewrite (partition_config_papers env args Hd) in H.
  rewrite (partition_config_papers env' args' Hd') in H'.
  rewrite result_pair in H, H'. rewrite <- H in H'.
  symmetry. apply config_path_inj. congruence.
Qed.

Lemma partition_config_separates_world_sizes_witness :
  a_world_size (set_world_size sample_args 2)
  = a_world_size sample_resolved.
Proof.
  apply (partition_config_separates_world_sizes (sample_env 1) (sample_env 1) _ _
           (config_path 2)).
  - vm_compute. reflexivity.
  - vm_compute. reflexivity.
Defined.

(** One statement of [load_partition] that succeeds. *)
Ltac step_with tac := eapply bindM_intro; [solve [tac]|cbv beta iota].

Ltac partition_step :=
  first [ step_with ltac:(apply location_print_eq)
        | step_with ltac:(apply lift_eq; eassumption)
        | step_with ltac:(cbn [py_getitem]; apply dict_get_eq; eassumption)
        | step_with ltac:(apply dict_get_eq; eassumption)
        | step_with ltac:(reflexivity) ].

(** [load_partition] ends where the steps taken so far have led. *)
Ltac partition_stops tac :=
  etransitivity;
  [ tac; reflexivity | cbn [app]; rewrite ?app_nil_r; reflexivity ].

(** X21. When the configuration cannot be read, the block ends in the
    exception of the reader; when it is an object without the entry
    [part-{rank}], the block ends in [KeyError] for that key.  In both cases
    the configuration was opened and nothing was loaded. *)
Theorem load_partition_without_entry {S : Type} (env : Env S) (args : Args)
    (pc : string) :
  (forall e, read_json env pc = Raise e ->
     load_partition env args pc = (location_print args ++ [EvOpen pc], Raise e))
  /\ (forall meta, read_json env pc = Ok (PDict meta) ->
        meta !! ("part-" +:+ pretty (a_rank args)) = None ->
        load_partition env args pc
        = (location_print args ++ [EvOpen pc],
           Raise (KeyError ("part-" +:+ pretty (a_rank args))))).
Proof.
  split.
  - intros e Hjson. unfold load_partition.
    partition_stops ltac:(do 2 partition_step; rewrite Hjson).
  - intros meta Hjson Hnone. unfold load_partition.
    partition_stops ltac:(do 3 partition_step; cbn [py_getitem]; unfold dict_get;
                          rewrite Hnone).
Qed.

Lemma load_partition_without_entry_witness :
  load_partition (sample_env 1) sample_args (config_path 2)
  = ([EvOpen (config_path 2)], Raise (KeyError "part--1")).
Proof.
  refine (proj2 (load_partition_without_entry (sample_env 1) sample_args
                   (config_path 2)) _ _ _).
  - vm_compute. reflexivity.
  - vm_compute. reflexivity.
Defined.

Section Entry_facts.

Lemma py_contains_cases key v :
  (exists b, py_contains key v = ([], Ok b))
  \/ (exists msg, py_contains key v = ([], Raise (TypeError msg))).
Proof. destruct v; simpl; eauto. Qed.

Lemma py_getitem_not_object v key :
  (forall d, v <> PDict d) ->
  exists msg, py_getitem v key = ([], Raise (TypeError msg)).
Proof. intros Hv. destruct v; simpl; eauto. by destruct (Hv d). Qed.

Lemma py_contains_list l key :
  PStr key ∈ l -> py_contains key (PList l) = ([], Ok true).
Proof.
  intros Hin. simpl. unfold ret. do 2 f_equal.
  apply existsb_exists. exists (PStr key). split.
  - by apply list_elem_of_In.
  - by apply bool_decide_eq_true_2.
Qed.

End Entry_facts.

(** X22. The three assertions do not establish that the entry
    [part-{rank}] is an object.  For an entry of any other kind the block
    ends in an [AssertionError] or a [TypeError] with nothing loaded; a list
    that names [node_feats], [edge_feats] and [part_graph] passes the three
    assertions and fails at [part_files['node_feats']]. *)
Theorem load_partition_entry_not_object {S : Type} (env : Env S) (args : Args)
    (pc : string) (meta : gmap string pyval) (entry : pyval) :
  read_json env pc = Ok (PDict meta) ->
  meta !! ("part-" +:+ pretty (a_rank args)) = Some entry ->
  (forall files, entry <> PDict files) ->
  trace (load_partition env args pc) = location_print args ++ [EvOpen pc]
  /\ (exists msg,
        result (load_partition env args pc) = Raise (AssertionError msg)
        \/ result (load_partition env args pc) = Raise (TypeError msg))
  /\ (forall l, entry = PList l ->
        PStr "node_feats" ∈ l -> PStr "edge_feats" ∈ l -> PStr "part_graph" ∈ l ->
        result (load_partition env args pc)
        = Raise (TypeError "list indices must be integers or slices, not str")).
Proof.
  intros Hjson Hentry Hkind.
  assert (exists e, load_partition env args pc
                    = (location_print args ++ [EvOpen pc], Raise e)
                    /\ ((exists msg, e = AssertionError msg)
                        \/ (exists msg, e = TypeError msg))) as (e & Heq & He).
  { destruct (py_getitem_not_object entry "node_feats" Hkind) as [m0 H0].
    unfold load_partition.
    destruct (py_contains_cases "node_feats" entry) as [[b1 H1]|[m1 H1]].
    2:{ eexists. split; [|right; by eexists].
        partition_stops ltac:(do 4 partition_step; rewrite H1). }
    destruct b1.
    2:{ eexists. split; [|left; by eexists].
        partition_stops ltac:(do 4 partition_step; step_with ltac:(exact H1)). }
    destruct (py_contains_cases "edge_feats" entry) as [[b2 H2]|[m2 H2]].
    2:{ eexists. split; [|right; by eexists].
        partition_stops ltac:(do 4 partition_step; step_with ltac:(exact H1);
                              partition_step; rewrite H2). }
    destruct b2.
    2:{ eexists. split; [|left; by eexists].
        partition_stops ltac:(do 4 partition_step; step_with ltac:(exact H1);
                              partition_step; step_with ltac:(exact H2)). }
    destruct (py_contains_cases "part_graph" entry) as [[b3 H3]|[m3 H3]].
    2:{ eexists. split; [|right; by eexists].
        partition_stops ltac:(do 4 partition_step; step_with ltac:(exact H1);
                              partition_step; step_with ltac:(exact H2);
                              partition_step; rewrite H3). }
    destruct b3.
    2:{ eexists. split; [|left; by eexists].
        partition_stops ltac:(do 4 partition_step; step_with ltac:(exact H1);
                              partition_step; step_with ltac:(exact H2);
                              partition_step; step_with ltac:(exact H3)). }
    eexists. split; [|right; by eexists].
    partition_stops ltac:(do 4 partition_step; step_with ltac:(exact H1);
                          partition_step; step_with ltac:(exact H2);
                          partition_step; step_with ltac:(exact H3);
                          partition_step; rewrite H0). }
  split; [by rewrite Heq|]. split.
  - rewrite Heq, result_pair.
    destruct He as [[msg ->]|[msg ->]]; exists msg; [by left|by right].
  - intros l -> Hnf Hef Hpg. clear Heq He e.
    assert (load_partition env args pc
            = (location_print args ++ [EvOpen pc],
               Raise (TypeError "list indices must be integers or slices, not str")))
      as ->; [|done].
    unfold load_partition.
    partition_stops ltac:(do 4 partition_step;
                          step_with ltac:(by apply py_contains_list); partition_step;
                          step_with ltac:(by apply py_contains_list); partition_step;
                          step_with ltac:(by apply py_contains_list); partition_step).
Qed.

Lemma load_partition_entry_not_object_witness :
  trace (load_partition
           (mkEnv unit ∅ decimal_int true
                  (fun _ => Ok (PDict {[ "part-1" := PNone ]}))
                  (load_tensors (sample_env 1)) (load_graphs (sample_env 1))
                  (lib_step (sample_env 1)) (all_reduce (sample_env 1))
                  (count_correct (sample_env 1)) tt)
           (set_rank sample_args 1) (config_path 2))
  = [EvOpen (config_path 2)].
Proof.
  refine (proj1 (load_partition_entry_not_object _ (set_rank sample_args 1)
                   (config_path 2) {[ "part-1" := PNone ]} PNone _ _ _)).
  - reflexivity.
  - vm_compute. reflexivity.
  - discriminate.
Defined.

(** X23. The loaders are called in the order of the script and a failure
    of one ends the block there: when [load_tensors] fails on the node
    features, [load_graphs] is never called; when [load_graphs] fails, both
    loaders were called, and the block ends in its exception. *)
Theorem load_partition_loader_fails {S : Type} (env : Env S) (args : Args)
    (pc : string) (meta files : gmap string pyval) (nf_file ef_file pg_file : pyval) :
  read_json env pc = Ok (PDict meta) ->
  meta !! ("part-" +:+ pretty (a_rank args)) = Some (PDict files) ->
  files !! "node_feats" = Some nf_file ->
  files !! "edge_feats" = Some ef_file ->
  files !! "part_graph" = Some pg_file ->
  (forall e, load_tensors env nf_file = Raise e ->
     load_partition env args pc
     = (location_print args ++ [EvOpen pc; EvLoadTensors nf_file], Raise e))
  /\ (forall nf e, load_tensors env nf_file = Ok nf ->
        load_graphs env pg_file = Raise e ->
        load_partition env args pc
        = (location_print args
           ++ [EvOpen pc; EvLoadTensors nf_file; EvLoadGraphs pg_file], Raise e)).
Proof.
  intros Hjson Hpart Hnf Hef Hpg. split.
  - intros e Hlt. unfold load_partition.
    partition_stops ltac:(do 5 partition_step; rewrite Hnf;
                          do 2 partition_step; rewrite Hef;
                          do 2 partition_step; rewrite Hpg;
                          do 3 partition_step; rewrite Hlt).
  - intros nf e Hlt Hlg. unfold load_partition.
    partition_stops ltac:(do 5 partition_step; rewrite Hnf;
                          do 2 partition_step; rewrite Hef;
                          do 2 partition_step; rewrite Hpg;
                          do 6 partition_step; rewrite Hlg).
Qed.

Lemma load_partition_loader_fails_witness :
  load_partition
    (mkEnv unit ∅ decimal_int true (read_json (sample_env 1))
           (fun _ => Raise (OSError "node_feats")) (load_graphs (sample_env 1))
           (lib_step (sample_env 1)) (all_reduce (sample_env 1))
           (count_correct (sample_env 1)) tt)
    (set_rank sample_args 1) (config_path 2)
  = ([EvOpen (config_path 2); EvLoadTensors (PStr "part1/node_feat.dgl")],
     Raise (OSError "node_feats")).
Proof.
  refine (proj1 (load_partition_loader_fails _ (set_rank sample_args 1)
                   (config_path 2) _ _ (PStr "part1/node_feat.dgl")
                   (PStr "part1/edge_feat.dgl") (PStr "part1/graph.dgl")
                   _ _ _ _ _) (OSError "node_feats") _).
  - vm_compute. reflexivity.
  - vm_compute. reflexivity.
  - vm_compute. reflexivity.
  - vm_compute. reflexivity.
  - vm_compute. reflexivity.
  - reflexivity.
Defined.

(** X24. The tensors of the node-feature file are read in the order [feat],
    [label], [train_mask], [test_mask], [val_mask], after both files were
    loaded and the metadata gave [num_parts] and [node_map]: a file that
    lacks one of them ends the block in [KeyError] for the first one missing
    in this order, with the graph already loaded. *)
Theorem load_partition_missing_tensor {S : Type} (env : Env S) (args : Args)
    (pc : string) (meta files : gmap string pyval) (nf_file ef_file pg_file : pyval)
    (nf : gmap string tensor) (gr : graph) (num_parts node_map : pyval)
    (pre post : list string) (k : string) :
  read_json env pc = Ok (PDict meta) ->
  meta !! ("part-" +:+ pretty (a_rank args)) = Some (PDict files) ->
  files !! "node_feats" = Some nf_file ->
  files !! "edge_feats" = Some ef_file ->
  files !! "part_graph" = Some pg_file ->
  load_tensors env nf_file = Ok nf ->
  load_graphs env pg_file = Ok gr ->
  meta !! "num_parts" = Some num_parts ->
  meta !! "node_map" = Some node_map ->
  ["feat"; "label"; "train_mask"; "test_mask"; "val_mask"] = pre ++ k :: post ->
  Forall (fun k' => is_Some (nf !! k')) pre ->
  nf !! k = None ->
  load_partition env args pc
  = (location_print args ++ [EvOpen pc; EvLoadTensors nf_file; EvLoadGraphs pg_file],
     Raise (KeyError k)).
Proof.
  intros Hjson Hpart Hnf Hef Hpg Hlt Hlg Hnp Hnm Hkeys Hpre Hk.
  repeat (destruct pre as [|? pre]; cbn [app] in Hkeys;
          [injection Hkeys as <- _
          |injection Hkeys as <- Hkeys;
           apply Forall_cons in Hpre as [[? ?] Hpre]]).
  all: try (by destruct pre).
  all: unfold load_partition;
    partition_stops ltac:(do 5 partition_step; rewrite Hnf;
                          do 2 partition_step; rewrite Hef;
                          do 2 partition_step; rewrite Hpg;
                          repeat partition_step;
                          unfold dict_get; rewrite Hk).
Qed.

Lemma load_partition_missing_tensor_witness :
  load_partition
    (mkEnv unit ∅ decimal_int true (read_json (sample_env 1))
           (fun _ => Ok (delete "label" (sample_node_feats 1)))
           (load_graphs (sample_env 1))
           (lib_step (sample_env 1)) (all_reduce (sample_env 1))
           (count_correct (sample_env 1)) tt)
    (set_rank sample_args 1) (config_path 2)
  = ([EvOpen (config_path 2); EvLoadTensors (PStr "part1/node_feat.dgl");
      EvLoadGraphs (PStr "part1/graph.dgl")],
     Raise (KeyError "label")).
Proof.
  refine (load_partition_missing_tensor _ (set_rank sample_args 1)
            (config_path 2) _ _ (PStr "part1/node_feat.dgl")
            (PStr "part1/edge_feat.dgl") (PStr "part1/graph.dgl")
            (delete "label" (sample_node_feats 1)) sample_graph
            (PInt 2) (PStr "node_map.npy") ["feat"] ["train_mask"; "test_mask"; "val_mask"]
            "label" _ _ _ _ _ _ _ _ _ _ _ _).
  - vm_compute. reflexivity.
  - vm_compute. reflexivity.
  - vm_compute. reflexivity.
  - vm_compute. reflexivity.
  - vm_compute. reflexivity.
  - reflexivity.
  - reflexivity.
  - vm_compute. reflexivity.
  - vm_compute. reflexivity.
  - reflexivity.
  - keys_present.
  - vm_compute. reflexivity.
Defined.

(** X25. Loading a partition changes the graph that [load_graphs] returned
    in the five node-data entries only: its numbers of nodes and edges and
    every other node-data entry are those of the loaded graph, and an entry
    the graph file has under one of the five names is replaced by the tensor
    of the node-feature file. *)
Theorem load_partition_keeps_graph {S : Type} (env : Env S) (args : Args)
    (pc : string) (meta files : gmap string pyval) (nf_file ef_file pg_file : pyval)
    (nf : gmap string tensor) (gr : graph) (num_parts node_map : pyval)
    (feat label train_mask test_mask val_mask : tensor) :
  read_json env pc = Ok (PDict meta) ->
  meta !! ("part-" +:+ pretty (a_rank args)) = Some (PDict files) ->
  files !! "node_feats" = Some nf_file ->
  files !! "edge_feats" = Some ef_file ->
  files !! "part_graph" = Some pg_file ->
  load_tensors env nf_file = Ok nf ->
  load_graphs env pg_file = Ok gr ->
  meta !! "num_parts" = Some num_parts ->
  meta !! "node_map" = Some node_map ->
  nf !! "feat" = Some feat ->
  nf !! "label" = Some label ->
  nf !! "train_mask" = Some train_mask ->
  nf !! "test_mask" = Some test_mask ->
  nf !! "val_mask" = Some val_mask ->
  exists g,
    result (load_partition env args pc) = Ok (g, num_parts, node_map)
    /\ number_of_nodes g = number_of_nodes gr
    /\ number_of_edges g = number_of_edges gr
    /\ (forall k, k ∉ node_data_keys -> ndata g !! k = ndata gr !! k)
    /\ (forall k, k ∈ node_data_keys ->
          ndata g !! k = if bool_decide (k = "label")
                         then Some (tensor_long label) else nf !! k).
Proof.
  intros Hjson Hpart Hnf Hef Hpg Hlt Hlg Hnp Hnm Hfeat Hlabel Htrain Htest Hval.
  eexists. split.
  { erewrite load_partition_Ok by eassumption. reflexivity. }
  split; [reflexivity|]. split; [reflexivity|].
  unfold with_node_data, set_ndata, node_data_keys. cbn [ndata]. split.
  - intros k Hk. rewrite !not_elem_of_cons in Hk.
    destruct Hk as (? & ? & ? & ? & ? & _).
    by rewrite !lookup_insert_ne by done.
  - intros k Hk. rewrite !elem_of_cons in Hk.
    destruct Hk as [->|[->|[->|[->|[->|Hk]]]]]; [..|by apply elem_of_nil in Hk];
      cbn [bool_decide decide_rel];
      repeat first [rewrite lookup_insert_eq | rewrite lookup_insert_ne by done];
      by rewrite ?bool_decide_eq_true_2, ?bool_decide_eq_false_2 by done.
Qed.

Lemma load_partition_keeps_graph_witness :
  exists g,
    result (load_partition (sample_env 1) (set_rank sample_args 1) (config_path 2))
    = Ok (g, PInt 2, PStr "node_map.npy")
    /\ number_of_nodes g = 2.
Proof.
  destruct (load_partition_keeps_graph (sample_env 1) (set_rank sample_args 1)
              (config_path 2) _ _ (PStr "part1/node_feat.dgl")
              (PStr "part1/edge_feat.dgl") (PStr "part1/graph.dgl")
              (sample_node_feats 1) sample_graph (PInt 2) (PStr "node_map.npy")
              {| t_dtype := Float32; t_shape := [2; 1]; t_values := [1; 2]%Q |}
              (tensor1 Float32 [0; 1]%Q) (tensor1 BoolT [1; 0]%Q)
              (tensor1 BoolT [0; 1]%Q) (tensor1 BoolT [0; 0]%Q)
              ltac:(vm_compute; reflexivity) ltac:(vm_compute; reflexivity)
              ltac:(vm_compute; reflexivity) ltac:(vm_compute; reflexivity)
              ltac:(vm_compute; reflexivity) eq_refl eq_refl
              ltac:(vm_compute; reflexivity) ltac:(vm_compute; reflexivity)
              ltac:(vm_compute; reflexivity) ltac:(vm_compute; reflexivity)
              ltac:(vm_compute; reflexivity) ltac:(vm_compute; reflexivity)
              ltac:(vm_compute; reflexivity))
    as (g & Hres & Hn & _).
  exists g. split; [exact Hres|exact Hn].
Defined.
